(** * diffoscope comparison engine: binary.py and directory.py

    A shallow embedding of [diffoscope/comparators/binary.py] and
    [diffoscope/comparators/directory.py], and the properties of the
    comparison engine proved over it.

    Conventions.
    - A Python [str] is a [string] holding its UTF-8 encoding; a Python
      [bytes] is a [string] of arbitrary 8-bit characters.  On well-formed
      UTF-8 the byte-wise order of [String.le] is the code-point order that
      Python uses to compare and sort [str].
    - Python exceptions are the [Raise] results of [result]; code that
      touches attributes of objects ([_as_container]) runs in the monad
      [M], which threads the object [Store] and keeps the store when an
      exception is raised, as Python does.
    - Code of the repository that is not in the two modules (the
      [Difference] class, the [tool_required] decorator, [Container],
      [Command], [compare_files]) is either modelled from the
      specification, and marked so, or taken as a method of one of the
      classes [World] and [Plugins]. *)

From Stdlib Require Import ZArith String Ascii List Lia DecimalString.
From stdpp Require Import base option list gmap sets strings sorting.

Set Warnings "-register-all".

Local Open Scope Z_scope.

(** ** Python values and exceptions *)

Abbreviation str := string.
Abbreviation bytes := string.

(** The exceptions the two modules raise or catch.
    [CalledProcessError] is [subprocess.CalledProcessError] with its
    [returncode], [cmd] and [output] ([None] or bytes);
    [RequiredToolNotFound] carries [command]; every other exception class
    (OSError, AttributeError, UnicodeDecodeError, ...) is a [PyError] with
    the name of the class. *)
Inductive exn : Type :=
| CalledProcessError (returncode : Z) (cmd : list str) (output : option bytes)
| RequiredToolNotFound (command : str)
| PyError (class_name : str).

Inductive result (A : Type) : Type :=
| Ok (a : A)
| Raise (e : exn).
Arguments Ok {A} a.
Arguments Raise {A} e.

Definition rbind {A B} (r : result A) (k : A -> result B) : result B :=
  match r with
  | Ok a => k a
  | Raise e => Raise e
  end.

Declare Scope py_scope.
Delimit Scope py_scope with py.
Notation "'let?' x := r 'in' k" := (rbind r (fun x => k))
  (at level 10, x name, r at level 100, k at level 200, only parsing) : py_scope.
Local Open Scope py_scope.

Fixpoint rmap {A B} (f : A -> result B) (l : list A) : result (list B) :=
  match l with
  | [] => Ok []
  | a :: l' => let? b := f a in let? bs := rmap f l' in Ok (b :: bs)
  end.

(** [filter(None, xs)] on a sequence of [Difference]-or-[None]: a
    [Difference] object is always truthy (the class defines neither
    [__bool__] nor [__len__]), so only the [None]s go. *)
Definition filter_None {A} (l : list (option A)) : list A := omap id l.

(** [' '.join(xs)] and the like. *)
Definition join (sep : str) (l : list str) : str := String.concat sep l.

(** ["%d" % n] *)
Definition format_d (n : Z) : str := NilZero.string_of_int (Z.to_int n).

(** *** UTF-8

    The well-formed byte sequences of UTF-8 (Unicode, table 3-7), as the
    strict and the replacing decoder of Python accept them. *)

Definition byte_in (lo hi : N) (c : ascii) : bool :=
  let n := N_of_ascii c in ((lo <=? n) && (n <=? hi))%N.

(** For a lead byte: the number of continuation bytes and the range the
    first of them must lie in; [None] for a byte that cannot start a
    sequence. *)
Definition utf8_lead (c : ascii) : option (nat * N * N) :=
  let n := N_of_ascii c in
  if (n <? 128)%N then Some (0%nat, 0%N, 0%N)
  else if (n <? 194)%N then None
  else if (n <=? 223)%N then Some (1%nat, 128%N, 191%N)
  else if (n =? 224)%N then Some (2%nat, 160%N, 191%N)
  else if (n =? 237)%N then Some (2%nat, 128%N, 159%N)
  else if (n <=? 239)%N then Some (2%nat, 128%N, 191%N)
  else if (n =? 240)%N then Some (3%nat, 144%N, 191%N)
  else if (n <=? 243)%N then Some (3%nat, 128%N, 191%N)
  else if (n =? 244)%N then Some (3%nat, 128%N, 143%N)
  else None.

(** The number of continuation bytes in [lo..hi] (the first) and
    [128..191] (the others) that [s] starts with, at most [k]. *)
Fixpoint utf8_cont (k : nat) (lo hi : N) (s : bytes) : nat :=
  match k, s with
  | S k', String c s' =>
      if byte_in lo hi c then S (utf8_cont k' 128 191 s') else 0%nat
  | _, _ => 0%nat
  end.

(** One decoding step at [c :: s]: [(true, n)] when the first [n] bytes are
    one well-formed character, [(false, n)] when the first [n] bytes are
    ill-formed and are what one U+FFFD replaces. *)
Definition utf8_step (c : ascii) (s : bytes) : bool * nat :=
  match utf8_lead c with
  | None => (false, 1%nat)
  | Some (k, lo, hi) =>
      let got := utf8_cont k lo hi s in
      (Nat.eqb got k, S got)
  end.

(** [b.decode('utf-8')] succeeds exactly on the well-formed sequences; the
    [str] is then represented by the same bytes.  [skip] is the number of
    bytes of the current character still to pass. *)
Fixpoint utf8_valid_from (skip : nat) (s : bytes) : bool :=
  match s with
  | EmptyString => true
  | String c s' =>
      match skip with
      | S k => utf8_valid_from k s'
      | O => let '(good, n) := utf8_step c s' in
             good && utf8_valid_from (Nat.pred n) s'
      end
  end.

Definition decode_utf8 (b : bytes) : result str :=
  if utf8_valid_from 0 b then Ok b else Raise (PyError "UnicodeDecodeError").

(** U+FFFD in UTF-8. *)
Definition replacement_character : str :=
  String (ascii_of_N 239) (String (ascii_of_N 191) (String (ascii_of_N 189) "")).

(** [b.decode('utf-8', errors='replace')]. [keep] says whether the bytes
    being passed belong to a well-formed character. *)
Fixpoint decode_replace_from (skip : nat) (keep : bool) (s : bytes) : str :=
  match s with
  | EmptyString => ""
  | String c s' =>
      match skip with
      | S k =>
          if keep then String c (decode_replace_from k keep s')
          else decode_replace_from k keep s'
      | O =>
          let '(good, n) := utf8_step c s' in
          if good then String c (decode_replace_from (Nat.pred n) true s')
          else replacement_character +:+ decode_replace_from (Nat.pred n) false s'
      end
  end.

Definition decode_utf8_replace (b : bytes) : str := decode_replace_from 0 true b.

(** [re.sub(r'^', '    ', text, flags=re.MULTILINE)]: four spaces at the
    start of the text and after every newline. *)
Fixpoint indent_after_newlines (s : str) : str :=
  match s with
  | EmptyString => ""
  | String c s' =>
      if Ascii.eqb c "010"%char
      then String c ("    " +:+ indent_after_newlines s')
      else String c (indent_after_newlines s')
  end.

Definition indent_lines (text : str) : str := "    " +:+ indent_after_newlines text.

(** ** The Difference tree

    [diffoscope/difference.py] is not among the modules embedded here; the
    class is modelled from the specification's data model. *)

(** Modelled from the spec: the textual differ and the reversal of a
    unified diff are the out-of-scope "textual unified-diff renderer"; they
    are methods of this class.  [diff] gives [None] when it finds nothing
    to report, and raises [RequiredToolNotFound] when its tool is missing
    (the case [FilesystemDirectory.compare] catches). *)
Class TextDiff := {
  diff : str -> str -> result (option str);
  reverse_unified_diff : str -> str
}.

(** Modelled from the spec: a node holds the two labels, the optional
    textual payload, the comments and the ordered child nodes. *)
Inductive Difference : Type := mkDifference {
  unified_diff : option str;
  source1 : str;
  source2 : str;
  comments : list str;
  details : list Difference
}.

(** The [source] argument of the comparison functions: [None], one label
    (as in [source='file list'] and [source=name]) or a list of two labels
    (as in [source=[file1.name, file2.name]]). *)
Inductive source_label : Type :=
| OneLabel (s : str)
| TwoLabels (s1 s2 : str).

Abbreviation Source := (option source_label).

(** Modelled from the spec: [Difference(unified_diff, path1, path2,
    source=None, comment=None)].  The node is labelled with the two paths,
    or with the [source] label when one is given (one label names both
    sides: the zip test expects [source1 == source2 == 'dir/text'] for a
    member compared with [source=name]); an empty label is falsy. *)
Definition Difference_init (unified_diff : option str) (path1 path2 : str)
    (source : Source) (comment : option str) : Difference :=
  let '(s1, s2) :=
    match source with
    | Some (OneLabel "") | None => (path1, path2)
    | Some (OneLabel s) => (s, s)
    | Some (TwoLabels a b) => (a, b)
    end in
  {| unified_diff := unified_diff;
     source1 := s1; source2 := s2;
     comments := match comment with
                 | Some "" | None => []
                 | Some c => [c]
                 end;
     details := [] |}.

(** Modelled from the spec: [add_comment] appends to the ordered comments. *)
Definition add_comment (d : Difference) (comment : str) : Difference :=
  {| unified_diff := unified_diff d; source1 := source1 d; source2 := source2 d;
     comments := comments d ++ [comment]; details := details d |}.

(** Modelled from the spec: [add_details] appends child nodes in order. *)
Definition add_details (d : Difference) (ds : list Difference) : Difference :=
  {| unified_diff := unified_diff d; source1 := source1 d; source2 := source2 d;
     comments := comments d; details := details d ++ ds |}.

(** Modelled from the spec: [get_reverse], the structural reverse: "swap
    source1/source2 and recursively reverse every descendant the same
    way".  The comments stay; the textual payload goes through
    [reverse_unified_diff]. *)
Fixpoint get_reverse {T : TextDiff} (d : Difference) : Difference :=
  {| unified_diff := reverse_unified_diff <$> unified_diff d;
     source1 := source2 d;
     source2 := source1 d;
     comments := comments d;
     details := map get_reverse (details d) |}.

(** Modelled from the spec: [Difference.from_text(content1, content2,
    path1, path2, source=None, comment=None)]: absent when the differ
    reports nothing, else a leaf with the textual payload. *)
Definition from_text {T : TextDiff} (content1 content2 path1 path2 : str)
    (source : Source) (comment : option str) : result (option Difference) :=
  let? u := diff content1 content2 in
  match u with
  | None => Ok None
  | Some text => Ok (Some (Difference_init (Some text) path1 path2 source comment))
  end.

(** The node at a position of the tree: [[]] is the root, [i :: p] is
    position [p] below the [i]-th detail. *)
Fixpoint node_at (p : list nat) (d : Difference) : option Difference :=
  match p with
  | [] => Some d
  | i :: p' =>
      match details d !! i with
      | Some c => node_at p' c
      | None => None
      end
  end.

(** ** binary.py: files, containers and the object store *)

(** A [File] object.  [RealFile] is a [FilesystemFile] or an instance of a
    specialised subclass: [cls] names its class, [_name] is the logical
    name, [file_path] what the [path] property returns ([_name] itself for
    a [FilesystemFile]).  [NonExistingFile] has its [_other_file]
    attribute, [None] until the creator assigns it.  [oid] is the identity
    of the Python object. *)
Inductive File : Type :=
| RealFile (oid : nat) (cls : str) (_name : str) (file_path : str)
| NonExistingFile (oid : nat) (_name : str) (_other_file : option File).

Definition oid_of (f : File) : nat :=
  match f with
  | RealFile o _ _ _ | NonExistingFile o _ _ => o
  end.

Definition FilesystemFile (oid : nat) (path : str) : File :=
  RealFile oid "FilesystemFile" path path.

(** [File.name] *)
Definition name (f : File) : str :=
  match f with
  | RealFile _ _ n _ | NonExistingFile _ n _ => n
  end.

(** [path]: abstract in [File]; ['/dev/null'] for a [NonExistingFile]. *)
Definition path (f : File) : str :=
  match f with
  | RealFile _ _ _ p => p
  | NonExistingFile _ _ _ => "/dev/null"
  end.

(** Modelled from the spec: a [Container] object "holds a reference to its
    owning Entity (source)"; [container_id] is the identity of the object,
    [container_class] the class it was made from. *)
Record Container : Type := mkContainer {
  container_id : nat;
  container_class : str;
  container_source : File
}.

(** The mutable part of the objects: the next free object identity and the
    [_as_container] attribute of each [File] object that has one. *)
Record Store : Type := mkStore {
  next_id : nat;
  _as_container : gmap nat Container
}.

Definition M (A : Type) : Type := Store -> result A * Store.

Definition ret {A} (a : A) : M A := fun s => (Ok a, s).
Definition raise {A} (e : exn) : M A := fun s => (Raise e, s).
Definition bind {A B} (m : M A) (k : A -> M B) : M B :=
  fun s => match m s with
           | (Ok a, s') => k a s'
           | (Raise e, s') => (Raise e, s')
           end.
(** [try: m except ...: handler e]; the handler re-raises what it does not
    catch. *)
Definition try_except {A} (m : M A) (handler : exn -> M A) : M A :=
  fun s => match m s with
           | (Ok a, s') => (Ok a, s')
           | (Raise e, s') => handler e s'
           end.
Definition lift {A} (r : result A) : M A := fun s => (r, s).

Notation "'do' x <- m ; k" := (bind m (fun x => k))
  (at level 10, x name, m at level 100, k at level 200, only parsing) : py_scope.

Fixpoint mapM {A B} (f : A -> M B) (l : list A) : M (list B) :=
  match l with
  | [] => ret []
  | a :: l' => do b <- f a; do bs <- mapM f l'; ret (b :: bs)
  end.

(** An entry of the file system as [os.walk] sees it: a directory with its
    entries in the order [os.scandir] yields them, a symbolic link to a
    directory (listed among the directories, not entered), or anything
    else. *)
Inductive Node : Type :=
| NFile
| NLinkToDir
| NDir (entries : list (str * Node)).

(** What lies outside the program: the installed tools, the file system
    and the processes it runs. *)
Class World := {
  (** [find_executable(command)], as [tool_required] asks it *)
  find_executable : str -> bool;
  (** [open(path, 'rb').read()]; [os.path.getsize(path)] is the length of
      it; [None] when the path cannot be opened *)
  file_content : str -> option bytes;
  (** exit status of [subprocess.call(['cmp', '-s', path1, path2])] *)
  cmp_s : str -> str -> Z;
  (** the lines a command writes to its output, or the exception running
      it raises ([CalledProcessError] on a non-zero exit) *)
  run_command : list str -> result (list bytes);
  (** [lsattr -d path] as [subprocess.check_output] returns it *)
  check_output_lsattr : str -> result bytes;
  (** the entry found at a path, for [os.walk]; [None] when there is none *)
  tree_at : str -> option Node;
  (** [os.path.realpath] *)
  realpath : str -> str
}.

(** Modelled from the spec: the [tool_required(command)] decorator of the
    package: "tool-unavailability is a hard failure" of the decorated
    function, which raises [RequiredToolNotFound(command)] whatever its
    arguments when the tool is not installed. *)
Definition tool_required {W : World} {A} (command : str) (body : result A) : result A :=
  if find_executable command then body else Raise (RequiredToolNotFound command).

(** Modelled from the spec: a [Command] of [diffoscope.comparators.utils]
    is given by its command line (guarded by [tool_required]) and the
    [filter] applied to each line of its output. *)
Record Command : Type := mkCommand {
  cmdline : result (list str);
  filter : bytes -> result bytes
}.

(** The output of a command, line by line through its filter. *)
Definition filtered_output {W : World} (c : Command) : result str :=
  let? argv := cmdline c in
  let? lines := run_command argv in
  let? filtered := rmap (filter c) lines in
  Ok (String.concat "" filtered).

(** Modelled from the spec: [Difference.from_command(klass, path1, path2,
    source=...)] runs the command on both paths and diffs the two filtered
    outputs as text.  The specification does not say how the node is
    labelled when no [source] is given; no theorem states the labels of
    such a node. *)
Definition from_command {W : World} {T : TextDiff} (klass : str -> Command)
    (path1 path2 : str) (source : Source) : result (option Difference) :=
  let? out1 := filtered_output (klass path1) in
  let? out2 := filtered_output (klass path2) in
  from_text out1 out2 path1 path2 source None.

(** The format plugins and the other collaborators of the two modules,
    which live elsewhere in the package. *)
Class Plugins := {
  (** the [CONTAINER_CLASS] attribute of a class of files, when it has one *)
  CONTAINER_CLASS : str -> option str;
  (** the [compare_details] method of a class of files, when it has one *)
  compare_details : str -> option (File -> File -> Source -> M (list (option Difference)));
  (** a [compare] method that a class of files defines for itself in place
      of [File.compare] *)
  compare_specialized : str -> option (File -> File -> Source -> M (option Difference));
  (** [Container.compare(other_container)] *)
  Container_compare : Container -> option Container -> M (list (option Difference));
  (** the [Xxd] command of [diffoscope.comparators.utils] *)
  Xxd : str -> Command;
  (** [RequiredToolNotFound.get_package()] for the exception of a command *)
  get_package : str -> option str;
  (** [diffoscope.comparators.compare_files] *)
  compare_files : File -> File -> Source -> M (option Difference)
}.

Section Binary.
Context {W : World} {T : TextDiff} {P : Plugins}.

(** [hexlify]: two lower-case hexadecimal digits per byte. *)
Definition hex_digit (n : N) : ascii :=
  if (n <? 10)%N then ascii_of_N (48 + n) else ascii_of_N (87 + n).

Definition hexlify_byte (c : ascii) : str :=
  let n := N_of_ascii c in
  String (hex_digit (n / 16)) (String (hex_digit (n mod 16)) "").

(** The loop of [hexdump_fallback] over the content: [room] is what is
    left of the 32 bytes of the current [f.read(32)]; each buffer is
    written as its [hexlify] and a newline. *)
Fixpoint hexdump_lines (room : nat) (content : bytes) : str :=
  match content with
  | EmptyString => if Nat.eqb room 32 then "" else String "010" ""
  | String c rest =>
      match room with
      | O => String "010" (hexlify_byte c +:+ hexdump_lines 31 rest)
      | S r => hexlify_byte c +:+ hexdump_lines r rest
      end
  end.

Definition open_read (path : str) : result bytes :=
  match file_content path with
  | Some b => Ok b
  | None => Raise (PyError "OSError")
  end.

Definition hexdump_fallback (path : str) : result str :=
  let? content := open_read path in
  Ok (hexdump_lines 32 content).

Definition compare_binary_files (file1 file2 : File) (source : Source)
  : result (option Difference) :=
  match from_command Xxd (path file1) (path file2)
          (Some (TwoLabels (name file1) (name file2))) with
  | Raise (RequiredToolNotFound _) =>
      let? hexdump1 := hexdump_fallback (path file1) in
      let? hexdump2 := hexdump_fallback (path file2) in
      let comment := "xxd not available in path. Falling back to Python hexlify." +:+ String "010" "" in
      from_text hexdump1 hexdump2 (name file1) (name file2) source (Some comment)
  | r => r
  end.

Definition SMALL_FILE_THRESHOLD : Z := 65536.

(** The class of a [File] object. *)
Definition class_of (f : File) : str :=
  match f with
  | RealFile _ cls _ _ => cls
  | NonExistingFile _ _ _ => "NonExistingFile"
  end.

(** [klass(self)] for a container class: a new [Container] object. *)
Definition new_container (klass : str) (self : File) : M Container :=
  fun s => (Ok (mkContainer (next_id s) klass self),
            mkStore (S (next_id s)) (_as_container s)).

(** [File.cleanup] *)
Definition cleanup (self : File) : M unit :=
  fun s =>
    match _as_container s !! oid_of self with
    | Some _ => (Ok tt, mkStore (next_id s) (delete (oid_of self) (_as_container s)))
    | None => (Ok tt, s)
    end.

(** [File.__del__] *)
Definition __del__ (self : File) : M unit := cleanup self.

(** [File.as_container].  [NonExistingFile] defines no [CONTAINER_CLASS]
    and is the class with an [_other_file] attribute; looking up
    [CONTAINER_CLASS] on the class of [_other_file] raises
    [AttributeError] when that class (or [NoneType]) has none. *)
Definition as_container (self : File) : M (option Container) :=
  match self with
  | NonExistingFile _ _ other =>
      match other with
      | Some o =>
          match o with
          | RealFile _ cls _ _ =>
              match CONTAINER_CLASS cls with
              | Some klass => do c <- new_container klass self; ret (Some c)
              | None => raise (PyError "AttributeError")
              end
          | NonExistingFile _ _ _ => raise (PyError "AttributeError")
          end
      | None => raise (PyError "AttributeError")
      end
  | RealFile o cls _ _ =>
      match CONTAINER_CLASS cls with
      | None => ret None
      | Some klass =>
          fun s =>
            match _as_container s !! o with
            | None =>
                match new_container klass self s with
                | (Ok c, s') =>
                    (Ok (Some c), mkStore (next_id s') (<[o := c]> (_as_container s')))
                | (Raise e, s') => (Raise e, s')
                end
            | Some c => (Ok (Some c), s)
            end
      end
  end.

(** [File.compare_bytes] *)
Definition compare_bytes (self other : File) (source : Source) : M (option Difference) :=
  lift (compare_binary_files self other source).

(** [hasattr(self, 'compare_details')] *)
Definition has_compare_details (self : File) : bool :=
  match self with
  | RealFile _ cls _ _ => bool_decide (is_Some (compare_details cls))
  | NonExistingFile _ _ _ => false
  end.

Definition call_compare_details (self other : File) (source : Source)
  : M (list (option Difference)) :=
  match compare_details (class_of self) with
  | Some f => f self other source
  | None => raise (PyError "AttributeError")
  end.

(** [File._compare_using_details].  A [Container] object is truthy. *)
Definition _compare_using_details (self other : File) (source : Source)
  : M (option Difference) :=
  do details1 <-
    (if has_compare_details self
     then do ds <- call_compare_details self other source; ret (filter_None ds)
     else ret []);
  do c <- as_container self;
  do details2 <-
    match c with
    | Some _ =>
        do mine <- as_container self;
        do theirs <- as_container other;
        match mine with
        | Some mine =>
            do ds <- Container_compare mine theirs; ret (filter_None ds)
        | None => raise (PyError "AttributeError")
        end
    | None => ret []
    end;
  let details := (details1 ++ details2)%list in
  match details with
  | [] => ret None
  | _ =>
      let difference := Difference_init None (name self) (name other) source None in
      ret (Some (add_details difference details))
  end.

(** [os.path.getsize] *)
Definition getsize (path : str) : result Z :=
  let? content := open_read path in Ok (Z.of_nat (String.length content)).

(** [File.has_same_content_as], under its [tool_required('cmp')]. *)
Definition has_same_content_as (self other : File) : result bool :=
  tool_required "cmp" (
    let? my_size := getsize (path self) in
    let? other_size := getsize (path other) in
    let call_cmp := Ok (0 =? cmp_s (path self) (path other)) in
    if (my_size =? other_size) && (my_size <=? SMALL_FILE_THRESHOLD)
    then
      let? mine := open_read (path self) in
      let? theirs := open_read (path other) in
      if String.eqb mine theirs then Ok true else call_cmp
    else call_cmp).

(** The test of [File.compare]:
    [hasattr(self, 'compare_details') or self.as_container]. *)
Definition has_details_or_container (self : File) : M bool :=
  if has_compare_details self then ret true
  else do c <- as_container self; ret (bool_decide (is_Some c)).

(** [File.compare] *)
Definition File_compare (self other : File) (source : Source) : M (option Difference) :=
  do by_details <- has_details_or_container self;
  if by_details : bool then
    try_except
      (do difference <- _compare_using_details self other source;
       match difference with
       | None =>
           do difference <- compare_bytes self other source;
           match difference with
           | None => ret None
           | Some d =>
               ret (Some (add_comment d "No differences found inside, yet data differs"))
           end
       | Some d => ret (Some d)
       end)
      (fun e =>
         match e with
         | CalledProcessError returncode cmd e_output =>
             do difference <- compare_bytes self other source;
             let output :=
               match e_output with
               | Some (String c o) => indent_lines (decode_utf8_replace (String c o))
               | _ => "<none>"
               end in
             let cmd := join " " cmd in
             match difference with
             | None => ret None
             | Some d =>
                 ret (Some (add_comment d
                   ("Command `" +:+ cmd +:+ "` exited with " +:+ format_d returncode
                    +:+ ". Output:" +:+ String "010" "" +:+ output)))
             end
         | RequiredToolNotFound command =>
             do difference <- compare_bytes self other source;
             match difference with
             | None => ret None
             | Some d =>
                 let d := add_comment d
                   ("'" +:+ command +:+ "' not available in path. Falling back to binary comparison.") in
                 match get_package command with
                 | Some (String c p) =>
                     ret (Some (add_comment d
                       ("Install '" +:+ String c p +:+ "' to get a better output.")))
                 | _ => ret (Some d)
                 end
             end
         | PyError _ => raise e
         end)
  else compare_bytes self other source.

(** [other.compare(self, source)] for an object that is not a
    [NonExistingFile]: the [compare] of its class, which is [File.compare]
    unless the class defines its own. *)
Definition RealFile_compare (self other : File) (source : Source) : M (option Difference) :=
  match compare_specialized (class_of self) with
  | Some f => f self other source
  | None => File_compare self other source
  end.

(** [NonExistingFile.compare] *)
Definition NonExistingFile_compare (self other : File) (source : Source)
  : M (option Difference) :=
  match other with
  | NonExistingFile _ _ _ =>
      ret (Some (Difference_init None (name self) (name other) None
                   (Some "Trying to compare two non-existing files.")))
  | RealFile _ _ _ _ =>
      do backward_diff <- RealFile_compare other self source;
      match backward_diff with
      | None => ret None
      | Some d => ret (Some (get_reverse d))
      end
  end.

(** [NonExistingFile.has_same_content_as], [is_directory], [is_symlink],
    [is_device] and [get_device] *)
Definition NonExistingFile_has_same_content_as (self other : File) : bool := false.
Definition NonExistingFile_is_directory (self : File) : bool := false.
Definition NonExistingFile_is_symlink (self : File) : bool := false.
Definition NonExistingFile_is_device (self : File) : bool := false.
Definition NonExistingFile_get_device (self : File) : str := "".

(** [self.compare(other, source)], by the class of [self]. *)
Definition compare (self other : File) (source : Source) : M (option Difference) :=
  match self with
  | NonExistingFile _ _ _ => NonExistingFile_compare self other source
  | RealFile _ _ _ _ => RealFile_compare self other source
  end.
End Binary.

(** ** directory.py *)

(** *** Paths and [os.walk] *)

Definition starts_with_slash (s : str) : bool :=
  match s with
  | String c _ => Ascii.eqb c "/"
  | EmptyString => false
  end.

Fixpoint ends_with_slash (s : str) : bool :=
  match s with
  | EmptyString => false
  | String c EmptyString => Ascii.eqb c "/"
  | String _ s' => ends_with_slash s'
  end.

(** [os.path.join(a, b)] of [posixpath] *)
Definition os_path_join (a b : str) : str :=
  if starts_with_slash b then b
  else if String.eqb a "" || ends_with_slash a then a +:+ b
  else a +:+ "/" +:+ b.

(** [s[n:]] *)
Fixpoint slice_from (n : nat) (s : str) : str :=
  match n, s with
  | O, _ => s
  | S n', String _ s' => slice_from n' s'
  | S _, EmptyString => ""
  end.

(** The names [os.walk] puts in [dirs] (directories and links to them)
    and in [files] (the rest), in the order of the entries. *)
Definition is_dir (n : Node) : bool :=
  match n with
  | NFile => false
  | NLinkToDir | NDir _ => true
  end.

Definition dirnames (entries : list (str * Node)) : list str :=
  map fst (List.filter (fun e => is_dir (snd e)) entries).

Definition filenames (entries : list (str * Node)) : list str :=
  map fst (List.filter (fun e => negb (is_dir (snd e))) entries).

(** [os.walk(top)], top-down, not following links, on the entry [n] found
    at [top]: the triple of a directory, then the walks of its
    sub-directories in order. *)
Fixpoint os_walk (top : str) (n : Node) : list (str * list str * list str) :=
  match n with
  | NDir entries =>
      (top, dirnames entries, filenames entries) ::
      (fix below (es : list (str * Node)) : list (str * list str * list str) :=
         match es with
         | [] => []
         | (child_name, child) :: es' =>
             (match child with
              | NDir _ => os_walk (os_path_join top child_name) child
              | _ => []
              end ++ below es')%list
         end) entries
  | _ => []
  end.

(** [sorted(...)] and [list.sort()] on strings *)
Definition sorted (l : list str) : list str := merge_sort String.le l.

(** *** Regular expressions of the [Stat] filter *)

(** Regular expressions are matched at the start of a string, giving the
    rest of the string after the match. *)
Fixpoint lit (p s : str) : option str :=
  match p with
  | EmptyString => Some s
  | String a p' =>
      match s with
      | String b s' => if Ascii.eqb a b then lit p' s' else None
      | EmptyString => None
      end
  end.

(** [[...]*]: greedy, the longest run of characters of the class *)
Fixpoint many (P : ascii -> bool) (s : str) : str :=
  match s with
  | String c s' => if P c then many P s' else s
  | EmptyString => ""
  end.

(** [[...]+] *)
Definition many1 (P : ascii -> bool) (s : str) : option str :=
  match s with
  | String c s' => if P c then Some (many P s') else None
  | EmptyString => None
  end.

(** [[...]{n}] *)
Fixpoint exactly (n : nat) (P : ascii -> bool) (s : str) : option str :=
  match n with
  | O => Some s
  | S n' =>
      match s with
      | String c s' => if P c then exactly n' P s' else None
      | EmptyString => None
      end
  end.

Definition then_ (m1 m2 : str -> option str) (s : str) : option str :=
  match m1 s with
  | Some rest => m2 rest
  | None => None
  end.

Definition is_digit (c : ascii) : bool := byte_in 48 57 c.
Definition is_hex (c : ascii) : bool := byte_in 48 57 c || byte_in 97 102 c.
Definition is_newline (c : ascii) : bool := Ascii.eqb c "010".

(** [.*$] without MULTILINE: the run up to the first newline must reach
    the end of the string or the newline that ends it; a shorter run
    cannot help, since [$] matches nowhere else. *)
Definition dot_star_eol (s : str) : option str :=
  let rest := many (fun c => negb (is_newline c)) s in
  match rest with
  | EmptyString => Some rest
  | String c EmptyString => if is_newline c then Some rest else None
  | _ => None
  end.

(** The width in bytes of the white-space character ([\s] of a [str]
    pattern, [str.isspace]) a string starts with, 0 when it starts with
    none: U+0009..000D, U+001C..0020, U+0085, U+00A0, U+1680,
    U+2000..200A, U+2028, U+2029, U+202F, U+205F, U+3000. *)
Definition space_width (s : str) : nat :=
  match s with
  | String c s1 =>
      if byte_in 9 13 c || byte_in 28 32 c then 1%nat
      else
        match s1 with
        | String c2 s2 =>
            if byte_in 194 194 c && (byte_in 133 133 c2 || byte_in 160 160 c2) then 2%nat
            else
              match s2 with
              | String c3 _ =>
                  if (byte_in 225 225 c && byte_in 154 154 c2 && byte_in 128 128 c3)
                     || (byte_in 226 226 c && byte_in 128 128 c2
                         && (byte_in 128 138 c3 || byte_in 168 169 c3 || byte_in 175 175 c3))
                     || (byte_in 226 226 c && byte_in 129 129 c2 && byte_in 159 159 c3)
                     || (byte_in 227 227 c && byte_in 128 128 c2 && byte_in 128 128 c3)
                  then 3%nat else 0%nat
              | EmptyString => 0%nat
              end
        | EmptyString => 0%nat
        end
  | EmptyString => 0%nat
  end.

(** [\s*]: [skip] is the number of bytes of the current white-space
    character still to pass. *)
Fixpoint spaces_from (skip : nat) (s : str) : str :=
  match s with
  | EmptyString => ""
  | String _ s' =>
      match skip with
      | S k => spaces_from k s'
      | O => match space_width s with
             | O => s
             | S w => spaces_from w s'
             end
      end
  end.

Definition spaces (s : str) : option str := Some (spaces_from 0 s).

(** [pattern.sub('', s)] for a pattern that matches no empty string:
    every match, leftmost first, is dropped.  [skip] is what is left of
    the match being dropped. *)
Fixpoint sub_from (m : str -> option str) (skip : nat) (s : str) : str :=
  match s with
  | EmptyString => ""
  | String c s' =>
      match skip with
      | S k => sub_from m k s'
      | O =>
          match m s with
          | Some rest =>
              match (String.length s - String.length rest)%nat with
              | O => String c (sub_from m 0 s')
              | S k => sub_from m k s'
              end
          | None => String c (sub_from m 0 s')
          end
      end
  end.

Definition re_sub (m : str -> option str) (s : str) : str := sub_from m 0 s.

(** The same for a pattern that starts with [^] (no MULTILINE): it can
    match at the start of the string only. *)
Definition re_sub_anchored (m : str -> option str) (s : str) : str :=
  match m s with
  | Some rest => rest
  | None => s
  end.

(** [r'^\s*File:.*$'] *)
Definition FILE_RE : str -> option str :=
  then_ spaces (then_ (lit "File:") dot_star_eol).
(** [r'Device: [0-9a-f]+h/[0-9]+d'].  The greedy runs need no
    backtracking: ['h'] is no hexadecimal digit and ['d'] no digit. *)
Definition DEVICE_RE : str -> option str :=
  then_ (lit "Device: ") (then_ (many1 is_hex) (then_ (lit "h/")
    (then_ (many1 is_digit) (lit "d")))).
(** [r'Inode: [0-9]+'] *)
Definition INODE_RE : str -> option str := then_ (lit "Inode: ") (many1 is_digit).
(** [r'Links: [0-9]+'] *)
Definition LINKS_RE : str -> option str := then_ (lit "Links: ") (many1 is_digit).

Definition date_then_rest : str -> option str :=
  then_ (exactly 4 is_digit) (then_ (lit "-") (then_ (exactly 2 is_digit)
    (then_ (lit "-") (then_ (exactly 2 is_digit) dot_star_eol)))).
(** [r'^Access: [0-9]{4}-[0-9]{2}-[0-9]{2}.*$'] *)
Definition ACCESS_TIME_RE : str -> option str := then_ (lit "Access: ") date_then_rest.
(** [r'^Change: [0-9]{4}-[0-9]{2}-[0-9]{2}.*$'] *)
Definition CHANGE_TIME_RE : str -> option str := then_ (lit "Change: ") date_then_rest.

Section Directory.
Context {W : World} {T : TextDiff} {P : Plugins}.

Definition walk (path : str) : list (str * list str * list str) :=
  match tree_at path with
  | Some n => os_walk path n
  | None => []
  end.

(** [list_files] *)
Definition list_files (path : str) : list str :=
  let path := realpath path in
  let all_files :=
    flat_map (fun '(root, dirs, names) =>
                let rel := slice_from (String.length path + 1) root in
                (map (os_path_join rel) dirs ++ map (os_path_join rel) names)%list)
             (walk path) in
  sorted all_files.

(** [Stat.filter] *)
Definition Stat_filter (line : bytes) : result bytes :=
  let? line := decode_utf8 line in
  let line := re_sub_anchored FILE_RE line in
  let line := re_sub DEVICE_RE line in
  let line := re_sub INODE_RE line in
  let line := re_sub LINKS_RE line in
  let line := re_sub_anchored ACCESS_TIME_RE line in
  let line := re_sub_anchored CHANGE_TIME_RE line in
  Ok line.

(** [Stat] *)
Definition Stat (path : str) : Command :=
  {| cmdline := tool_required "stat" (Ok ["stat"; path]);
     filter := Stat_filter |}.

(** [Getfacl]; it inherits the [filter] of [Command], which leaves a line
    as it is. *)
Definition Getfacl (path : str) : Command :=
  {| cmdline := tool_required "getfacl" (Ok ["getfacl"; "-p"; "-c"; path]);
     filter := Ok |}.
(** The first word of [output.split()], [IndexError] when there is none:
    [skip] is what is left of a white-space character being passed, [word]
    the word read so far, in reverse. *)
Fixpoint first_word_from (skip : nat) (word : option str) (s : str) : option str :=
  match s with
  | EmptyString => String.rev <$> word
  | String c s' =>
      match skip with
      | S k => first_word_from k word s'
      | O =>
          match space_width s, word with
          | O, None => first_word_from 0 (Some (String c "")) s'
          | O, Some w => first_word_from 0 (Some (String c w)) s'
          | S k, None => first_word_from k None s'
          | S _, Some w => Some (String.rev w)
          end
      end
  end.

(** [lsattr], under its [tool_required('lsattr')]; the function falls off
    its end, returning [None], after a [CalledProcessError] whose
    [returncode] is not 1. *)
Definition lsattr (path : str) : result (option str) :=
  tool_required "lsattr" (
    match check_output_lsattr path with
    | Ok out =>
        let? output := decode_utf8 out in
        match first_word_from 0 None output with
        | Some w => Ok (Some w)
        | None => Raise (PyError "IndexError")
        end
    | Raise (CalledProcessError returncode _ _) =>
        if returncode =? 1 then Ok (Some "") else Ok None
    | Raise e => Raise e
    end).

(** [try: differences.append(r) except RequiredToolNotFound: log] *)
Definition append_unless_tool_missing (differences : list (option Difference))
    (r : result (option Difference)) : result (list (option Difference)) :=
  match r with
  | Ok d => Ok (differences ++ [d])%list
  | Raise (RequiredToolNotFound _) => Ok differences
  | Raise e => Raise e
  end.

(** [compare_meta].  A content that is [None] is no text for
    [Difference.from_text], which fails with [TypeError] on it. *)
Definition compare_meta (path1 path2 : str) : result (list Difference) :=
  let differences := [] in
  let? differences :=
    append_unless_tool_missing differences (from_command Stat path1 path2 None) in
  let? differences :=
    append_unless_tool_missing differences (
      let? lsattr1 := lsattr path1 in
      let? lsattr2 := lsattr path2 in
      match lsattr1, lsattr2 with
      | Some l1, Some l2 => from_text l1 l2 path1 path2 (Some (OneLabel "lattr")) None
      | _, _ => Raise (PyError "TypeError")
      end) in
  let? differences :=
    append_unless_tool_missing differences (from_command Getfacl path1 path2 None) in
  Ok (filter_None differences).

(** A [FilesystemDirectory] object. *)
Record FilesystemDirectory : Type := mkFilesystemDirectory { _path : str }.

(** The [path] and [name] properties, [is_directory] and
    [has_same_content_as] ("no shortcut") of [FilesystemDirectory]. *)
Definition dir_path (d : FilesystemDirectory) : str := _path d.
Definition dir_name (d : FilesystemDirectory) : str := _path d.
Definition FilesystemDirectory_is_directory (d : FilesystemDirectory) : bool := true.
Definition FilesystemDirectory_has_same_content_as (d other : FilesystemDirectory) : bool :=
  false.

(** The body of the loop of [get_member_names]: what one triple of the
    walk adds to [names]. *)
Definition names_of (path : str) (triple : str * list str * list str) : list str :=
  let '(root, _, files) := triple in
  let root := if String.eqb root path then ""
              else slice_from (String.length path + 1) root in
  map (os_path_join root) files.

(** [DirectoryContainer.get_member_names], for the container whose
    [source.path] is [path]. *)
Definition get_member_names (path : str) : list str :=
  flat_map (names_of path) (walk path).

(** [DirectoryContainer.get_member]: a new [FilesystemFile] object. *)
Definition get_member (path : str) (member_name : str) : M File :=
  fun s => (Ok (FilesystemFile (next_id s) (os_path_join path member_name)),
            mkStore (S (next_id s)) (_as_container s)).

(** [sorted(set(my_names).intersection(other_names))].  The order in which
    Python iterates the set plays no part: sorting any enumeration of its
    elements gives the same sequence ([sorted_of_permutation]). *)
Definition common_names (my_names other_names : list str) : list str :=
  sorted (elements ((list_to_set my_names : gset str) ∩ list_to_set other_names)).

(** The body of the loop of [FilesystemDirectory.compare] for one common
    name: what it appends to [differences], if anything. *)
Definition compare_member (self other : FilesystemDirectory) (member_name : str)
  : M (option Difference) :=
  do my_file <- get_member (dir_path self) member_name;
  do other_file <- get_member (dir_path other) member_name;
  do inner_difference <- compare_files my_file other_file (Some (OneLabel member_name));
  do meta_differences <- lift (compare_meta (name my_file) (name other_file));
  let inner_difference :=
    match meta_differences, inner_difference with
    | _ :: _, None => Some (Difference_init None (path my_file) (path other_file) None None)
    | _, _ => inner_difference
    end in
  match inner_difference with
  | Some d => ret (Some (add_details d meta_differences))
  | None => ret None
  end.

(** The listing diff of [FilesystemDirectory.compare], with its
    [except RequiredToolNotFound]. *)
Definition listing_differences (self other : FilesystemDirectory)
  : result (list Difference) :=
  match from_text (join (String "010" "") (list_files (dir_path self)))
                  (join (String "010" "") (list_files (dir_path other)))
                  (dir_path self) (dir_path other) (Some (OneLabel "file list")) None with
  | Ok (Some listing_diff) => Ok [listing_diff]
  | Ok None => Ok []
  | Raise (RequiredToolNotFound _) => Ok []
  | Raise e => Raise e
  end.

(** [FilesystemDirectory.compare] *)
Definition FilesystemDirectory_compare (self other : FilesystemDirectory) (source : Source)
  : M (option Difference) :=
  do listing <- lift (listing_differences self other);
  do meta <- lift (compare_meta (dir_name self) (dir_name other));
  let my_names := get_member_names (dir_path self) in
  let other_names := get_member_names (dir_path other) in
  do members <- mapM (compare_member self other) (common_names my_names other_names);
  let differences := (listing ++ meta ++ filter_None members)%list in
  match differences with
  | [] => ret None
  | _ =>
      let difference := Difference_init None (dir_path self) (dir_path other) source None in
      ret (Some (add_details difference differences))
  end.

(** [compare_directories] *)
Definition compare_directories (path1 path2 : str) (source : Source) : M (option Difference) :=
  FilesystemDirectory_compare (mkFilesystemDirectory path1) (mkFilesystemDirectory path2) None.
End Directory.

(** ** The enumeration of a directory, in the words of the specification *)

Fixpoint contains_slash (s : str) : bool :=
  match s with
  | EmptyString => false
  | String c s' => Ascii.eqb c "/" || contains_slash s'
  end.

(** The name of a directory entry: not empty, and without a separator. *)
Definition valid_name (nm : str) : bool :=
  negb (String.eqb nm "") && negb (contains_slash nm).

(** Every entry of the tree has such a name. *)
Fixpoint well_named (n : Node) : bool :=
  match n with
  | NDir entries =>
      (fix all (es : list (str * Node)) : bool :=
         match es with
         | [] => true
         | (child_name, child) :: es' =>
             valid_name child_name && well_named child && all es'
         end) entries
  | _ => true
  end.

(** "Full recursive enumeration of descendant file paths (directories
    enumerate recursively)": the files of a directory, then for each of its
    sub-directories, in order, the enumeration of the sub-directory with
    the name of the sub-directory and a separator put before each path.
    The paths are relative to the directory.  A link to a directory is no
    file and is not entered. *)
Fixpoint descendant_files (n : Node) : list str :=
  match n with
  | NDir entries =>
      (filenames entries ++
       (fix below (es : list (str * Node)) : list str :=
          match es with
          | [] => []
          | (child_name, child) :: es' =>
              (match child with
               | NDir _ =>
                   map (fun p => child_name +:+ "/" +:+ p) (descendant_files child)
               | _ => []
               end ++ below es')
          end) entries)%list
  | _ => []
  end.

(** ** Sample worlds

    Concrete instances of the three classes, on which the theorems below
    are run. *)

Definition nl : str := String "010" "".
Definition tab : str := String "009" "".

Fixpoint assoc {A} (key : str) (table : list (str * A)) : option A :=
  match table with
  | [] => None
  | (k, v) :: rest => if String.eqb key k then Some v else assoc key rest
  end.

(** A differ that reports the two texts when they are not the same. *)
Definition plain_diff : TextDiff :=
  {| diff a b := if String.eqb a b then Ok None
                 else Ok (Some ("-" +:+ a +:+ "+" +:+ b));
     reverse_unified_diff u := "reversed:" +:+ u |}.

(** The differ on a machine without [diff]. *)
Definition missing_diff : TextDiff :=
  {| diff _ _ := Raise (RequiredToolNotFound "diff");
     reverse_unified_diff u := u |}.

(** Every character of the string is in the class. *)
Fixpoint all_chars (P : ascii -> bool) (s : str) : bool :=
  match s with
  | EmptyString => true
  | String c s' => P c && all_chars P s'
  end.

Fixpoint blanks (n : nat) : str :=
  match n with
  | O => ""
  | S n' => String " " (blanks n')
  end.

(** [%-10i] and the like: the text, padded on the right to a width. *)
Definition pad_right (width : nat) (s : str) : str :=
  s +:+ blanks (width - String.length s).

(** What GNU [stat] prints for a regular file in its default format, for
    a file with the given name and inode number and everything else fixed.
    The third line is [Device: %Dh/%dd\tInode: %-10i  Links: %h]. *)
Definition inode_line (inode : str) : bytes :=
  "Device: 801h/2049d" +:+ tab +:+ "Inode: " +:+ pad_right 10 inode +:+ "  Links: 1" +:+ nl.

Definition gnu_stat_output (file inode : str) : list bytes :=
  [ "  File: '" +:+ file +:+ "'" +:+ nl;
    "  Size: 4         " +:+ tab +:+ "Blocks: 8          IO Block: 4096   regular file" +:+ nl;
    inode_line inode;
    "Access: (0644/-rw-r--r--)  Uid: ( 1000/    user)   Gid: ( 1000/    user)" +:+ nl;
    "Access: 2015-10-02 10:00:00.000000000 +0000" +:+ nl;
    "Modify: 2015-10-02 10:00:00.000000000 +0000" +:+ nl;
    "Change: 2015-10-02 10:00:00.000000000 +0000" +:+ nl;
    " Birth: -" +:+ nl ].

Definition sample_files : list (str * bytes) :=
  [ ("/dev/null", ""); ("one.zip", "PK-one"); ("two.zip", "PK-two"); ("copy.zip", "PK-one");
    ("left/a", "1"); ("left/b", "1"); ("left/c", "1");
    ("right/a", "2"); ("right/b", "2"); ("right/c", "2");
    ("more/a", "same"); ("more/only_left.txt", "x"); ("less/a", "same") ].

Definition sample_trees : list (str * Node) :=
  [ ("left", NDir [("b", NFile); ("a", NFile); ("c", NFile)]);
    ("right", NDir [("c", NFile); ("a", NFile); ("b", NFile)]);
    ("more", NDir [("only_left.txt", NFile); ("a", NFile)]);
    ("less", NDir [("a", NFile)]);
    ("tree", NDir [("b", NFile); ("sub", NDir [("z", NFile); ("y", NFile)]);
                   ("a", NFile); ("link", NLinkToDir)]) ].

(** The inode numbers of the sample; every other path has inode 1000. *)
Definition sample_inodes : list (str * str) :=
  [ ("ino1234", "1234"); ("ino5678", "5678"); ("ino12345", "12345") ].

(** A machine with the given tools installed. *)
Definition sample_world (tools : list str) : World :=
  {| find_executable c := existsb (String.eqb c) tools;
     file_content p := assoc p sample_files;
     cmp_s p1 p2 :=
       match assoc p1 sample_files, assoc p2 sample_files with
       | Some a, Some b => if String.eqb a b then 0 else 1
       | _, _ => 2
       end;
     run_command argv :=
       match argv with
       | ["stat"; p] => Ok (gnu_stat_output "f" (default "1000" (assoc p sample_inodes)))
       | ["getfacl"; "-p"; "-c"; p] => Ok ["user::rw-" +:+ nl]
       | ["xxd"; p] =>
           match assoc p sample_files with
           | Some b => Ok [b +:+ nl]
           | None => Raise (CalledProcessError 2 argv None)
           end
       | _ => Raise (CalledProcessError 127 argv None)
       end;
     check_output_lsattr p := Ok ("-------------e-- " +:+ p +:+ nl);
     tree_at p := assoc p sample_trees;
     realpath p := p |}.

Definition all_tools : list str := ["cmp"; "xxd"; "diff"; "stat"; "lsattr"; "getfacl"].

(** Plugins with one format, [ZipFile], that has a container class and a
    [compare_details] which does [details]; members are compared by
    their content. *)
Definition sample_plugins (W : World) (T : TextDiff)
    (details : M (list (option Difference))) : Plugins :=
  {| CONTAINER_CLASS cls := if String.eqb cls "ZipFile" then Some "ZipContainer" else None;
     compare_details cls :=
       if String.eqb cls "ZipFile" then Some (fun _ _ _ => details) else None;
     compare_specialized _ := None;
     Container_compare _ _ := ret [];
     Xxd p := {| cmdline := tool_required "xxd" (Ok ["xxd"; p]); filter := Ok |};
     get_package c := if String.eqb c "zipinfo" then Some "unzip" else None;
     compare_files f1 f2 source :=
       lift (let? c1 := open_read (path f1) in
             let? c2 := open_read (path f2) in
             from_text c1 c2 (name f1) (name f2) source None) |}.

Definition empty_store : Store := mkStore 0 ∅.

Definition one_zip : File := RealFile 100 "ZipFile" "one.zip" "one.zip".
Definition two_zip : File := RealFile 101 "ZipFile" "two.zip" "two.zip".
Definition copy_zip : File := RealFile 102 "ZipFile" "copy.zip" "copy.zip".
Definition missing_zip : File := NonExistingFile 103 "gone.zip" (Some one_zip).

(** A machine with every tool, and one with none and no [diff] either. *)
Definition full_world : World := sample_world all_tools.
Definition bare_world : World := sample_world [].

(** The [ZipFile] plugin finds no difference; its tool is missing; its
    tool fails. *)
Definition quiet_plugins : Plugins := sample_plugins full_world plain_diff (ret []).
Definition toolless_plugins : Plugins :=
  sample_plugins full_world plain_diff (raise (RequiredToolNotFound "zipinfo")).
Definition failing_plugins : Plugins :=
  sample_plugins full_world plain_diff
    (raise (CalledProcessError 2 ["zipinfo"; "one.zip"] (Some ("bad" +:+ nl +:+ "zip")))).

(** A machine without [xxd] and without [zipinfo], and a zip file on it
    that cannot be opened. *)
Definition no_xxd_world : World := sample_world ["cmp"; "diff"; "stat"; "lsattr"; "getfacl"].
Definition no_xxd_toolless_plugins : Plugins :=
  sample_plugins no_xxd_world plain_diff (raise (RequiredToolNotFound "zipinfo")).
Definition locked_zip : File := RealFile 104 "ZipFile" "locked.zip" "locked.zip".

Definition left_dir : FilesystemDirectory := mkFilesystemDirectory "left".
Definition right_dir : FilesystemDirectory := mkFilesystemDirectory "right".
Definition more_dir : FilesystemDirectory := mkFilesystemDirectory "more".
Definition less_dir : FilesystemDirectory := mkFilesystemDirectory "less".

(** What comparing the sample members [left/x] and [right/x] gives. *)
Definition member_difference (member : str) : Difference :=
  {| unified_diff := Some "-1+2"; source1 := member; source2 := member;
     comments := []; details := [] |}.

(** The third line of the output of [stat] for the inode numbers 1234 and
    12345. *)
Definition inode_line_1234 : bytes :=
  "Device: 801h/2049d" +:+ tab +:+ "Inode: 1234        Links: 1" +:+ nl.
Definition inode_line_12345 : bytes :=
  "Device: 801h/2049d" +:+ tab +:+ "Inode: 12345       Links: 1" +:+ nl.

(** The store after the container views of [one_zip] and of a second file
    were made, in this order. *)
Definition store_with_views (second : File) : Store :=
  mkStore 2 (<[oid_of second := mkContainer 1 "ZipContainer" second]>
             (<[oid_of one_zip := mkContainer 0 "ZipContainer" one_zip]> ∅)).

(** ** Definitions for the further properties *)

(** The value of a lower-case hexadecimal digit. *)
Definition hex_value (c : ascii) : option N :=
  let n := N_of_ascii c in
  if ((48 <=? n) && (n <=? 57))%N then Some (n - 48)%N
  else if ((97 <=? n) && (n <=? 102))%N then Some (n - 87)%N
  else None.

(** Reading a hexdump back: the newlines are passed, two digits give a
    byte.  It is the inverse of [hexdump_lines], used to show that the
    dump loses nothing. *)
Fixpoint unhexdump (s : str) : option bytes :=
  match s with
  | EmptyString => Some ""
  | String c s' =>
      if is_newline c then unhexdump s'
      else
        match s' with
        | String c2 s'' =>
            match hex_value c, hex_value c2 with
            | Some h, Some l => String (ascii_of_N (16 * h + l)) <$> unhexdump s''
            | _, _ => None
            end
        | EmptyString => None
        end
  end.

(** The plugins of the machine without [xxd] when [zipinfo] is there. *)
Definition no_xxd_plugins : Plugins := sample_plugins no_xxd_world plain_diff (ret []).

(** The [ZipFile] plugin finds one difference, after a [None]. *)
Definition finding_plugins : Plugins :=
  sample_plugins full_world plain_diff (ret [None; Some (member_difference "zipinfo")]).

(** The third line of the output of GNU [stat],
    [Device: %Dh/%dd\tInode: %-10i  Links: %h], for any device, inode
    number and link count. *)
Definition device_line (dev_hex dev_dec inode links : str) : bytes :=
  "Device: " +:+ dev_hex +:+ "h/" +:+ dev_dec +:+ "d" +:+ tab +:+ "Inode: "
  +:+ pad_right 10 inode +:+ "  Links: " +:+ links +:+ nl.

(** A line of time of [stat]: [Access: 2015-10-02 10:00:00.0 +0000]. *)
Definition time_line (label yyyy mm dd rest : str) : bytes :=
  label +:+ ": " +:+ yyyy +:+ "-" +:+ mm +:+ "-" +:+ dd +:+ rest +:+ nl.

(** A 7-bit character that is no newline and none of the letters the
    patterns of numbers start with. *)
Definition plain_char (c : ascii) : bool :=
  byte_in 0 127 c && negb (is_newline c)
  && negb (Ascii.eqb "D" c) && negb (Ascii.eqb "I" c) && negb (Ascii.eqb "L" c).

(** The two objects that [compare_member] makes for a name, and the
    store it hands to [compare_files]. *)
Definition my_member (self : FilesystemDirectory) (member_name : str) (s : Store) : File :=
  FilesystemFile (next_id s) (os_path_join (dir_path self) member_name).
Definition other_member (other : FilesystemDirectory) (member_name : str) (s : Store) : File :=
  FilesystemFile (S (next_id s)) (os_path_join (dir_path other) member_name).
Definition store_of_members (s : Store) : Store :=
  mkStore (S (S (next_id s))) (_as_container s).

(** Plugins whose comparison of two members needs a tool that is missing. *)
Definition toolless_member_plugins : Plugins :=
  {| CONTAINER_CLASS := @CONTAINER_CLASS quiet_plugins;
     compare_details := @compare_details quiet_plugins;
     compare_specialized := @compare_specialized quiet_plugins;
     Container_compare := @Container_compare quiet_plugins;
     Xxd := @Xxd quiet_plugins;
     get_package := @get_package quiet_plugins;
     compare_files _ _ _ := raise (RequiredToolNotFound "cmp") |}.

(** A machine where [stat] prints a file name in Latin-1. *)
Definition latin1_world : World :=
  {| find_executable := @find_executable full_world;
     file_content := @file_content full_world;
     cmp_s := @cmp_s full_world;
     run_command argv :=
       match argv with
       | ["stat"; p] => Ok ["  File: 'caf" +:+ String (ascii_of_N 233) "'" +:+ nl]
       | _ => @run_command full_world argv
       end;
     check_output_lsattr := @check_output_lsattr full_world;
     tree_at := @tree_at full_world;
     realpath := @realpath full_world |}.

(** The enumeration of everything below a directory, as paths relative
    to it: each entry, followed, when it is a directory, by what is below
    it.  A link to a directory is an entry and is not entered. *)
Fixpoint descendant_entries (n : Node) : list str :=
  match n with
  | NDir entries =>
      (fix below (es : list (str * Node)) : list str :=
         match es with
         | [] => []
         | (child_name, child) :: es' =>
             (child_name
              :: map (fun p => child_name +:+ "/" +:+ p) (descendant_entries child)
              ++ below es')%list
         end) entries
  | _ => []
  end.


(** The sample tree. *)
Definition sample_tree : list (str * Node) :=
  [("b", NFile); ("sub", NDir [("z", NFile); ("y", NFile)]); ("a", NFile);
   ("link", NLinkToDir)].

(** * Properties of the Difference tree *)

Section DifferenceFacts.
Context {T : TextDiff}.

Lemma lookup_map {A B} (f : A -> B) (l : list A) (i : nat) :
  map f l !! i = f <$> (l !! i).
Proof.
  revert i. induction l as [|a l IH]; intros [|i]; simpl; try reflexivity.
  apply IH.
Qed.

Lemma get_reverse_labels (d : Difference) :
  source1 (get_reverse d) = source2 d /\ source2 (get_reverse d) = source1 d.
Proof. destruct d; split; reflexivity. Qed.

Lemma get_reverse_comments (d : Difference) : comments (get_reverse d) = comments d.
Proof. destruct d; reflexivity. Qed.

Lemma get_reverse_details (d : Difference) :
  details (get_reverse d) = map get_reverse (details d).
Proof. destruct d; reflexivity. Qed.

(** Reversal commutes with going down the tree: the node found at a
    position of the reversed tree is the reverse of the node found at the
    same position of the tree. *)
Lemma get_reverse_node_at (p : list nat) (d : Difference) :
  node_at p (get_reverse d) = get_reverse <$> node_at p d.
Proof.
  revert d. induction p as [|i p IH]; intros d; simpl.
  - reflexivity.
  - rewrite get_reverse_details, lookup_map.
    destruct (details d !! i) as [c|]; simpl; [apply IH | reflexivity].
Qed.

Lemma add_comment_comments (d : Difference) (c : str) :
  comments (add_comment d c) = (comments d ++ [c])%list.
Proof. reflexivity. Qed.
End DifferenceFacts.

(** * Properties of binary.py *)

Section CompareFacts.
Context {W : World} {T : TextDiff} {P : Plugins}.

(** C2.  A [NonExistingFile] compared with a real file gives the
    structural reverse of the backward comparison: the same outcome
    (absent stays absent, an exception stays that exception) with
    [get_reverse] applied to the tree, which swaps [source1] and [source2]
    at every position of the tree and keeps the details in their order
    (the node at a position of the result is the reverse of the node at
    that position of the backward result).  Compared with another
    [NonExistingFile] it gives one node with the comment "Trying to
    compare two non-existing files." and no details. *)
Theorem NonExistingFile_compare_reverses (o : nat) (n : str) (counterpart : option File)
    (B : File) (source : Source) (s : Store) :
  let missing := NonExistingFile o n counterpart in
  match B with
  | RealFile _ _ _ _ =>
      compare missing B source s =
        (let '(r, s') := compare B missing source s in
         (match r with
          | Ok backward => Ok (get_reverse <$> backward)
          | Raise e => Raise e
          end, s'))
  | NonExistingFile _ _ _ =>
      compare missing B source s =
        (Ok (Some {| unified_diff := None; source1 := n; source2 := name B;
                     comments := ["Trying to compare two non-existing files."];
                     details := [] |}), s)
  end
  /\ (forall (d : Difference) (p : list nat),
        node_at p (get_reverse d) = get_reverse <$> node_at p d)
  /\ (forall d : Difference,
        source1 (get_reverse d) = source2 d /\
        source2 (get_reverse d) = source1 d /\
        comments (get_reverse d) = comments d /\
        length (details (get_reverse d)) = length (details d)).
Proof.
  intros missing. split; [|split].
  - destruct B as [b cls bn bp | b bn bo]; simpl.
    + unfold NonExistingFile_compare, bind.
      destruct (RealFile_compare _ _ _ _) as [[[d|]|e] s']; reflexivity.
    + reflexivity.
  - intros d p. apply get_reverse_node_at.
  - intros d. destruct (get_reverse_labels d) as [E1 E2].
    repeat split; try assumption.
    + apply get_reverse_comments.
    + rewrite get_reverse_details. apply length_map.
Qed.

(** Running the monad: use a known run and go on with its outcome. *)
Ltac run_with H := rewrite H; cbv beta iota.

(** C3.  When the test of [File.compare] holds, the comparison by details
    finds nothing ([_compare_using_details] returns [None]) and the files
    are not byte-identical ([compare_bytes] returns a Difference),
    [File.compare] returns that Difference of [compare_bytes] with one
    comment added after its own, which is exactly "No differences found
    inside, yet data differs". *)
Theorem File_compare_no_details_yet_data_differs (self other : File) (source : Source)
    (s s1 s2 s3 : Store) (d : Difference) :
  has_details_or_container self s = (Ok true, s1) ->
  _compare_using_details self other source s1 = (Ok None, s2) ->
  compare_bytes self other source s2 = (Ok (Some d), s3) ->
  File_compare self other source s =
    (Ok (Some (add_comment d "No differences found inside, yet data differs")), s3)
  /\ comments (add_comment d "No differences found inside, yet data differs")
     = (comments d ++ ["No differences found inside, yet data differs"])%list
  /\ unified_diff (add_comment d "No differences found inside, yet data differs")
     = unified_diff d
  /\ details (add_comment d "No differences found inside, yet data differs") = details d.
Proof.
  intros Htest Hdetails Hbytes. split; [|repeat split].
  unfold File_compare. unfold bind at 1. run_with Htest.
  unfold try_except. unfold bind at 1. run_with Hdetails.
  unfold bind at 1. run_with Hbytes. reflexivity.
Qed.

(** C10.  When the test of [File.compare] holds and the comparison by
    details finds nothing, the result is the result of [compare_bytes]:
    absent, with no comment anywhere, when [compare_bytes] is absent (the
    files are byte-identical); the comment "No differences found inside,
    yet data differs" is added exactly when [compare_bytes] gives a
    Difference. *)
Theorem File_compare_no_details_follows_bytes (self other : File) (source : Source)
    (s s1 s2 s3 : Store) (by_bytes : option Difference) :
  has_details_or_container self s = (Ok true, s1) ->
  _compare_using_details self other source s1 = (Ok None, s2) ->
  compare_bytes self other source s2 = (Ok by_bytes, s3) ->
  File_compare self other source s =
    (Ok ((fun d => add_comment d "No differences found inside, yet data differs")
           <$> by_bytes), s3)
  /\ (by_bytes = None -> File_compare self other source s = (Ok None, s3))
  /\ (forall r s', File_compare self other source s = (Ok (Some r), s') ->
        exists d, by_bytes = Some d /\ r = add_comment d "No differences found inside, yet data differs").
Proof.
  intros Htest Hdetails Hbytes.
  assert (File_compare self other source s =
    (Ok ((fun d => add_comment d "No differences found inside, yet data differs")
           <$> by_bytes), s3)) as Hrun.
  { unfold File_compare. unfold bind at 1. run_with Htest.
    unfold try_except. unfold bind at 1. run_with Hdetails.
    unfold bind at 1. run_with Hbytes. destruct by_bytes; reflexivity. }
  split; [exact Hrun|split].
  - intros ->. exact Hrun.
  - intros r s' Hr. rewrite Hrun in Hr. destruct by_bytes as [d|]; simpl in Hr.
    + exists d. split; [reflexivity|]. congruence.
    + discriminate.
Qed.
(** C1 (amended).  When the test of [File.compare] holds and the
    comparison by details raises [e]:
    - for [RequiredToolNotFound] and for [CalledProcessError] the
      exception is caught and [compare_bytes] is run; when that returns,
      [File.compare] returns absent if it is absent, and else its
      Difference with a comment added that names the missing tool (and a
      second one naming the package, when [get_package] knows a non-empty
      one), or that holds the command line, the exit status and the
      output of the command (decoded with replacement and indented,
      "<none>" without output); an exception that [compare_bytes] raises
      in the handler is raised by [File.compare];
    - any other exception is raised by [File.compare], without a run of
      [compare_bytes]. *)
Theorem File_compare_tool_fallback (self other : File) (source : Source)
    (s s1 s2 s3 : Store) (e : exn) (fallback : result (option Difference)) :
  has_details_or_container self s = (Ok true, s1) ->
  _compare_using_details self other source s1 = (Raise e, s2) ->
  compare_bytes self other source s2 = (fallback, s3) ->
  File_compare self other source s =
    match e with
    | PyError _ => (Raise e, s2)
    | RequiredToolNotFound command =>
        (match fallback with
         | Ok (Some d) =>
             let d' := add_comment d
               ("'" +:+ command +:+ "' not available in path. Falling back to binary comparison.") in
             Ok (Some match get_package command with
                      | Some (String c p) =>
                          add_comment d' ("Install '" +:+ String c p +:+ "' to get a better output.")
                      | _ => d'
                      end)
         | Ok None => Ok None
         | Raise e' => Raise e'
         end, s3)
    | CalledProcessError returncode cmd output =>
        (match fallback with
         | Ok (Some d) =>
             Ok (Some (add_comment d
               ("Command `" +:+ join " " cmd +:+ "` exited with " +:+ format_d returncode
                +:+ ". Output:" +:+ nl +:+
                match output with
                | Some (String c o) => indent_lines (decode_utf8_replace (String c o))
                | _ => "<none>"
                end)))
         | Ok None => Ok None
         | Raise e' => Raise e'
         end, s3)
    end.
Proof.
  intros Htest Hdetails Hbytes.
  unfold File_compare. unfold bind at 1. run_with Htest.
  unfold try_except. unfold bind at 1. run_with Hdetails.
  destruct e as [returncode cmd output | command | k].
  - unfold bind at 1. run_with Hbytes.
    destruct fallback as [[d|]|e']; reflexivity.
  - unfold bind at 1. run_with Hbytes.
    destruct fallback as [[d|]|e']; try reflexivity.
    destruct (get_package command) as [[|c p]|]; reflexivity.
  - reflexivity.
Qed.
End CompareFacts.

Section ContentFacts.
Context {W : World}.

(** What [has_same_content_as] returns on two files that can be read, on
    a machine with [cmp]. *)
Lemma has_same_content_as_run (self other : File) (mine theirs : bytes) :
  find_executable "cmp" = true ->
  file_content (path self) = Some mine ->
  file_content (path other) = Some theirs ->
  has_same_content_as self other =
    Ok (if (Z.of_nat (String.length mine) =? Z.of_nat (String.length theirs))
           && (Z.of_nat (String.length mine) <=? SMALL_FILE_THRESHOLD)
        then String.eqb mine theirs || (0 =? cmp_s (path self) (path other))
        else 0 =? cmp_s (path self) (path other)).
Proof.
  intros Hcmp Hmine Htheirs.
  unfold has_same_content_as, tool_required, getsize, open_read.
  rewrite Hcmp, Hmine, Htheirs. cbn [rbind].
  destruct ((Z.of_nat (String.length mine) =? Z.of_nat (String.length theirs))
            && (Z.of_nat (String.length mine) <=? SMALL_FILE_THRESHOLD)); [|reflexivity].
  destruct (String.eqb mine theirs); reflexivity.
Qed.

Lemma eqb_bool_decide (a b : str) : String.eqb a b = bool_decide (a = b).
Proof.
  destruct (String.eqb_spec a b) as [->|Hne].
  - symmetry. apply bool_decide_eq_true. reflexivity.
  - symmetry. apply bool_decide_eq_false. exact Hne.
Qed.

(** C4.  On a machine with [cmp], for two files that can be read:
    - when both have the same size, at most 64 KiB, and the contents read
      into memory are equal, the result is [True] whatever the tool would
      say;
    - when the sizes differ or exceed 64 KiB, the result is whether the
      exit status of [cmp -s] is zero;
    - when a zero exit status of the tool means equal contents, the
      result is [True] exactly when the contents are equal, for files of
      any size, the empty ones included, and it is the answer of the
      tool. *)
Theorem has_same_content_as_policy (self other : File) (mine theirs : bytes) :
  find_executable "cmp" = true ->
  file_content (path self) = Some mine ->
  file_content (path other) = Some theirs ->
  (String.length mine = String.length theirs ->
   Z.of_nat (String.length mine) <= 65536 ->
   mine = theirs ->
   has_same_content_as self other = Ok true)
  /\ (String.length mine <> String.length theirs \/ 65536 < Z.of_nat (String.length mine) ->
      has_same_content_as self other = Ok (0 =? cmp_s (path self) (path other)))
  /\ ((cmp_s (path self) (path other) = 0 <-> mine = theirs) ->
      has_same_content_as self other = Ok (bool_decide (mine = theirs))
      /\ (has_same_content_as self other = Ok true <-> mine = theirs)
      /\ has_same_content_as self other = Ok (0 =? cmp_s (path self) (path other))).
Proof.
  intros Hcmp Hmine Htheirs.
  rewrite (has_same_content_as_run self other mine theirs Hcmp Hmine Htheirs).
  unfold SMALL_FILE_THRESHOLD.
  split; [|split].
  - intros Hlen Hsmall ->.
    rewrite Z.eqb_refl, (proj2 (Z.leb_le _ _) Hsmall), String.eqb_refl. reflexivity.
  - intros [Hlen | Hbig].
    + replace (Z.of_nat (String.length mine) =? Z.of_nat (String.length theirs)) with false;
        [reflexivity|].
      symmetry. apply Z.eqb_neq. lia.
    + replace (Z.of_nat (String.length mine) <=? 65536) with false;
        [rewrite andb_false_r; reflexivity|].
      symmetry. apply Z.leb_gt. exact Hbig.
  - intros Htool.
    assert ((0 =? cmp_s (path self) (path other)) = bool_decide (mine = theirs)) as Hexit.
    { destruct (decide (mine = theirs)) as [Heq|Hne].
      - rewrite (bool_decide_eq_true_2 _ Heq).
        apply Z.eqb_eq. symmetry. apply Htool. exact Heq.
      - rewrite (bool_decide_eq_false_2 _ Hne).
        apply Z.eqb_neq. intros Hz. apply Hne, Htool. symmetry. exact Hz. }
    rewrite Hexit, eqb_bool_decide, orb_diag.
    assert ((if (Z.of_nat (String.length mine) =? Z.of_nat (String.length theirs))
                && (Z.of_nat (String.length mine) <=? 65536)
             then bool_decide (mine = theirs) else bool_decide (mine = theirs))
            = bool_decide (mine = theirs)) as -> by (destruct (_ && _); reflexivity).
    split; [reflexivity | split; [|reflexivity]].
    split.
    + intros Hres. injection Hres as Hres. apply bool_decide_eq_true in Hres. exact Hres.
    + intros Heq. rewrite (bool_decide_eq_true_2 _ Heq). reflexivity.
Qed.

(** C9.  [has_same_content_as] stands under [tool_required('cmp')]:
    without [cmp] it raises [RequiredToolNotFound] for [cmp] whatever the
    two files are, small and equal ones included; and with [cmp], when two
    files of the same size, at most 64 KiB, are found unequal in memory,
    the result is still whether the exit status of [cmp -s] is zero. *)
Theorem has_same_content_as_requires_cmp (self other : File) :
  (find_executable "cmp" = false ->
   has_same_content_as self other = Raise (RequiredToolNotFound "cmp"))
  /\ (find_executable "cmp" = true ->
      forall mine theirs : bytes,
        file_content (path self) = Some mine ->
        file_content (path other) = Some theirs ->
        String.length mine = String.length theirs ->
        Z.of_nat (String.length mine) <= 65536 ->
        mine <> theirs ->
        has_same_content_as self other = Ok (0 =? cmp_s (path self) (path other))).
Proof.
  split.
  - intros Hcmp. unfold has_same_content_as, tool_required. rewrite Hcmp. reflexivity.
  - intros Hcmp mine theirs Hmine Htheirs Hlen Hsmall Hne.
    rewrite (has_same_content_as_run self other mine theirs Hcmp Hmine Htheirs).
    rewrite (proj2 (String.eqb_neq mine theirs) Hne).
    destruct (_ && _); reflexivity.
Qed.
End ContentFacts.

Section ContainerFacts.
Context {P : Plugins}.

Lemma cleanup_run (self : File) (s : Store) :
  cleanup self s = (Ok tt, mkStore (next_id s) (delete (oid_of self) (_as_container s))).
Proof.
  unfold cleanup. destruct (_as_container s !! oid_of self) as [c|] eqn:E.
  - reflexivity.
  - destruct s as [n m]. simpl in *. rewrite (delete_id m (oid_of self) E). reflexivity.
Qed.

(** C8 (amended).  For a file object that is not a [NonExistingFile]:
    - [as_container] accessed a second time returns what the first access
      returned and leaves the store as it is: for a class with a
      [CONTAINER_CLASS] the view is made on the first access, kept in
      [_as_container] and returned from there on every access until
      [cleanup]; for a class without one every access gives [None];
    - an access makes at most one view, and none when one is kept;
    - [cleanup] never raises and can be repeated: it removes the kept
      view, a second [cleanup] changes nothing, and the access after it
      makes a new view.
    A [NonExistingFile] whose [_other_file] has a class with a
    [CONTAINER_CLASS] gets a new view of that class at every access;
    nothing is kept. *)
Theorem as_container_cached_until_cleanup (o : nat) (cls n p : str) (s : Store) :
  let self := RealFile o cls n p in
  as_container self (snd (as_container self s)) = as_container self s
  /\ match CONTAINER_CLASS cls with
     | Some klass =>
         match _as_container s !! o with
         | Some kept => as_container self s = (Ok (Some kept), s)
         | None =>
             as_container self s
             = (Ok (Some (mkContainer (next_id s) klass self)),
                mkStore (S (next_id s))
                        (<[o := mkContainer (next_id s) klass self]> (_as_container s)))
         end
         /\ as_container self (snd (cleanup self s))
            = (Ok (Some (mkContainer (next_id s) klass self)),
               mkStore (S (next_id s))
                       (<[o := mkContainer (next_id s) klass self]> (_as_container s)))
         /\ forall (o' : nat) (n' : str),
              as_container (NonExistingFile o' n' (Some self)) s
              = (Ok (Some (mkContainer (next_id s) klass (NonExistingFile o' n' (Some self)))),
                 mkStore (S (next_id s)) (_as_container s))
     | None => as_container self s = (Ok None, s)
     end
  /\ (forall any : File,
        fst (cleanup any s) = Ok tt
        /\ cleanup any (snd (cleanup any s)) = cleanup any s
        /\ _as_container (snd (cleanup any s)) !! oid_of any = None
        /\ next_id (snd (cleanup any s)) = next_id s).
Proof.
  intros self. unfold self. split; [|split].
  - unfold as_container. destruct (CONTAINER_CLASS cls) as [klass|]; [|reflexivity].
    destruct (_as_container s !! o) as [kept|] eqn:E; simpl.
    + rewrite E. reflexivity.
    + rewrite lookup_insert_eq. reflexivity.
  - destruct (CONTAINER_CLASS cls) as [klass|] eqn:Hclass.
    + split; [|split].
      * unfold as_container. rewrite Hclass.
        destruct (_as_container s !! o) as [kept|]; reflexivity.
      * rewrite cleanup_run. unfold as_container. rewrite Hclass. simpl.
        rewrite lookup_delete_eq. simpl. rewrite insert_delete_eq. reflexivity.
      * intros o' n'. unfold as_container. rewrite Hclass. reflexivity.
    + unfold as_container. rewrite Hclass. reflexivity.
  - intros any. rewrite !cleanup_run. simpl.
    repeat split.
    + rewrite delete_delete_eq. reflexivity.
    + apply lookup_delete_eq.
Qed.
End ContainerFacts.

(** * Properties of directory.py *)

(** Induction on a tree, with the property for every entry of a
    directory. *)
Lemma Node_nested_ind (Q : Node -> Prop) :
  Q NFile -> Q NLinkToDir ->
  (forall es, Forall (fun e => Q (snd e)) es -> Q (NDir es)) ->
  forall n, Q n.
Proof.
  intros Hfile Hlink Hdir. fix IH 1. intros [| |es].
  - exact Hfile.
  - exact Hlink.
  - apply Hdir. induction es as [|[nm c] es IHes]; constructor.
    + apply IH.
    + exact IHes.
Qed.

Section StringFacts.

Lemma app_cons (x : ascii) (a b : str) : String x a +:+ b = String x (a +:+ b).
Proof. reflexivity. Qed.

Lemma str_app_assoc (a b c : str) : (a +:+ b) +:+ c = a +:+ (b +:+ c).
Proof.
  induction a as [|x a IH]; [reflexivity|].
  rewrite !app_cons, IH. reflexivity.
Qed.

Lemma str_app_nil_r (a : str) : a +:+ "" = a.
Proof. induction a as [|x a IH]; [reflexivity|]. rewrite app_cons, IH. reflexivity. Qed.

Lemma str_app_eq_nil (a b : str) : a +:+ b = "" -> b = "".
Proof. destruct a; [intros H; exact H | rewrite app_cons; discriminate]. Qed.

Lemma slice_from_app (p r : str) (c : ascii) :
  slice_from (String.length p + 1) (p +:+ String c r) = r.
Proof.
  induction p as [|x p IH]; [reflexivity|].
  rewrite app_cons. exact IH.
Qed.

Lemma eqb_app_longer (p r : str) (c : ascii) : String.eqb (p +:+ String c r) p = false.
Proof.
  apply String.eqb_neq. intros Heq.
  rewrite <- (str_app_nil_r p) in Heq at 2.
  apply String.app_inj in Heq. discriminate.
Qed.

Lemma ends_with_slash_app (a b : str) :
  b <> "" -> ends_with_slash (a +:+ b) = ends_with_slash b.
Proof.
  intros Hb. induction a as [|x a IH]; [reflexivity|].
  rewrite app_cons. simpl. destruct (a +:+ b) eqn:E.
  - apply str_app_eq_nil in E. contradiction.
  - exact IH.
Qed.

Lemma valid_name_inv (nm : str) :
  valid_name nm = true ->
  nm <> "" /\ starts_with_slash nm = false /\ ends_with_slash nm = false.
Proof.
  unfold valid_name. intros Hv. apply andb_true_iff in Hv as [Hne Hns].
  apply negb_true_iff in Hne, Hns. apply String.eqb_neq in Hne.
  split; [exact Hne|]. split.
  - destruct nm as [|c nm]; [reflexivity|]. simpl in *.
    apply orb_false_iff in Hns as [Hc _]. exact Hc.
  - clear Hne. induction nm as [|c nm IH]; [reflexivity|].
    simpl in Hns. apply orb_false_iff in Hns as [Hc Hrest].
    simpl. destruct nm; [exact Hc | apply IH; exact Hrest].
Qed.

(** Joining a directory that does not end with a separator and a name. *)
Lemma os_path_join_name (a nm : str) :
  a <> "" -> ends_with_slash a = false -> valid_name nm = true ->
  os_path_join a nm = a +:+ "/" +:+ nm.
Proof.
  intros Ha Hend Hnm. destruct (valid_name_inv nm Hnm) as (_ & Hstart & _).
  unfold os_path_join. rewrite Hstart, Hend.
  rewrite (proj2 (String.eqb_neq a "") Ha). reflexivity.
Qed.

Lemma os_path_join_empty (nm : str) : valid_name nm = true -> os_path_join "" nm = nm.
Proof.
  intros Hnm. destruct (valid_name_inv nm Hnm) as (_ & Hstart & _).
  unfold os_path_join. rewrite Hstart. reflexivity.
Qed.
End StringFacts.

Section WalkFacts.
Context {W : World}.

Lemma well_named_inv nm c es :
  well_named (NDir ((nm, c) :: es)) = true ->
  valid_name nm = true /\ well_named c = true /\ well_named (NDir es) = true.
Proof.
  simpl. intros Hw. apply andb_true_iff in Hw as [Hw Hes].
  apply andb_true_iff in Hw as [Hnm Hc]. auto.
Qed.

Lemma filenames_valid es :
  well_named (NDir es) = true -> Forall (fun nm => valid_name nm = true) (filenames es).
Proof.
  induction es as [|[nm c] es IH]; intros Hw; [constructor|].
  apply well_named_inv in Hw as (Hnm & Hc & Hes).
  unfold filenames. simpl. destruct (negb (is_dir c)); simpl.
  - constructor; [exact Hnm | apply IH; exact Hes].
  - apply IH; exact Hes.
Qed.

Lemma map_join_valid (rel : str) (names : list str) :
  rel <> "" -> ends_with_slash rel = false ->
  Forall (fun nm => valid_name nm = true) names ->
  map (os_path_join rel) names = map (fun p => rel +:+ "/" +:+ p) names.
Proof.
  intros Hrel Hend Hall. induction Hall as [|nm names Hnm Hall IH]; [reflexivity|].
  simpl. rewrite IH, (os_path_join_name rel nm Hrel Hend Hnm). reflexivity.
Qed.

Lemma map_join_empty (names : list str) :
  Forall (fun nm => valid_name nm = true) names ->
  map (os_path_join "") names = names.
Proof.
  intros Hall. induction Hall as [|nm names Hnm Hall IH]; [reflexivity|].
  simpl. rewrite IH, (os_path_join_empty nm Hnm). reflexivity.
Qed.

Lemma names_below (n : Node) :
  well_named n = true ->
  forall path rel : str,
    rel <> "" -> ends_with_slash rel = false ->
    flat_map (names_of path) (os_walk (path +:+ "/" +:+ rel) n)
    = map (fun p => rel +:+ "/" +:+ p) (descendant_files n).
Proof.
  induction n as [| |es IH] using Node_nested_ind; intros Hw path rel Hrel Hend;
    [reflexivity | reflexivity |].
  cbn [os_walk descendant_files flat_map names_of].
  change ("/" +:+ rel) with (String "/" rel).
  rewrite eqb_app_longer, slice_from_app, map_app.
  rewrite (map_join_valid rel _ Hrel Hend (filenames_valid es Hw)).
  f_equal.
  induction es as [|[nm c] es IHes]; [reflexivity|].
  apply well_named_inv in Hw as (Hnm & Hc & Hes).
  apply Forall_cons in IH as [IHc IHrest]. simpl in IHc.
  rewrite flat_map_app, map_app, (IHes IHrest Hes). f_equal.
  destruct c as [| |sub]; [reflexivity | reflexivity |].
  assert (path +:+ String "/" rel <> "") as Htop.
  { intros E. apply str_app_eq_nil in E. discriminate. }
  assert (ends_with_slash (path +:+ String "/" rel) = false) as Htopend.
  { rewrite ends_with_slash_app by discriminate.
    change (String "/" rel) with ("/" +:+ rel).
    rewrite ends_with_slash_app by exact Hrel. exact Hend. }
  rewrite (os_path_join_name _ nm Htop Htopend Hnm).
  destruct (valid_name_inv nm Hnm) as (Hne & _ & Hnmend).
  change (String "/" rel) with ("/" +:+ rel).
  replace ((path +:+ "/" +:+ rel) +:+ "/" +:+ nm) with (path +:+ "/" +:+ (rel +:+ "/" +:+ nm))
    by (rewrite !str_app_assoc; reflexivity).
  rewrite (IHc Hc path (rel +:+ "/" +:+ nm)).
  - rewrite map_map. apply map_ext. intros p.
    rewrite !str_app_assoc. reflexivity.
  - intros E. apply str_app_eq_nil in E. discriminate.
  - rewrite ends_with_slash_app by discriminate.
    change ("/" +:+ nm) with (String "/" nm).
    change (String "/" nm) with ("/" +:+ nm).
    rewrite ends_with_slash_app by exact Hne. exact Hnmend.
Qed.

Lemma names_at_top (es : list (str * Node)) (path : str) :
  well_named (NDir es) = true ->
  path <> "" -> ends_with_slash path = false ->
  flat_map (names_of path) (os_walk path (NDir es)) = descendant_files (NDir es).
Proof.
  intros Hw Hpath Hend.
  cbn [os_walk descendant_files flat_map names_of].
  rewrite String.eqb_refl, (map_join_empty _ (filenames_valid es Hw)).
  f_equal.
  induction es as [|[nm c] es IHes]; [reflexivity|].
  apply well_named_inv in Hw as (Hnm & Hc & Hes).
  rewrite flat_map_app, (IHes Hes). f_equal.
  destruct c as [| |sub]; [reflexivity | reflexivity |].
  rewrite (os_path_join_name path nm Hpath Hend Hnm).
  destruct (valid_name_inv nm Hnm) as (Hne & _ & Hnmend).
  apply (names_below (NDir sub) Hc path nm Hne Hnmend).
Qed.

(** C7 (amended).  For a directory whose entries have well-formed names,
    reached by a path that is not empty and does not end with a
    separator, [get_member_names] returns the full recursive enumeration
    of the descendant files, as paths relative to the directory, in the
    order of the walk: the files of a directory in the order the system
    lists them, then the enumerations of its sub-directories.  The
    sequence is not sorted by [get_member_names]; the names are sorted
    where they are used, in [common_names]. *)
Theorem get_member_names_walk_order (path : str) (es : list (str * Node)) :
  tree_at path = Some (NDir es) ->
  well_named (NDir es) = true ->
  path <> "" ->
  ends_with_slash path = false ->
  get_member_names path = descendant_files (NDir es)
  /\ forall other_names,
       Sorted String.le (common_names (get_member_names path) other_names).
Proof.
  intros Htree Hw Hpath Hend. split.
  - unfold get_member_names, walk. rewrite Htree.
    apply names_at_top; assumption.
  - intros other_names. apply Sorted_merge_sort. apply _.
Qed.
End WalkFacts.

Section CommonNames.

(** The sorted sequence of the elements of a set does not depend on the
    order in which the set is iterated. *)
Lemma sorted_of_permutation (l1 l2 : list str) :
  l1 ≡ₚ l2 -> sorted l1 = sorted l2.
Proof.
  intros Hperm. unfold sorted.
  apply (Sorted_unique String.le).
  - apply Sorted_merge_sort. apply _.
  - apply Sorted_merge_sort. apply _.
  - rewrite !merge_sort_Permutation. exact Hperm.
Qed.

Lemma common_names_Sorted (my_names other_names : list str) :
  Sorted String.le (common_names my_names other_names).
Proof. apply Sorted_merge_sort. apply _. Qed.

Lemma common_names_NoDup (my_names other_names : list str) :
  NoDup (common_names my_names other_names).
Proof.
  unfold common_names, sorted. rewrite merge_sort_Permutation. apply NoDup_elements.
Qed.

Lemma common_names_elem (my_names other_names : list str) (x : str) :
  x ∈ common_names my_names other_names <-> x ∈ my_names /\ x ∈ other_names.
Proof.
  unfold common_names, sorted.
  rewrite merge_sort_Permutation, elem_of_elements, elem_of_intersection,
    !elem_of_list_to_set.
  reflexivity.
Qed.

(** A loop that ends normally has run its body once for each element, in
    order. *)
Lemma mapM_Forall2 {A B} (f : A -> M B) (l : list A) :
  forall (s s' : Store) (rs : list B),
    mapM f l s = (Ok rs, s') ->
    Forall2 (fun a r => exists s1 s2, f a s1 = (Ok r, s2)) l rs.
Proof.
  induction l as [|a l IH]; intros s s' rs Hrun.
  - injection Hrun as <- _. constructor.
  - simpl in Hrun. unfold bind in Hrun.
    destruct (f a s) as [[b|e] s1] eqn:Ea; [|discriminate].
    destruct (mapM f l s1) as [[bs|e] s2] eqn:El; [|discriminate].
    injection Hrun as <- <-. constructor.
    + exists s, s1. exact Ea.
    + apply (IH s1 s2). exact El.
Qed.
End CommonNames.

Section DirectoryFacts.
Context {W : World} {T : TextDiff} {P : Plugins}.

(** C5 (amended).  [FilesystemDirectory.compare] runs the body of its loop
    on the names that both containers have, each once, in sorted order;
    a name that only one side has gets no member comparison and no member
    detail (it shows in the listing diff alone).  When the listing, the
    meta-data of the two directories and the loop return, the details of
    the result are the listing difference, the meta-data differences and
    then what the loop found for the common names, in the order of the
    names; and the result is absent, not an empty Difference, when there
    is none of them. *)
Theorem FilesystemDirectory_compare_common_members (self other : FilesystemDirectory)
    (source : Source) (s s' : Store) (listing meta : list Difference)
    (members : list (option Difference)) :
  let names := common_names (get_member_names (dir_path self))
                            (get_member_names (dir_path other)) in
  listing_differences self other = Ok listing ->
  compare_meta (dir_name self) (dir_name other) = Ok meta ->
  mapM (compare_member self other) names s = (Ok members, s') ->
  (Sorted String.le names /\ NoDup names /\
   forall x, x ∈ names <->
             x ∈ get_member_names (dir_path self) /\ x ∈ get_member_names (dir_path other))
  /\ Forall2 (fun member r => exists s1 s2, compare_member self other member s1 = (Ok r, s2))
             names members
  /\ FilesystemDirectory_compare self other source s =
       (Ok match (listing ++ meta ++ filter_None members)%list with
           | [] => None
           | differences =>
               Some {| unified_diff := None;
                       source1 := source1 (Difference_init None (dir_path self) (dir_path other)
                                             source None);
                       source2 := source2 (Difference_init None (dir_path self) (dir_path other)
                                             source None);
                       comments := [];
                       details := differences |}
           end, s')
  /\ (listing = [] -> meta = [] -> Forall (fun r => r = None) members ->
      FilesystemDirectory_compare self other source s = (Ok None, s')).
Proof.
  intros names Hlisting Hmeta Hloop.
  assert (FilesystemDirectory_compare self other source s =
       (Ok match (listing ++ meta ++ filter_None members)%list with
           | [] => None
           | differences =>
               Some {| unified_diff := None;
                       source1 := source1 (Difference_init None (dir_path self) (dir_path other)
                                             source None);
                       source2 := source2 (Difference_init None (dir_path self) (dir_path other)
                                             source None);
                       comments := [];
                       details := differences |}
           end, s')) as Hrun.
  { unfold FilesystemDirectory_compare. unfold bind at 1, lift at 1. rewrite Hlisting.
    cbv beta iota. unfold bind at 1, lift at 1. rewrite Hmeta. cbv beta iota.
    unfold bind at 1. fold names. rewrite Hloop. cbv beta iota.
    destruct (listing ++ meta ++ filter_None members)%list as [|d ds] eqn:E; [reflexivity|].
    unfold ret, add_details.
    destruct source as [[[|c l]|a b]|]; reflexivity. }
  split; [|split; [|split]].
  - split; [apply common_names_Sorted|].
    split; [apply common_names_NoDup|]. intros x. apply common_names_elem.
  - exact (mapM_Forall2 _ _ _ _ _ Hloop).
  - exact Hrun.
  - intros -> -> Hnone. rewrite Hrun.
    replace (filter_None members) with (@nil Difference); [reflexivity|].
    clear -Hnone. induction Hnone as [|r rs -> _ IH]; [reflexivity|exact IH].
Qed.
End DirectoryFacts.

(** ** The filter of [Stat] on the line of the inode number *)

Section FilterFacts.

Lemma length_app_str (a b : str) :
  String.length (a +:+ b) = (String.length a + String.length b)%nat.
Proof. induction a as [|x a IH]; [reflexivity|]. rewrite app_cons. simpl. rewrite IH. reflexivity. Qed.

Lemma all_chars_app (Q : ascii -> bool) (a b : str) :
  all_chars Q (a +:+ b) = all_chars Q a && all_chars Q b.
Proof.
  induction a as [|x a IH]; [reflexivity|].
  rewrite app_cons. simpl. rewrite IH, andb_assoc. reflexivity.
Qed.

Lemma all_chars_impl (Q R : ascii -> bool) (s : str) :
  (forall c, Q c = true -> R c = true) -> all_chars Q s = true -> all_chars R s = true.
Proof.
  intros HQR. induction s as [|c s IH]; [reflexivity|]. simpl.
  intros H. apply andb_true_iff in H as [Hc Hs].
  rewrite (HQR c Hc), (IH Hs). reflexivity.
Qed.

Lemma all_chars_blanks (Q : ascii -> bool) (n : nat) :
  Q " "%char = true -> all_chars Q (blanks n) = true.
Proof. intros HQ. induction n as [|n IH]; [reflexivity|]. simpl. rewrite HQ, IH. reflexivity. Qed.

(** A text of 7-bit characters is well-formed UTF-8. *)
Lemma utf8_valid_ascii (s : str) :
  all_chars (byte_in 0 127) s = true -> utf8_valid_from 0 s = true.
Proof.
  induction s as [|c s IH]; [reflexivity|]. simpl.
  intros H. apply andb_true_iff in H as [Hc Hs].
  unfold utf8_step, utf8_lead.
  unfold byte_in in Hc. apply andb_true_iff in Hc as [_ Hc]. apply N.leb_le in Hc.
  replace (N_of_ascii c <? 128)%N with true by (symmetry; apply N.ltb_lt; lia).
  simpl. apply IH. exact Hs.
Qed.

(** Dropping what is left of a match. *)
Lemma sub_from_skip (m : str -> option str) (pre rest : str) :
  sub_from m (String.length pre) (pre +:+ rest) = sub_from m 0 rest.
Proof.
  induction pre as [|c pre IH]; [destruct rest; reflexivity|].
  rewrite app_cons. simpl. exact IH.
Qed.

(** A match at the start of the text is dropped. *)
Lemma sub_from_match (m : str -> option str) (c : ascii) (pre rest : str) :
  m (String c pre +:+ rest) = Some rest ->
  sub_from m 0 (String c pre +:+ rest) = sub_from m 0 rest.
Proof.
  intros Hm. rewrite app_cons in *. cbn [sub_from]. rewrite Hm.
  replace (String.length (String c (pre +:+ rest)) - String.length rest)%nat
    with (S (String.length pre)).
  - apply sub_from_skip.
  - cbn [String.length]. rewrite length_app_str. lia.
Qed.

(** A pattern that starts with a literal character matches only there. *)
Lemma sub_from_other (first : ascii) (p : str) (m' : str -> option str) (a b : str) :
  all_chars (fun c => negb (Ascii.eqb first c)) a = true ->
  sub_from (then_ (lit (String first p)) m') 0 (a +:+ b)
  = a +:+ sub_from (then_ (lit (String first p)) m') 0 b.
Proof.
  induction a as [|c a IH]; [reflexivity|].
  intros H. cbn [all_chars] in H. apply andb_true_iff in H as [Hc Ha].
  assert (then_ (lit (String first p)) m' (String c (a +:+ b)) = None) as Hnone.
  { unfold then_. cbn [lit]. apply negb_true_iff in Hc. rewrite Hc. reflexivity. }
  set (m := then_ (lit (String first p)) m') in *.
  rewrite !app_cons. cbn [sub_from]. rewrite Hnone, (IH Ha). reflexivity.
Qed.

Lemma sub_from_none (first : ascii) (p : str) (m' : str -> option str) (a : str) :
  all_chars (fun c => negb (Ascii.eqb first c)) a = true ->
  sub_from (then_ (lit (String first p)) m') 0 a = a.
Proof.
  intros Ha. rewrite <- (str_app_nil_r a) at 1.
  rewrite (sub_from_other first p m' a "" Ha). simpl. apply str_app_nil_r.
Qed.

(** The greedy run of digits stops where the digits stop. *)
Lemma many_digits (ino rest : str) (c : ascii) :
  all_chars is_digit ino = true -> is_digit c = false ->
  many is_digit (ino +:+ String c rest) = String c rest.
Proof.
  intros Hino Hc. induction ino as [|d ino IH].
  - change ("" +:+ String c rest) with (String c rest). cbn [many]. rewrite Hc. reflexivity.
  - cbn [all_chars] in Hino. apply andb_true_iff in Hino as [Hd Hino].
    rewrite app_cons. cbn [many]. rewrite Hd. apply IH. exact Hino.
Qed.

Lemma all_chars_pad (Q : ascii -> bool) (w : nat) (s : str) :
  Q " "%char = true -> all_chars Q s = true -> all_chars Q (pad_right w s) = true.
Proof.
  intros Hb Hs. unfold pad_right. rewrite all_chars_app, Hs, (all_chars_blanks Q _ Hb).
  reflexivity.
Qed.

Lemma is_digit_spec (c : ascii) :
  is_digit c = true -> byte_in 0 127 c = true /\ Ascii.eqb "D" c = false
                       /\ Ascii.eqb "I" c = false /\ Ascii.eqb "L" c = false.
Proof.
  unfold is_digit, byte_in. intros H. apply andb_true_iff in H as [Hlo Hhi].
  apply N.leb_le in Hlo, Hhi.
  repeat split.
  - apply andb_true_iff. split; apply N.leb_le; lia.
  - apply Ascii.eqb_neq. intros <-. vm_compute in Hhi. contradiction.
  - apply Ascii.eqb_neq. intros <-. vm_compute in Hhi. contradiction.
  - apply Ascii.eqb_neq. intros <-. vm_compute in Hhi. contradiction.
Qed.

Lemma blanks_blank (k : nat) (r : str) :
  blanks k +:+ String " " r = String " " (blanks k +:+ r).
Proof.
  induction k as [|k IH]; [reflexivity|].
  cbn [blanks]. rewrite !app_cons, IH. reflexivity.
Qed.

(** What the filter makes of the third line of the output of [stat]: the
    device, the inode number and the link count go, the padding of the
    inode column stays. *)
Lemma Stat_filter_inode_line (inode : str) :
  all_chars is_digit inode = true -> inode <> "" ->
  Stat_filter (inode_line inode)
  = Ok (tab +:+ blanks (10 - String.length inode) +:+ "  " +:+ nl).
Proof.
  intros Hdigits Hne.
  assert (all_chars (byte_in 0 127) inode = true) as Hascii.
  { apply (all_chars_impl is_digit); [|exact Hdigits]. intros c Hc. apply (is_digit_spec c Hc). }
  assert (forall x : ascii, x = "D"%char \/ x = "I"%char \/ x = "L"%char ->
            all_chars (fun c => negb (Ascii.eqb x c)) inode = true) as Hother.
  { intros x Hx. apply (all_chars_impl is_digit); [|exact Hdigits]. intros c Hc.
    destruct (is_digit_spec c Hc) as (_ & HD & HI & HL).
    destruct Hx as [->|[->| ->]]; [rewrite HD|rewrite HI|rewrite HL]; reflexivity. }
  unfold Stat_filter, decode_utf8.
  rewrite utf8_valid_ascii.
  2:{ unfold inode_line. rewrite !all_chars_app.
      rewrite (all_chars_pad _ _ _ eq_refl Hascii). reflexivity. }
  cbn [rbind].
  change (re_sub_anchored FILE_RE (inode_line inode)) with (inode_line inode).
  unfold inode_line, pad_right.
  set (k := (10 - String.length inode)%nat).
  (* the device *)
  assert (re_sub DEVICE_RE
            ("Device: 801h/2049d" +:+ tab +:+ "Inode: " +:+ (inode +:+ blanks k)
             +:+ "  Links: 1" +:+ nl)
          = tab +:+ "Inode: " +:+ (inode +:+ blanks k) +:+ "  Links: 1" +:+ nl) as ->.
  { unfold re_sub.
    rewrite (sub_from_match DEVICE_RE "D" "evice: 801h/2049d" _ eq_refl).
    apply (sub_from_none "D" "evice: ").
    rewrite !all_chars_app, (Hother "D"%char (or_introl eq_refl)).
    rewrite (all_chars_blanks _ k eq_refl). reflexivity. }
  (* the inode number *)
  assert (re_sub INODE_RE
            (tab +:+ "Inode: " +:+ (inode +:+ blanks k) +:+ "  Links: 1" +:+ nl)
          = tab +:+ blanks k +:+ "  Links: 1" +:+ nl) as ->.
  { unfold re_sub.
    rewrite (sub_from_other "I" "node: " (many1 is_digit) tab _ eq_refl). f_equal.
    replace ("Inode: " +:+ (inode +:+ blanks k) +:+ "  Links: 1" +:+ nl)
      with (String "I" ("node: " +:+ inode) +:+ (blanks k +:+ "  Links: 1" +:+ nl)).
    2:{ change (String "I" ("node: " +:+ inode)) with ("Inode: " +:+ inode).
        rewrite !str_app_assoc. reflexivity. }
    change ("  Links: 1" +:+ nl) with (String " " (" Links: 1" +:+ nl)).
    rewrite blanks_blank.
    rewrite (sub_from_match INODE_RE "I" ("node: " +:+ inode)).
    - apply (sub_from_none "I" "node: ").
      cbn [all_chars]. rewrite all_chars_app, (all_chars_blanks _ k eq_refl). reflexivity.
    - rewrite app_cons, str_app_assoc.
      unfold INODE_RE, then_.
      change (lit "Inode: " (String "I" ("node: " +:+ inode +:+ String " " (blanks k +:+ " Links: 1" +:+ nl))))
        with (Some (inode +:+ String " " (blanks k +:+ " Links: 1" +:+ nl))).
      destruct inode as [|d ino]; [contradiction|].
      cbn [all_chars] in Hdigits. apply andb_true_iff in Hdigits as [Hd Hino].
      rewrite app_cons. unfold many1. rewrite Hd.
      rewrite (many_digits ino _ " " Hino eq_refl). reflexivity. }
  (* the link count *)
  assert (re_sub LINKS_RE (tab +:+ blanks k +:+ "  Links: 1" +:+ nl)
          = tab +:+ blanks k +:+ "  " +:+ nl) as ->.
  { unfold re_sub.
    replace (tab +:+ blanks k +:+ "  Links: 1" +:+ nl)
      with ((tab +:+ blanks k +:+ "  ") +:+ ("Links: 1" +:+ nl)).
    2:{ rewrite !str_app_assoc. reflexivity. }
    rewrite (sub_from_other "L" "inks: " (many1 is_digit)).
    - rewrite !str_app_assoc. reflexivity.
    - rewrite !all_chars_app, (all_chars_blanks _ k eq_refl). reflexivity. }
  reflexivity.
Qed.

(** So two inode numbers of different widths, below the width of the
    column, leave different lines. *)
Lemma Stat_filter_inode_width (inode1 inode2 : str) :
  all_chars is_digit inode1 = true -> inode1 <> "" ->
  all_chars is_digit inode2 = true -> inode2 <> "" ->
  (String.length inode1 < String.length inode2 <= 10)%nat ->
  Stat_filter (inode_line inode1) <> Stat_filter (inode_line inode2).
Proof.
  intros H1 N1 H2 N2 Hlen.
  rewrite (Stat_filter_inode_line inode1 H1 N1), (Stat_filter_inode_line inode2 H2 N2).
  intros Heq. injection Heq as Heq.
  apply (f_equal String.length) in Heq.
  rewrite !length_app_str in Heq.
  assert (forall n, String.length (blanks n) = n) as Hblanks.
  { induction n as [|n IH]; [reflexivity|]. simpl. rewrite IH. reflexivity. }
  rewrite !Hblanks in Heq. lia.
Qed.
End FilterFacts.

(** ** The theorems on the sample worlds *)

Lemma File_compare_no_details_yet_data_differs_witness :
  has_details_or_container (P:=quiet_plugins) one_zip empty_store = (Ok true, empty_store) /\
  _compare_using_details (P:=quiet_plugins) one_zip two_zip None empty_store
    = (Ok None, store_with_views two_zip) /\
  File_compare (W:=full_world) (T:=plain_diff) (P:=quiet_plugins) one_zip two_zip None empty_store
    = (Ok (Some {| unified_diff := Some ("-PK-one" +:+ nl +:+ "+PK-two" +:+ nl);
                   source1 := "one.zip"; source2 := "two.zip";
                   comments := ["No differences found inside, yet data differs"];
                   details := [] |}), store_with_views two_zip).
Proof.
  assert (has_details_or_container (P:=quiet_plugins) one_zip empty_store
          = (Ok true, empty_store)) as Htest by (vm_compute; reflexivity).
  assert (_compare_using_details (P:=quiet_plugins) one_zip two_zip None empty_store
          = (Ok None, store_with_views two_zip)) as Hdetails by (vm_compute; reflexivity).
  assert (compare_bytes (W:=full_world) (T:=plain_diff) (P:=quiet_plugins) one_zip two_zip None
            (store_with_views two_zip)
          = (Ok (Some {| unified_diff := Some ("-PK-one" +:+ nl +:+ "+PK-two" +:+ nl);
                         source1 := "one.zip"; source2 := "two.zip";
                         comments := []; details := [] |}), store_with_views two_zip))
    as Hbytes by (vm_compute; reflexivity).
  split; [exact Htest | split; [exact Hdetails |]].
  exact (proj1 (File_compare_no_details_yet_data_differs
                  (W:=full_world) (T:=plain_diff) (P:=quiet_plugins)
                  one_zip two_zip None _ _ _ _ _ Htest Hdetails Hbytes)).
Defined.

Lemma File_compare_no_details_follows_bytes_witness :
  has_details_or_container (P:=quiet_plugins) one_zip empty_store = (Ok true, empty_store) /\
  _compare_using_details (P:=quiet_plugins) one_zip copy_zip None empty_store
    = (Ok None, store_with_views copy_zip) /\
  compare_bytes (W:=full_world) (T:=plain_diff) (P:=quiet_plugins) one_zip copy_zip None
    (store_with_views copy_zip) = (Ok None, store_with_views copy_zip) /\
  File_compare (W:=full_world) (T:=plain_diff) (P:=quiet_plugins) one_zip copy_zip None empty_store
    = (Ok None, store_with_views copy_zip).
Proof.
  assert (has_details_or_container (P:=quiet_plugins) one_zip empty_store
          = (Ok true, empty_store)) as Htest by (vm_compute; reflexivity).
  assert (_compare_using_details (P:=quiet_plugins) one_zip copy_zip None empty_store
          = (Ok None, store_with_views copy_zip)) as Hdetails by (vm_compute; reflexivity).
  assert (compare_bytes (W:=full_world) (T:=plain_diff) (P:=quiet_plugins) one_zip copy_zip None
            (store_with_views copy_zip) = (Ok None, store_with_views copy_zip))
    as Hbytes by (vm_compute; reflexivity).
  split; [exact Htest | split; [exact Hdetails | split; [exact Hbytes |]]].
  exact (proj1 (File_compare_no_details_follows_bytes
                  (W:=full_world) (T:=plain_diff) (P:=quiet_plugins)
                  one_zip copy_zip None _ _ _ _ _ Htest Hdetails Hbytes)).
Defined.

Lemma File_compare_tool_fallback_witness :
  has_details_or_container (P:=toolless_plugins) one_zip empty_store = (Ok true, empty_store) /\
  _compare_using_details (P:=toolless_plugins) one_zip two_zip None empty_store
    = (Raise (RequiredToolNotFound "zipinfo"), empty_store) /\
  File_compare (W:=full_world) (T:=plain_diff) (P:=toolless_plugins) one_zip two_zip None
    empty_store
    = (Ok (Some {| unified_diff := Some ("-PK-one" +:+ nl +:+ "+PK-two" +:+ nl);
                   source1 := "one.zip"; source2 := "two.zip";
                   comments :=
                     ["'zipinfo' not available in path. Falling back to binary comparison.";
                      "Install 'unzip' to get a better output."];
                   details := [] |}), empty_store).
Proof.
  assert (has_details_or_container (P:=toolless_plugins) one_zip empty_store
          = (Ok true, empty_store)) as Htest by (vm_compute; reflexivity).
  assert (_compare_using_details (P:=toolless_plugins) one_zip two_zip None empty_store
          = (Raise (RequiredToolNotFound "zipinfo"), empty_store))
    as Hdetails by (vm_compute; reflexivity).
  split; [exact Htest | split; [exact Hdetails |]].
  rewrite (File_compare_tool_fallback (W:=full_world) (T:=plain_diff) (P:=toolless_plugins)
             one_zip two_zip None _ _ _ _ _ _ Htest Hdetails eq_refl).
  vm_compute; reflexivity.
Defined.

(** C1, as stated, fails: on a machine that has [diff] but neither
    [zipinfo] nor [xxd], compared with a file that cannot be opened, the
    comparison by details raises [RequiredToolNotFound] and
    [File.compare] raises too: the [compare_bytes] of the handler finds
    no [xxd], falls back to [hexdump_fallback], and [open] raises
    [OSError]. *)
Lemma File_compare_raises_OSError_in_fallback :
  has_details_or_container (P:=no_xxd_toolless_plugins) one_zip empty_store
    = (Ok true, empty_store) /\
  _compare_using_details (P:=no_xxd_toolless_plugins) one_zip locked_zip None empty_store
    = (Raise (RequiredToolNotFound "zipinfo"), empty_store) /\
  File_compare (W:=no_xxd_world) (T:=plain_diff) (P:=no_xxd_toolless_plugins)
    one_zip locked_zip None empty_store
    = (Raise (PyError "OSError"), empty_store).
Proof. repeat split; vm_compute; reflexivity. Qed.

Lemma has_same_content_as_policy_witness :
  find_executable (World:=full_world) "cmp" = true /\
  file_content (World:=full_world) (path one_zip) = Some "PK-one" /\
  file_content (World:=full_world) (path copy_zip) = Some "PK-one" /\
  has_same_content_as (W:=full_world) one_zip copy_zip = Ok true /\
  (cmp_s (World:=full_world) (path one_zip) (path copy_zip) = 0 <-> "PK-one" = "PK-one") /\
  has_same_content_as (W:=full_world) one_zip copy_zip = Ok (bool_decide ("PK-one" = "PK-one")).
Proof.
  destruct (has_same_content_as_policy (W:=full_world) one_zip copy_zip "PK-one" "PK-one"
              eq_refl eq_refl eq_refl) as (Hsmall & _ & Htool).
  assert (cmp_s (World:=full_world) (path one_zip) (path copy_zip) = 0
          <-> "PK-one" = "PK-one") as Hcmp by (split; reflexivity).
  split; [reflexivity|]. split; [reflexivity|]. split; [reflexivity|].
  split; [|split; [exact Hcmp|]].
  - apply Hsmall; [reflexivity | vm_compute; discriminate | reflexivity].
  - exact (proj1 (Htool Hcmp)).
Defined.

Lemma has_same_content_as_requires_cmp_witness :
  (find_executable (World:=bare_world) "cmp" = false /\
   has_same_content_as (W:=bare_world) one_zip copy_zip = Raise (RequiredToolNotFound "cmp"))
  /\ (find_executable (World:=full_world) "cmp" = true /\
      file_content (World:=full_world) (path one_zip) = Some "PK-one" /\
      file_content (World:=full_world) (path two_zip) = Some "PK-two" /\
      "PK-one" <> "PK-two" /\
      has_same_content_as (W:=full_world) one_zip two_zip
        = Ok (0 =? cmp_s (World:=full_world) "one.zip" "two.zip")).
Proof.
  split.
  - split; [reflexivity|].
    exact (proj1 (has_same_content_as_requires_cmp (W:=bare_world) one_zip copy_zip) eq_refl).
  - assert ("PK-one" <> "PK-two") as Hne by discriminate.
    split; [reflexivity|]. split; [reflexivity|]. split; [reflexivity|].
    split; [exact Hne|].
    apply (proj2 (has_same_content_as_requires_cmp (W:=full_world) one_zip two_zip) eq_refl
             "PK-one" "PK-two" eq_refl eq_refl eq_refl).
    + vm_compute; discriminate.
    + exact Hne.
Defined.

(** C8, as stated, fails for a [NonExistingFile]: two accesses to
    [as_container] make two container views, with different identities,
    and keep none. *)
Lemma NonExistingFile_as_container_builds_twice :
  as_container (P:=quiet_plugins) missing_zip empty_store
    = (Ok (Some (mkContainer 0 "ZipContainer" missing_zip)), mkStore 1 ∅)
  /\ as_container (P:=quiet_plugins) missing_zip (mkStore 1 ∅)
    = (Ok (Some (mkContainer 1 "ZipContainer" missing_zip)), mkStore 2 ∅)
  /\ mkContainer 0 "ZipContainer" missing_zip <> mkContainer 1 "ZipContainer" missing_zip.
Proof. repeat split. discriminate. Qed.

Lemma get_member_names_walk_order_witness :
  tree_at (World:=full_world) "tree"
    = Some (NDir [("b", NFile); ("sub", NDir [("z", NFile); ("y", NFile)]);
                  ("a", NFile); ("link", NLinkToDir)]) /\
  get_member_names (W:=full_world) "tree" = ["b"; "a"; "sub/z"; "sub/y"].
Proof.
  split; [reflexivity|].
  rewrite (proj1 (get_member_names_walk_order (W:=full_world) "tree" _
                    eq_refl eq_refl ltac:(discriminate) eq_refl)).
  reflexivity.
Defined.

(** C7, as stated, fails: for a directory whose entries the system lists
    as b, a, c, [get_member_names] returns them in this order, which is
    not sorted. *)
Lemma get_member_names_not_sorted :
  get_member_names (W:=full_world) "left" = ["b"; "a"; "c"]
  /\ ~ Sorted String.le (get_member_names (W:=full_world) "left")
  /\ sorted (get_member_names (W:=full_world) "left") = ["a"; "b"; "c"].
Proof.
  split; [reflexivity|]. split; [|vm_compute; reflexivity].
  change (get_member_names (W:=full_world) "left") with ["b"; "a"; "c"].
  intros Hsorted. apply Sorted_inv in Hsorted as [_ Hhead].
  apply HdRel_inv in Hhead. vm_compute in Hhead. exact Hhead.
Qed.

Lemma FilesystemDirectory_compare_common_members_witness :
  common_names (get_member_names (W:=full_world) "left") (get_member_names (W:=full_world) "right")
    = ["a"; "b"; "c"] /\
  listing_differences (W:=full_world) (T:=plain_diff) left_dir right_dir = Ok [] /\
  compare_meta (W:=full_world) (T:=plain_diff) "left" "right" = Ok [] /\
  FilesystemDirectory_compare (W:=full_world) (T:=plain_diff) (P:=quiet_plugins)
    left_dir right_dir None empty_store
    = (Ok (Some {| unified_diff := None; source1 := "left"; source2 := "right";
                   comments := [];
                   details := [member_difference "a"; member_difference "b";
                               member_difference "c"] |}),
       mkStore 6 ∅).
Proof.
  assert (listing_differences (W:=full_world) (T:=plain_diff) left_dir right_dir = Ok [])
    as Hlisting by (vm_compute; reflexivity).
  assert (compare_meta (W:=full_world) (T:=plain_diff) (dir_name left_dir) (dir_name right_dir)
          = Ok []) as Hmeta by (vm_compute; reflexivity).
  assert (mapM (compare_member (W:=full_world) (T:=plain_diff) (P:=quiet_plugins)
                  left_dir right_dir)
               (common_names (get_member_names (W:=full_world) (dir_path left_dir))
                             (get_member_names (W:=full_world) (dir_path right_dir)))
               empty_store
          = (Ok [Some (member_difference "a"); Some (member_difference "b");
                 Some (member_difference "c")], mkStore 6 ∅))
    as Hloop by (vm_compute; reflexivity).
  split; [vm_compute; reflexivity|]. split; [exact Hlisting|]. split; [exact Hmeta|].
  destruct (FilesystemDirectory_compare_common_members
              (W:=full_world) (T:=plain_diff) (P:=quiet_plugins)
              left_dir right_dir None empty_store _ _ _ _ Hlisting Hmeta Hloop)
    as (_ & _ & Hrun & _).
  rewrite Hrun. reflexivity.
Defined.

(** C5, as stated, fails in one part: a name that only one side has does
    contribute a detail.  The directories [more] and [less] have the
    member [a] in common, with the same content and meta-data, and [more]
    has [only_left.txt] besides: the only common name is [a], its
    comparison finds nothing, and the result still has a detail, the
    listing diff, that the one-sided name causes. *)
Lemma FilesystemDirectory_compare_one_sided_name_shows :
  get_member_names (W:=full_world) "more" = ["only_left.txt"; "a"] /\
  get_member_names (W:=full_world) "less" = ["a"] /\
  common_names (get_member_names (W:=full_world) "more") (get_member_names (W:=full_world) "less")
    = ["a"] /\
  compare_member (W:=full_world) (T:=plain_diff) (P:=quiet_plugins) more_dir less_dir "a"
    empty_store = (Ok None, mkStore 2 ∅) /\
  compare_meta (W:=full_world) (T:=plain_diff) "more" "less" = Ok [] /\
  FilesystemDirectory_compare (W:=full_world) (T:=plain_diff) (P:=quiet_plugins)
    more_dir less_dir None empty_store
    = (Ok (Some {| unified_diff := None; source1 := "more"; source2 := "less";
                   comments := [];
                   details :=
                     [{| unified_diff :=
                           Some ("-a" +:+ nl +:+ "only_left.txt" +:+ "+a");
                         source1 := "file list"; source2 := "file list";
                         comments := []; details := [] |}] |}),
       mkStore 2 ∅).
Proof. repeat split; vm_compute; reflexivity. Qed.

(** C6: the code at the failing input.  The outputs of [stat] for two
    files that differ in the inode number alone, 1234 and 12345: the
    filter takes "Inode: " and the digits out of the line and leaves the
    padding of the column, eight blanks for one and seven for the other,
    so the filtered outputs differ and the comparison of the meta-data
    gives a Difference.  With inode numbers of the same width, 1234 and
    5678, it gives none. *)
Theorem Stat_filter_leaves_inode_padding :
  gnu_stat_output "f" "1234" !! 2%nat = Some inode_line_1234 /\
  gnu_stat_output "f" "12345" !! 2%nat = Some inode_line_12345 /\
  take 2 (gnu_stat_output "f" "1234") = take 2 (gnu_stat_output "f" "12345") /\
  drop 3 (gnu_stat_output "f" "1234") = drop 3 (gnu_stat_output "f" "12345") /\
  Stat_filter inode_line_1234 = Ok (tab +:+ "        " +:+ nl) /\
  Stat_filter inode_line_12345 = Ok (tab +:+ "       " +:+ nl) /\
  (exists d : Difference,
     from_command (W:=full_world) (T:=plain_diff) (Stat (W:=full_world))
       "ino1234" "ino12345" None = Ok (Some d)) /\
  from_command (W:=full_world) (T:=plain_diff) (Stat (W:=full_world))
    "ino1234" "ino5678" None = Ok None.
Proof.
  split; [reflexivity|]. split; [reflexivity|].
  split; [reflexivity|]. split; [reflexivity|].
  split; [vm_compute; reflexivity|]. split; [vm_compute; reflexivity|]. split.
  - eexists. vm_compute. reflexivity.
  - vm_compute. reflexivity.
Qed.

(** * Further properties of binary.py *)

Section HexdumpFacts.

(** Two digits of [hexlify] read back as the byte. *)
Lemma unhexdump_byte (c : ascii) (rest : str) :
  unhexdump (hexlify_byte c +:+ rest) = String c <$> unhexdump rest.
Proof.
  destruct c as [[] [] [] [] [] [] [] []]; reflexivity.
Qed.

(** The dump of a content reads back as the content. *)
Lemma unhexdump_hexdump_lines (content : bytes) :
  forall room, unhexdump (hexdump_lines room content) = Some content.
Proof.
  induction content as [|c rest IH]; intros room.
  - simpl. destruct (Nat.eqb room 32); reflexivity.
  - destruct room as [|r]; cbn [hexdump_lines].
    + change (unhexdump (String "010" (hexlify_byte c +:+ hexdump_lines 31 rest)))
        with (unhexdump (hexlify_byte c +:+ hexdump_lines 31 rest)).
      rewrite unhexdump_byte, IH. reflexivity.
    + rewrite unhexdump_byte, IH. reflexivity.
Qed.

(** Two digits for each byte and a newline for each started buffer of 32
    bytes. *)
Lemma hexdump_lines_length (content : bytes) :
  forall room, (room <= 32)%nat ->
    String.length (hexdump_lines room content)
    = (2 * String.length content + (32 - room + String.length content + 31) / 32)%nat.
Proof.
  induction content as [|c rest IH]; intros room Hroom.
  - cbn [hexdump_lines String.length].
    destruct (Nat.eqb_spec room 32) as [->|Hne]; [reflexivity|].
    cbn [String.length].
    assert ((32 - room + 0 + 31) / 32 = 1)%nat as ->; [|reflexivity].
    symmetry. apply Nat.div_unique with (r := (31 - room)%nat); lia.
  - destruct room as [|r]; cbn [hexdump_lines String.length].
    + rewrite length_app_str, (IH 31%nat) by lia.
      change (String.length (hexlify_byte c)) with 2%nat.
      replace (32 - 0 + S (String.length rest) + 31)%nat
        with ((32 - 31 + String.length rest + 31) + 1 * 32)%nat by lia.
      rewrite Nat.div_add by lia. lia.
    + rewrite length_app_str, (IH r) by lia.
      change (String.length (hexlify_byte c)) with 2%nat.
      replace (32 - S r + S (String.length rest) + 31)%nat
        with (32 - r + String.length rest + 31)%nat by lia.
      lia.
Qed.
End HexdumpFacts.

(** Following a run that ended normally through its binds. *)
Ltac destruct_runs H :=
  repeat (unfold bind at 1 in H;
          match type of H with
          | context [match ?m with pair _ _ => _ end] =>
              destruct m as [[?|?] ?] eqn:?; [|discriminate H]
          end).

Section BinaryMore.
Context {W : World} {T : TextDiff} {P : Plugins}.

Lemma hexdump_lines_inj (a b : bytes) :
  hexdump_lines 32 a = hexdump_lines 32 b -> a = b.
Proof.
  intros Heq. apply (f_equal unhexdump) in Heq.
  rewrite !unhexdump_hexdump_lines in Heq. congruence.
Qed.

(** X1.  [hexdump_fallback] loses nothing: two paths with the same dump
    have the same content, which is what the dump reads back to. *)
Theorem hexdump_fallback_determines_content (path1 path2 : str) (dump : str) :
  hexdump_fallback path1 = Ok dump ->
  hexdump_fallback path2 = Ok dump ->
  exists content : bytes,
    file_content path1 = Some content /\ file_content path2 = Some content /\
    unhexdump dump = Some content.
Proof.
  unfold hexdump_fallback, open_read. intros H1 H2.
  destruct (file_content path1) as [c1|]; [|discriminate].
  destruct (file_content path2) as [c2|]; [|discriminate].
  cbn [rbind] in H1, H2. injection H1 as <-. injection H2 as H2.
  apply hexdump_lines_inj in H2 as ->.
  exists c1. split; [reflexivity|]. split; [reflexivity|].
  apply unhexdump_hexdump_lines.
Qed.

(** X2.  For a path that can be read, [hexdump_fallback] returns two
    hexadecimal digits for each byte and one newline for each started
    buffer of 32 bytes: it is empty exactly for an empty file.  For a path
    that cannot be read it raises [OSError]. *)
Theorem hexdump_fallback_layout (path : str) :
  match file_content path with
  | Some content =>
      exists dump : str,
        hexdump_fallback path = Ok dump /\
        String.length dump
        = (2 * String.length content + (String.length content + 31) / 32)%nat /\
        (dump = "" <-> content = "")
  | None => hexdump_fallback path = Raise (PyError "OSError")
  end.
Proof.
  unfold hexdump_fallback, open_read.
  destruct (file_content path) as [content|]; [|reflexivity].
  exists (hexdump_lines 32 content). split; [reflexivity|]. split.
  - rewrite hexdump_lines_length by lia. reflexivity.
  - split.
    + intros Hd. apply hexdump_lines_inj. rewrite Hd. reflexivity.
    + intros ->. reflexivity.
Qed.

(** X3.  When [xxd] is missing and both files can be read,
    [compare_binary_files] diffs the two hexdumps: what the differ
    reports becomes a leaf labelled by [source] (or the names of the two
    files), with the comment that [xxd] is not available; and with a
    differ that reports nothing exactly for equal texts, the result is
    absent exactly when the contents are equal. *)
Theorem compare_binary_files_without_xxd (file1 file2 : File) (source : Source)
    (content1 content2 : bytes) (tool : str) (u : option str) :
  cmdline (Xxd (path file1)) = Raise (RequiredToolNotFound tool) ->
  file_content (path file1) = Some content1 ->
  file_content (path file2) = Some content2 ->
  diff (hexdump_lines 32 content1) (hexdump_lines 32 content2) = Ok u ->
  compare_binary_files file1 file2 source
  = Ok ((fun text =>
           Difference_init (Some text) (name file1) (name file2) source
             (Some ("xxd not available in path. Falling back to Python hexlify." +:+ nl)))
        <$> u)
  /\ ((u = None <-> hexdump_lines 32 content1 = hexdump_lines 32 content2) ->
      (compare_binary_files file1 file2 source = Ok None <-> content1 = content2)).
Proof.
  intros Hxxd H1 H2 Hdiff.
  assert (compare_binary_files file1 file2 source
  = Ok ((fun text =>
           Difference_init (Some text) (name file1) (name file2) source
             (Some ("xxd not available in path. Falling back to Python hexlify." +:+ nl)))
        <$> u)) as Hrun.
  { unfold compare_binary_files, from_command, filtered_output. rewrite Hxxd. cbn [rbind].
    unfold hexdump_fallback, open_read. rewrite H1, H2. cbn [rbind].
    unfold from_text. rewrite Hdiff. cbn [rbind]. destruct u; reflexivity. }
  split; [exact Hrun|].
  intros Hfaithful. rewrite Hrun. split.
  - intros Hnone. apply hexdump_lines_inj. apply Hfaithful.
    destruct u; [discriminate|reflexivity].
  - intros ->. rewrite (proj2 Hfaithful eq_refl). reflexivity.
Qed.

(** X4.  A Difference that [_compare_using_details] returns is never
    empty: it has at least one detail, no textual payload and no comment,
    and without a [source] it is labelled with the names of the two
    files. *)
Theorem _compare_using_details_never_empty (self other : File) (source : Source)
    (s s' : Store) (d : Difference) :
  _compare_using_details self other source s = (Ok (Some d), s') ->
  details d <> [] /\ unified_diff d = None /\ comments d = [] /\
  (source = None -> source1 d = name self /\ source2 d = name other).
Proof.
  unfold _compare_using_details. intros Hrun.
  destruct_runs Hrun.
  destruct (_ ++ _)%list as [|x xs] eqn:E in Hrun; [discriminate|].
  unfold ret in Hrun. injection Hrun as <- _.
  split; [|split; [|split]].
  - unfold add_details. simpl. destruct source as [[[|]|]|]; simpl; discriminate.
  - destruct source as [[[|]|]|]; reflexivity.
  - destruct source as [[[|]|]|]; reflexivity.
  - intros ->. split; reflexivity.
Qed.

(** X5.  [File.compare] reports no difference only when a run of
    [compare_bytes] on the two files reported none: on every path to an
    absent result, the byte comparison is what decides. *)
Theorem File_compare_absent_only_with_bytes (self other : File) (source : Source)
    (s s' : Store) :
  File_compare self other source s = (Ok None, s') ->
  exists s0 : Store, compare_bytes self other source s0 = (Ok None, s').
Proof.
  unfold File_compare. unfold bind at 1.
  destruct (has_details_or_container self s) as [[[|]|e0] s1]; [| |discriminate].
  - unfold try_except. unfold bind at 1.
    destruct (_compare_using_details self other source s1) as [[[d|]|e] s2].
    + discriminate.
    + unfold bind at 1.
      destruct (compare_bytes self other source s2) as [[[d|]|e] s3] eqn:Hbytes.
      * discriminate.
      * intros Hrun. injection Hrun as <-. exists s2. exact Hbytes.
      * destruct e as [rc cmd out|command|k]; [| |discriminate].
        -- unfold bind at 1.
           destruct (compare_bytes self other source s3) as [[[d|]|e] s4] eqn:Hagain;
             [discriminate| |discriminate].
           intros Hrun. injection Hrun as <-. exists s3. exact Hagain.
        -- unfold bind at 1.
           destruct (compare_bytes self other source s3) as [[[d|]|e] s4] eqn:Hagain;
             [|  |discriminate].
           ++ destruct (get_package command) as [[|c p]|]; discriminate.
           ++ intros Hrun. injection Hrun as <-. exists s3. exact Hagain.
    + destruct e as [rc cmd out|command|k]; [| |discriminate].
      * unfold bind at 1.
        destruct (compare_bytes self other source s2) as [[[d|]|e] s3] eqn:Hbytes;
          [discriminate| |discriminate].
        intros Hrun. injection Hrun as <-. exists s2. exact Hbytes.
      * unfold bind at 1.
        destruct (compare_bytes self other source s2) as [[[d|]|e] s3] eqn:Hbytes;
          [| |discriminate].
        -- destruct (get_package command) as [[|c p]|]; discriminate.
        -- intros Hrun. injection Hrun as <-. exists s2. exact Hbytes.
  - intros Hrun. exists s1. exact Hrun.
Qed.

(** X6.  [File.compare] raises in three cases only: its test
    ([as_container]) raises; the comparison by details raises an
    exception that is neither [RequiredToolNotFound] nor
    [CalledProcessError]; or a run of [compare_bytes] raises. *)
Theorem File_compare_raises_only (self other : File) (source : Source)
    (s s' : Store) (e : exn) :
  File_compare self other source s = (Raise e, s') ->
  has_details_or_container self s = (Raise e, s')
  \/ (exists (s1 : Store) (k : str),
        has_details_or_container self s = (Ok true, s1) /\
        _compare_using_details self other source s1 = (Raise e, s') /\
        e = PyError k)
  \/ (exists s0 : Store, compare_bytes self other source s0 = (Raise e, s')).
Proof.
  unfold File_compare. unfold bind at 1.
  destruct (has_details_or_container self s) as [[[|]|e0] s1] eqn:Htest.
  - unfold try_except. unfold bind at 1.
    destruct (_compare_using_details self other source s1) as [[[d|]|e1] s2] eqn:Hdetails.
    + discriminate.
    + unfold bind at 1.
      destruct (compare_bytes self other source s2) as [[[d|]|e2] s3] eqn:Hbytes.
      * discriminate.
      * discriminate.
      * destruct e2 as [rc cmd out|command|k].
        -- unfold bind at 1.
           destruct (compare_bytes self other source s3) as [[[d|]|e3] s4] eqn:Hagain;
             [discriminate|discriminate|].
           intros Hrun. injection Hrun as <- <-. right. right. exists s3. exact Hagain.
        -- unfold bind at 1.
           destruct (compare_bytes self other source s3) as [[[d|]|e3] s4] eqn:Hagain;
             [|discriminate|].
           ++ destruct (get_package command) as [[|c p]|]; discriminate.
           ++ intros Hrun. injection Hrun as <- <-. right. right. exists s3. exact Hagain.
        -- intros Hrun. injection Hrun as <- <-. right. right. exists s2. exact Hbytes.
    + destruct e1 as [rc cmd out|command|k].
      * unfold bind at 1.
        destruct (compare_bytes self other source s2) as [[[d|]|e2] s3] eqn:Hbytes;
          [discriminate|discriminate|].
        intros Hrun. injection Hrun as <- <-. right. right. exists s2. exact Hbytes.
      * unfold bind at 1.
        destruct (compare_bytes self other source s2) as [[[d|]|e2] s3] eqn:Hbytes;
          [|discriminate|].
        -- destruct (get_package command) as [[|c p]|]; discriminate.
        -- intros Hrun. injection Hrun as <- <-. right. right. exists s2. exact Hbytes.
      * intros Hrun. injection Hrun as <- <-. right. left. exists s1, k. auto.
  - intros Hrun. right. right. exists s1. exact Hrun.
  - intros Hrun. injection Hrun as <- <-. left. reflexivity.
Qed.

(** X7.  [has_same_content_as] is symmetric, the exceptions included,
    when the exit status of [cmp -s] is zero for the two paths in one
    order exactly when it is in the other. *)
Theorem has_same_content_as_symmetric (self other : File) :
  (0 =? cmp_s (path self) (path other)) = (0 =? cmp_s (path other) (path self)) ->
  has_same_content_as self other = has_same_content_as other self.
Proof.
  intros Hcmp. unfold has_same_content_as, tool_required, getsize, open_read.
  destruct (find_executable "cmp"); [|reflexivity].
  destruct (file_content (path self)) as [mine|], (file_content (path other)) as [theirs|];
    cbn [rbind]; try reflexivity.
  rewrite Hcmp, (Z.eqb_sym (Z.of_nat (String.length theirs))), (String.eqb_sym theirs mine).
  destruct (Z.eqb_spec (Z.of_nat (String.length mine)) (Z.of_nat (String.length theirs)))
    as [Hlen|Hlen]; [|reflexivity].
  rewrite Hlen. reflexivity.
Qed.
End BinaryMore.

(** ** The further properties of binary.py on the sample worlds *)

Lemma hexdump_fallback_determines_content_witness :
  hexdump_fallback (W:=full_world) "one.zip" = Ok ("504b2d6f6e65" +:+ nl) /\
  hexdump_fallback (W:=full_world) "copy.zip" = Ok ("504b2d6f6e65" +:+ nl) /\
  exists content : bytes,
    file_content (World:=full_world) "one.zip" = Some content /\
    file_content (World:=full_world) "copy.zip" = Some content /\
    unhexdump ("504b2d6f6e65" +:+ nl) = Some content.
Proof.
  split; [reflexivity|]. split; [reflexivity|].
  exact (hexdump_fallback_determines_content (W:=full_world) "one.zip" "copy.zip" _
           eq_refl eq_refl).
Defined.

Lemma compare_binary_files_without_xxd_witness :
  cmdline (Xxd (Plugins:=no_xxd_plugins) (path one_zip)) = Raise (RequiredToolNotFound "xxd") /\
  file_content (World:=no_xxd_world) (path one_zip) = Some "PK-one" /\
  file_content (World:=no_xxd_world) (path two_zip) = Some "PK-two" /\
  compare_binary_files (W:=no_xxd_world) (T:=plain_diff) (P:=no_xxd_plugins)
    one_zip two_zip None
  = Ok (Some {| unified_diff :=
                  Some ("-504b2d6f6e65" +:+ nl +:+ "+504b2d74776f" +:+ nl);
                source1 := "one.zip"; source2 := "two.zip";
                comments :=
                  ["xxd not available in path. Falling back to Python hexlify." +:+ nl];
                details := [] |}).
Proof.
  split; [reflexivity|]. split; [reflexivity|]. split; [reflexivity|].
  exact (proj1 (compare_binary_files_without_xxd
                  (W:=no_xxd_world) (T:=plain_diff) (P:=no_xxd_plugins)
                  one_zip two_zip None "PK-one" "PK-two" "xxd" _
                  eq_refl eq_refl eq_refl eq_refl)).
Defined.

Lemma _compare_using_details_never_empty_witness :
  _compare_using_details (P:=finding_plugins) one_zip two_zip None empty_store
  = (Ok (Some {| unified_diff := None; source1 := "one.zip"; source2 := "two.zip";
                 comments := []; details := [member_difference "zipinfo"] |}),
     store_with_views two_zip)
  /\ [member_difference "zipinfo"] <> [].
Proof.
  assert (_compare_using_details (P:=finding_plugins) one_zip two_zip None empty_store
          = (Ok (Some {| unified_diff := None; source1 := "one.zip"; source2 := "two.zip";
                         comments := []; details := [member_difference "zipinfo"] |}),
             store_with_views two_zip)) as Hrun by (vm_compute; reflexivity).
  split; [exact Hrun|].
  exact (proj1 (_compare_using_details_never_empty (P:=finding_plugins)
                  one_zip two_zip None _ _ _ Hrun)).
Defined.

Lemma File_compare_absent_only_with_bytes_witness :
  File_compare (W:=full_world) (T:=plain_diff) (P:=quiet_plugins) one_zip copy_zip None
    empty_store = (Ok None, store_with_views copy_zip)
  /\ exists s0 : Store,
       compare_bytes (W:=full_world) (T:=plain_diff) (P:=quiet_plugins) one_zip copy_zip None s0
       = (Ok None, store_with_views copy_zip).
Proof.
  assert (File_compare (W:=full_world) (T:=plain_diff) (P:=quiet_plugins) one_zip copy_zip None
            empty_store = (Ok None, store_with_views copy_zip))
    as Hrun by (vm_compute; reflexivity).
  split; [exact Hrun|].
  exact (File_compare_absent_only_with_bytes (W:=full_world) (T:=plain_diff)
           (P:=quiet_plugins) one_zip copy_zip None _ _ Hrun).
Defined.

Lemma File_compare_raises_only_witness :
  File_compare (W:=no_xxd_world) (T:=plain_diff) (P:=no_xxd_toolless_plugins)
    one_zip locked_zip None empty_store = (Raise (PyError "OSError"), empty_store)
  /\ (has_details_or_container (P:=no_xxd_toolless_plugins) one_zip empty_store
      = (Raise (PyError "OSError"), empty_store)
      \/ (exists (s1 : Store) (k : str),
            has_details_or_container (P:=no_xxd_toolless_plugins) one_zip empty_store
            = (Ok true, s1) /\
            _compare_using_details (P:=no_xxd_toolless_plugins) one_zip locked_zip None s1
            = (Raise (PyError "OSError"), empty_store) /\
            PyError "OSError" = PyError k)
      \/ (exists s0 : Store,
            compare_bytes (W:=no_xxd_world) (T:=plain_diff) (P:=no_xxd_toolless_plugins)
              one_zip locked_zip None s0
            = (Raise (PyError "OSError"), empty_store))).
Proof.
  assert (File_compare (W:=no_xxd_world) (T:=plain_diff) (P:=no_xxd_toolless_plugins)
            one_zip locked_zip None empty_store = (Raise (PyError "OSError"), empty_store))
    as Hrun by (vm_compute; reflexivity).
  split; [exact Hrun|].
  exact (File_compare_raises_only (W:=no_xxd_world) (T:=plain_diff)
           (P:=no_xxd_toolless_plugins) one_zip locked_zip None _ _ _ Hrun).
Defined.

Lemma has_same_content_as_symmetric_witness :
  (0 =? cmp_s (World:=full_world) (path one_zip) (path two_zip))
  = (0 =? cmp_s (World:=full_world) (path two_zip) (path one_zip))
  /\ has_same_content_as (W:=full_world) one_zip two_zip
     = has_same_content_as (W:=full_world) two_zip one_zip.
Proof.
  split; [reflexivity|].
  exact (has_same_content_as_symmetric (W:=full_world) one_zip two_zip eq_refl).
Defined.

(** ** The comment of a failed command *)

Section OutputFacts.

(** Well-formed UTF-8 decodes to itself. *)
Lemma decode_replace_valid (s : bytes) :
  forall skip, utf8_valid_from skip s = true -> decode_replace_from skip true s = s.
Proof.
  induction s as [|c s IH]; intros skip Hvalid; [reflexivity|].
  destruct skip as [|k]; cbn [utf8_valid_from decode_replace_from] in *.
  - destruct (utf8_step c s) as [good n].
    apply andb_true_iff in Hvalid as [-> Hrest].
    rewrite (IH _ Hrest). reflexivity.
  - rewrite (IH _ Hvalid). reflexivity.
Qed.

Lemma indent_after_newlines_app (a b : str) :
  indent_after_newlines (a +:+ b) = indent_after_newlines a +:+ indent_after_newlines b.
Proof.
  induction a as [|c a IH]; [reflexivity|].
  rewrite app_cons. cbn [indent_after_newlines]. rewrite IH.
  destruct (Ascii.eqb c "010"); rewrite ?app_cons, ?str_app_assoc; reflexivity.
Qed.

Lemma indent_after_newlines_line (l : str) :
  all_chars (fun c => negb (is_newline c)) l = true -> indent_after_newlines l = l.
Proof.
  induction l as [|c l IH]; [reflexivity|]. cbn [all_chars indent_after_newlines].
  intros H. apply andb_true_iff in H as [Hc Hl]. unfold is_newline in Hc.
  apply negb_true_iff in Hc. rewrite Hc, (IH Hl). reflexivity.
Qed.

Lemma indent_lines_join (l : str) (ls : list str) :
  Forall (fun l => all_chars (fun c => negb (is_newline c)) l = true) (l :: ls) ->
  indent_lines (join nl (l :: ls)) = join nl (map (fun l => "    " +:+ l) (l :: ls)).
Proof.
  unfold indent_lines. revert l. induction ls as [|l' ls IH]; intros l Hall.
  - apply Forall_cons in Hall as [Hl _]. cbn [join String.concat map].
    rewrite (indent_after_newlines_line l Hl). reflexivity.
  - apply Forall_cons in Hall as [Hl Hrest].
    change (join nl (l :: l' :: ls)) with (l +:+ nl +:+ join nl (l' :: ls)).
    change (join nl (map (fun l => "    " +:+ l) (l :: l' :: ls)))
      with (("    " +:+ l) +:+ nl +:+ join nl (map (fun l => "    " +:+ l) (l' :: ls))).
    rewrite <- (IH l' Hrest).
    rewrite !indent_after_newlines_app, (indent_after_newlines_line l Hl).
    change (indent_after_newlines nl) with (nl +:+ "    ").
    rewrite !str_app_assoc. reflexivity.
Qed.

End OutputFacts.

Section OutputComment.
Context {W : World} {T : TextDiff} {P : Plugins}.

(** X8.  When the comparison by details fails with a
    [CalledProcessError] whose output is well-formed UTF-8 and not empty,
    and [compare_bytes] gives a Difference, the comment that
    [File.compare] adds holds the command line, the exit status and then
    every line of the output, in order, each with four blanks before
    it. *)
Theorem File_compare_failure_comment_lines (self other : File) (source : Source)
    (s s1 s2 s3 : Store) (returncode : Z) (cmd : list str) (l : str) (ls : list str)
    (d : Difference) :
  has_details_or_container self s = (Ok true, s1) ->
  _compare_using_details self other source s1
  = (Raise (CalledProcessError returncode cmd (Some (join nl (l :: ls)))), s2) ->
  compare_bytes self other source s2 = (Ok (Some d), s3) ->
  Forall (fun l => all_chars (fun c => negb (is_newline c)) l = true) (l :: ls) ->
  utf8_valid_from 0 (join nl (l :: ls)) = true ->
  join nl (l :: ls) <> "" ->
  File_compare self other source s
  = (Ok (Some (add_comment d
                 ("Command `" +:+ join " " cmd +:+ "` exited with " +:+ format_d returncode
                  +:+ ". Output:" +:+ nl
                  +:+ join nl (map (fun l => "    " +:+ l) (l :: ls))))), s3).
Proof.
  intros Htest Hdetails Hbytes Hlines Hvalid Hne.
  unfold File_compare. unfold bind at 1. rewrite Htest. cbv beta iota.
  unfold try_except. unfold bind at 1. rewrite Hdetails. cbv beta iota.
  unfold bind at 1. rewrite Hbytes. cbv beta iota.
  destruct (join nl (l :: ls)) as [|c o] eqn:Hout; [contradiction|].
  unfold decode_utf8_replace. rewrite (decode_replace_valid _ _ Hvalid).
  rewrite <- Hout, (indent_lines_join l ls Hlines). reflexivity.
Qed.
End OutputComment.

Lemma File_compare_failure_comment_lines_witness :
  has_details_or_container (P:=failing_plugins) one_zip empty_store = (Ok true, empty_store) /\
  _compare_using_details (P:=failing_plugins) one_zip two_zip None empty_store
  = (Raise (CalledProcessError 2 ["zipinfo"; "one.zip"] (Some (join nl ["bad"; "zip"]))),
     empty_store) /\
  File_compare (W:=full_world) (T:=plain_diff) (P:=failing_plugins) one_zip two_zip None
    empty_store
  = (Ok (Some {| unified_diff := Some ("-PK-one" +:+ nl +:+ "+PK-two" +:+ nl);
                 source1 := "one.zip"; source2 := "two.zip";
                 comments :=
                   ["Command `zipinfo one.zip` exited with 2. Output:" +:+ nl
                    +:+ "    bad" +:+ nl +:+ "    zip"];
                 details := [] |}), empty_store).
Proof.
  assert (has_details_or_container (P:=failing_plugins) one_zip empty_store
          = (Ok true, empty_store)) as Htest by (vm_compute; reflexivity).
  assert (_compare_using_details (P:=failing_plugins) one_zip two_zip None empty_store
          = (Raise (CalledProcessError 2 ["zipinfo"; "one.zip"] (Some (join nl ["bad"; "zip"]))),
             empty_store)) as Hdetails by (vm_compute; reflexivity).
  split; [exact Htest | split; [exact Hdetails |]].
  rewrite (File_compare_failure_comment_lines (W:=full_world) (T:=plain_diff)
             (P:=failing_plugins) one_zip two_zip None _ _ _ _ _ _ "bad" ["zip"] _
             Htest Hdetails eq_refl).
  - vm_compute; reflexivity.
  - repeat constructor.
  - reflexivity.
  - discriminate.
Defined.

(** * Further properties of directory.py *)

(** ** The filter of [Stat], line by line *)

Section FilterMore.

Lemma many_all (Q : ascii -> bool) (a rest : str) (c : ascii) :
  all_chars Q a = true -> Q c = false -> many Q (a +:+ String c rest) = String c rest.
Proof.
  intros Ha Hc. induction a as [|x a IH].
  - change ("" +:+ String c rest) with (String c rest). cbn [many]. rewrite Hc. reflexivity.
  - cbn [all_chars] in Ha. apply andb_true_iff in Ha as [Hx Ha].
    rewrite app_cons. cbn [many]. rewrite Hx. apply IH. exact Ha.
Qed.

Lemma many1_all (Q : ascii -> bool) (a rest : str) (c : ascii) :
  a <> "" -> all_chars Q a = true -> Q c = false ->
  many1 Q (a +:+ String c rest) = Some (String c rest).
Proof.
  intros Hne Ha Hc. destruct a as [|x a]; [contradiction|].
  cbn [all_chars] in Ha. apply andb_true_iff in Ha as [Hx Ha].
  rewrite app_cons. unfold many1. rewrite Hx, (many_all Q a rest c Ha Hc). reflexivity.
Qed.

Lemma exactly_all (Q : ascii -> bool) (n : nat) (a rest : str) :
  String.length a = n -> all_chars Q a = true -> exactly n Q (a +:+ rest) = Some rest.
Proof.
  intros <- Ha. induction a as [|x a IH]; [reflexivity|].
  cbn [all_chars] in Ha. apply andb_true_iff in Ha as [Hx Ha].
  rewrite app_cons. cbn [String.length exactly]. rewrite Hx. apply IH. exact Ha.
Qed.

Lemma lit_app (p rest : str) : lit p (p +:+ rest) = Some rest.
Proof.
  induction p as [|x p IH]; [reflexivity|].
  rewrite app_cons. cbn [lit]. rewrite Ascii.eqb_refl. exact IH.
Qed.

Lemma all_chars_and (Q R : ascii -> bool) (s : str) :
  all_chars (fun c => Q c && R c) s = all_chars Q s && all_chars R s.
Proof.
  induction s as [|c s IH]; [reflexivity|]. cbn [all_chars]. rewrite IH.
  destruct (Q c), (R c), (all_chars Q s), (all_chars R s); reflexivity.
Qed.

(** A number after a label goes, with the label: [label [0-9]+] in a text
    that has the first character of the label nowhere else. *)
Lemma re_sub_number (first : ascii) (p a digits rest : str) (c : ascii) :
  all_chars (fun x => negb (Ascii.eqb first x)) a = true ->
  all_chars (fun x => negb (Ascii.eqb first x)) (String c rest) = true ->
  digits <> "" -> all_chars is_digit digits = true -> is_digit c = false ->
  re_sub (then_ (lit (String first p)) (many1 is_digit))
         (a +:+ String first p +:+ digits +:+ String c rest)
  = a +:+ String c rest.
Proof.
  intros Ha Hrest Hne Hdigits Hc. unfold re_sub.
  rewrite (sub_from_other first p (many1 is_digit) a _ Ha). f_equal.
  replace (String first p +:+ digits +:+ String c rest)
    with (String first (p +:+ digits) +:+ String c rest)
    by (rewrite !app_cons, str_app_assoc; reflexivity).
  rewrite sub_from_match.
  - apply sub_from_none. exact Hrest.
  - rewrite app_cons, str_app_assoc. unfold then_.
    change (String first (p +:+ digits +:+ String c rest))
      with (String first p +:+ digits +:+ String c rest).
    rewrite lit_app. apply many1_all; assumption.
Qed.

Lemma hex_or_digit_plain (c : ascii) :
  is_hex c = true \/ is_digit c = true ->
  byte_in 0 127 c = true /\ Ascii.eqb "D" c = false
  /\ Ascii.eqb "I" c = false /\ Ascii.eqb "L" c = false.
Proof.
  intros H.
  assert (byte_in 48 57 c = true \/ byte_in 97 102 c = true) as Hrange.
  { destruct H as [H|H]; [apply orb_true_iff in H; exact H | left; exact H]. }
  unfold byte_in in *.
  assert (48 <= N_of_ascii c <= 102)%N as Hn.
  { destruct Hrange as [Hr|Hr]; apply andb_true_iff in Hr as [Hlo Hhi];
      apply N.leb_le in Hlo, Hhi; lia. }
  assert (N_of_ascii c <> 68 /\ N_of_ascii c <> 73 /\ N_of_ascii c <> 76)%N as (H68 & H73 & H76).
  { destruct Hrange as [Hr|Hr]; apply andb_true_iff in Hr as [Hlo Hhi];
      apply N.leb_le in Hlo, Hhi; lia. }
  repeat split.
  - apply andb_true_iff. split; apply N.leb_le; lia.
  - apply Ascii.eqb_neq. intros <-. apply H68. reflexivity.
  - apply Ascii.eqb_neq. intros <-. apply H73. reflexivity.
  - apply Ascii.eqb_neq. intros <-. apply H76. reflexivity.
Qed.

Lemma digits_class (Q : ascii -> bool) (s : str) :
  (forall c, is_digit c = true -> Q c = true) ->
  all_chars is_digit s = true -> all_chars Q s = true.
Proof. intros HQ. apply all_chars_impl. exact HQ. Qed.

Lemma device_match (h d rest : str) :
  h <> "" -> all_chars is_hex h = true -> d <> "" -> all_chars is_digit d = true ->
  DEVICE_RE ("Device: " +:+ h +:+ "h/" +:+ d +:+ "d" +:+ rest) = Some rest.
Proof.
  intros Hh Hhex Hd Hdec. unfold DEVICE_RE, then_.
  rewrite lit_app.
  change ("h/" +:+ d +:+ "d" +:+ rest) with (String "h" ("/" +:+ d +:+ "d" +:+ rest)).
  rewrite (many1_all is_hex h _ "h" Hh Hhex eq_refl).
  change (String "h" ("/" +:+ d +:+ "d" +:+ rest)) with ("h/" +:+ d +:+ "d" +:+ rest).
  rewrite lit_app.
  change ("d" +:+ rest) with (String "d" rest).
  rewrite (many1_all is_digit d _ "d" Hd Hdec eq_refl).
  change (String "d" rest) with ("d" +:+ rest).
  apply lit_app.
Qed.

Lemma Stat_filter_device_line (h d i l : str) :
  h <> "" -> all_chars is_hex h = true ->
  d <> "" -> all_chars is_digit d = true ->
  i <> "" -> all_chars is_digit i = true ->
  l <> "" -> all_chars is_digit l = true ->
  Stat_filter (device_line h d i l)
  = Ok (tab +:+ blanks (10 - String.length i) +:+ "  " +:+ nl).
Proof.
  intros Hh Hhex Hd Hdec Hi Hino Hl Hlinks.
  assert (forall (Q : ascii -> bool) (s : str),
            (forall c, is_hex c = true \/ is_digit c = true ->
                       byte_in 0 127 c = true /\ Ascii.eqb "D" c = false
                       /\ Ascii.eqb "I" c = false /\ Ascii.eqb "L" c = false -> Q c = true) ->
            all_chars is_hex s = true \/ all_chars is_digit s = true ->
            all_chars Q s = true) as Hclass.
  { intros Q s HQ [Hs|Hs].
    - apply (all_chars_impl is_hex); [|exact Hs]. intros c Hc.
      apply HQ; [left; exact Hc | apply hex_or_digit_plain; left; exact Hc].
    - apply (all_chars_impl is_digit); [|exact Hs]. intros c Hc.
      apply HQ; [right; exact Hc | apply hex_or_digit_plain; right; exact Hc]. }
  assert (forall s, all_chars is_hex s = true \/ all_chars is_digit s = true ->
            all_chars (byte_in 0 127) s = true) as Hascii.
  { intros s Hs. apply (Hclass _ s); [|exact Hs]. intros c _ (Ha & _). exact Ha. }
  assert (forall x s, x = "D"%char \/ x = "I"%char \/ x = "L"%char ->
            all_chars is_hex s = true \/ all_chars is_digit s = true ->
            all_chars (fun c => negb (Ascii.eqb x c)) s = true) as Hother.
  { intros x s Hx Hs. apply (Hclass _ s); [|exact Hs]. intros c _ (_ & HD & HI & HL).
    destruct Hx as [->|[->| ->]]; [rewrite HD|rewrite HI|rewrite HL]; reflexivity. }
  set (k := (10 - String.length i)%nat).
  unfold Stat_filter, decode_utf8.
  rewrite utf8_valid_ascii.
  2:{ unfold device_line, pad_right. rewrite !all_chars_app.
      rewrite (Hascii h (or_introl Hhex)), (Hascii d (or_intror Hdec)),
        (Hascii i (or_intror Hino)), (Hascii l (or_intror Hlinks)),
        (all_chars_blanks _ _ eq_refl).
      reflexivity. }
  cbn [rbind].
  change (re_sub_anchored FILE_RE (device_line h d i l)) with (device_line h d i l).
  unfold device_line, pad_right. fold k.
  (* the device *)
  assert (re_sub DEVICE_RE
            ("Device: " +:+ h +:+ "h/" +:+ d +:+ "d" +:+ tab +:+ "Inode: " +:+ (i +:+ blanks k)
             +:+ "  Links: " +:+ l +:+ nl)
          = tab +:+ "Inode: " +:+ (i +:+ blanks k) +:+ "  Links: " +:+ l +:+ nl) as ->.
  { unfold re_sub.
    replace ("Device: " +:+ h +:+ "h/" +:+ d +:+ "d" +:+ tab +:+ "Inode: " +:+ (i +:+ blanks k)
             +:+ "  Links: " +:+ l +:+ nl)
      with (String "D" ("evice: " +:+ h +:+ "h/" +:+ d +:+ "d")
            +:+ (tab +:+ "Inode: " +:+ (i +:+ blanks k) +:+ "  Links: " +:+ l +:+ nl)).
    2:{ change (String "D" ("evice: " +:+ h +:+ "h/" +:+ d +:+ "d"))
          with ("Device: " +:+ h +:+ "h/" +:+ d +:+ "d").
        rewrite !str_app_assoc. reflexivity. }
    rewrite sub_from_match.
    - apply (sub_from_none "D" "evice: ").
      rewrite !all_chars_app.
      rewrite (Hother "D"%char i (or_introl eq_refl) (or_intror Hino)),
        (Hother "D"%char l (or_introl eq_refl) (or_intror Hlinks)),
        (all_chars_blanks _ k eq_refl).
      reflexivity.
    - change (String "D" ("evice: " +:+ h +:+ "h/" +:+ d +:+ "d"))
        with ("Device: " +:+ h +:+ "h/" +:+ d +:+ "d").
      rewrite !str_app_assoc. apply device_match; assumption. }
  (* the inode number *)
  assert (re_sub INODE_RE
            (tab +:+ "Inode: " +:+ (i +:+ blanks k) +:+ "  Links: " +:+ l +:+ nl)
          = tab +:+ blanks k +:+ "  Links: " +:+ l +:+ nl) as ->.
  { replace (tab +:+ "Inode: " +:+ (i +:+ blanks k) +:+ "  Links: " +:+ l +:+ nl)
      with (tab +:+ "Inode: " +:+ i +:+ String " " (blanks k +:+ " Links: " +:+ l +:+ nl)).
    2:{ rewrite <- blanks_blank, !str_app_assoc. reflexivity. }
    unfold INODE_RE. change "Inode: " with (String "I" "node: ").
    rewrite (re_sub_number "I" "node: " tab i _ " " eq_refl); try assumption.
    - rewrite <- blanks_blank. reflexivity.
    - cbn [all_chars]. rewrite !all_chars_app,
        (Hother "I"%char l (or_intror (or_introl eq_refl)) (or_intror Hlinks)),
        (all_chars_blanks _ k eq_refl).
      reflexivity.
    - reflexivity. }
  (* the link count *)
  assert (re_sub LINKS_RE (tab +:+ blanks k +:+ "  Links: " +:+ l +:+ nl)
          = tab +:+ blanks k +:+ "  " +:+ nl) as ->.
  { replace (tab +:+ blanks k +:+ "  Links: " +:+ l +:+ nl)
      with ((tab +:+ blanks k +:+ "  ") +:+ "Links: " +:+ l +:+ String "010" "").
    2:{ rewrite !str_app_assoc. reflexivity. }
    unfold LINKS_RE. change "Links: " with (String "L" "inks: ").
    rewrite (re_sub_number "L" "inks: " _ l "" "010"); try assumption.
    - rewrite !str_app_assoc. reflexivity.
    - rewrite !all_chars_app, (all_chars_blanks _ k eq_refl). reflexivity.
    - reflexivity.
    - reflexivity. }
  reflexivity.
Qed.

Lemma blanks_length (k : nat) : String.length (blanks k) = k.
Proof. induction k as [|k IH]; [reflexivity|]. cbn [blanks String.length]. rewrite IH. reflexivity. Qed.

Lemma plain_char_spec (c : ascii) :
  plain_char c = true ->
  byte_in 0 127 c = true /\ is_newline c = false /\ Ascii.eqb "D" c = false
  /\ Ascii.eqb "I" c = false /\ Ascii.eqb "L" c = false.
Proof.
  unfold plain_char. intros H.
  apply andb_true_iff in H as [H HL]. apply andb_true_iff in H as [H HI].
  apply andb_true_iff in H as [H HD]. apply andb_true_iff in H as [H HN].
  apply negb_true_iff in HL, HI, HD, HN. auto.
Qed.

(** The three patterns of numbers leave a text without [D], [I] and [L]
    as it is. *)
Lemma numbers_untouched (line : str) :
  all_chars (fun c => negb (Ascii.eqb "D" c)) line = true ->
  all_chars (fun c => negb (Ascii.eqb "I" c)) line = true ->
  all_chars (fun c => negb (Ascii.eqb "L" c)) line = true ->
  re_sub LINKS_RE (re_sub INODE_RE (re_sub DEVICE_RE line)) = line.
Proof.
  intros HD HI HL. unfold re_sub, DEVICE_RE, INODE_RE, LINKS_RE.
  rewrite (sub_from_none "D" "evice: " _ line HD).
  rewrite (sub_from_none "I" "node: " _ line HI).
  apply (sub_from_none "L" "inks: " _ line HL).
Qed.

Lemma date_then_rest_match (y m d rest : str) :
  String.length y = 4%nat -> all_chars is_digit y = true ->
  String.length m = 2%nat -> all_chars is_digit m = true ->
  String.length d = 2%nat -> all_chars is_digit d = true ->
  all_chars (fun c => negb (is_newline c)) rest = true ->
  date_then_rest (y +:+ "-" +:+ m +:+ "-" +:+ d +:+ rest +:+ nl) = Some nl.
Proof.
  intros Hy Hyd Hm Hmd Hd Hdd Hrest. unfold date_then_rest, then_.
  rewrite (exactly_all is_digit 4 y _ Hy Hyd), lit_app.
  rewrite (exactly_all is_digit 2 m _ Hm Hmd), lit_app.
  rewrite (exactly_all is_digit 2 d _ Hd Hdd).
  unfold dot_star_eol, nl. rewrite (many_all _ rest "" "010" Hrest eq_refl). reflexivity.
Qed.

Lemma time_line_chars (Q : ascii -> bool) (label y m d rest : str) :
  (forall c, is_digit c = true -> Q c = true) ->
  (forall c, plain_char c = true -> Q c = true) ->
  all_chars Q label = true -> Q ":"%char = true -> Q " "%char = true ->
  Q "-"%char = true -> Q "010"%char = true ->
  all_chars is_digit y = true -> all_chars is_digit m = true ->
  all_chars is_digit d = true -> all_chars plain_char rest = true ->
  all_chars Q (time_line label y m d rest) = true.
Proof.
  intros Hdig Hplain Hlabel Hc Hs Hm Hn Hy Hmo Hd Hrest.
  unfold time_line. rewrite !all_chars_app.
  rewrite Hlabel, (all_chars_impl _ Q y Hdig Hy), (all_chars_impl _ Q m Hdig Hmo),
    (all_chars_impl _ Q d Hdig Hd), (all_chars_impl _ Q rest Hplain Hrest).
  cbn [all_chars nl]. rewrite Hc, Hs, Hm, Hn. reflexivity.
Qed.

Lemma time_line_filtered (label y m d rest : str) :
  all_chars plain_char label = true ->
  all_chars is_digit y = true -> all_chars is_digit m = true ->
  all_chars is_digit d = true -> all_chars plain_char rest = true ->
  utf8_valid_from 0 (time_line label y m d rest) = true
  /\ re_sub LINKS_RE (re_sub INODE_RE (re_sub DEVICE_RE (time_line label y m d rest)))
     = time_line label y m d rest.
Proof.
  intros Hlabel Hy Hm Hd Hrest. split.
  - apply utf8_valid_ascii. apply time_line_chars; try assumption; try reflexivity.
    + intros c Hc. apply is_digit_spec in Hc. tauto.
    + intros c Hc. apply plain_char_spec in Hc. tauto.
    + apply (all_chars_impl plain_char); [|exact Hlabel].
      intros c Hc. apply plain_char_spec in Hc. tauto.
  - apply numbers_untouched; apply time_line_chars; try assumption; try reflexivity.
    + intros c Hc. apply is_digit_spec in Hc. apply negb_true_iff. tauto.
    + intros c Hc. apply plain_char_spec in Hc. apply negb_true_iff. tauto.
    + apply (all_chars_impl plain_char); [|exact Hlabel].
      intros c Hc. apply plain_char_spec in Hc. apply negb_true_iff. tauto.
    + intros c Hc. apply is_digit_spec in Hc. apply negb_true_iff. tauto.
    + intros c Hc. apply plain_char_spec in Hc. apply negb_true_iff. tauto.
    + apply (all_chars_impl plain_char); [|exact Hlabel].
      intros c Hc. apply plain_char_spec in Hc. apply negb_true_iff. tauto.
    + intros c Hc. apply is_digit_spec in Hc. apply negb_true_iff. tauto.
    + intros c Hc. apply plain_char_spec in Hc. apply negb_true_iff. tauto.
    + apply (all_chars_impl plain_char); [|exact Hlabel].
      intros c Hc. apply plain_char_spec in Hc. apply negb_true_iff. tauto.
Qed.

(** X9.  Of the three lines of times that [stat] prints, [Stat.filter]
    empties the access and the change time, whatever the date, and keeps
    the modification time. *)
Theorem Stat_filter_times (y m d rest : str) :
  String.length y = 4%nat -> all_chars is_digit y = true ->
  String.length m = 2%nat -> all_chars is_digit m = true ->
  String.length d = 2%nat -> all_chars is_digit d = true ->
  all_chars plain_char rest = true ->
  Stat_filter (time_line "Access" y m d rest) = Ok nl
  /\ Stat_filter (time_line "Change" y m d rest) = Ok nl
  /\ Stat_filter (time_line "Modify" y m d rest) = Ok (time_line "Modify" y m d rest).
Proof.
  intros Hy Hyd Hm Hmd Hd Hdd Hrest.
  assert (all_chars (fun c => negb (is_newline c)) rest = true) as Hline.
  { apply (all_chars_impl plain_char); [|exact Hrest].
    intros c Hc. apply plain_char_spec in Hc. apply negb_true_iff. tauto. }
  pose proof (date_then_rest_match y m d rest Hy Hyd Hm Hmd Hd Hdd Hline) as Hdate.
  split; [|split].
  - destruct (time_line_filtered "Access" y m d rest eq_refl Hyd Hmd Hdd Hrest) as [Hv Hn].
    unfold Stat_filter, decode_utf8. rewrite Hv. cbn [rbind].
    change (re_sub_anchored FILE_RE (time_line "Access" y m d rest))
      with (time_line "Access" y m d rest).
    rewrite Hn.
    assert (re_sub_anchored ACCESS_TIME_RE (time_line "Access" y m d rest) = nl) as ->.
    { unfold re_sub_anchored, ACCESS_TIME_RE, then_ at 1, time_line.
      change ("Access" +:+ ": " +:+ y +:+ "-" +:+ m +:+ "-" +:+ d +:+ rest +:+ nl)
        with ("Access: " +:+ y +:+ "-" +:+ m +:+ "-" +:+ d +:+ rest +:+ nl).
      rewrite lit_app, Hdate. reflexivity. }
    reflexivity.
  - destruct (time_line_filtered "Change" y m d rest eq_refl Hyd Hmd Hdd Hrest) as [Hv Hn].
    unfold Stat_filter, decode_utf8. rewrite Hv. cbn [rbind].
    change (re_sub_anchored FILE_RE (time_line "Change" y m d rest))
      with (time_line "Change" y m d rest).
    rewrite Hn.
    change (re_sub_anchored ACCESS_TIME_RE (time_line "Change" y m d rest))
      with (time_line "Change" y m d rest).
    assert (re_sub_anchored CHANGE_TIME_RE (time_line "Change" y m d rest) = nl) as ->.
    { unfold re_sub_anchored, CHANGE_TIME_RE, then_ at 1, time_line.
      change ("Change" +:+ ": " +:+ y +:+ "-" +:+ m +:+ "-" +:+ d +:+ rest +:+ nl)
        with ("Change: " +:+ y +:+ "-" +:+ m +:+ "-" +:+ d +:+ rest +:+ nl).
      rewrite lit_app, Hdate. reflexivity. }
    reflexivity.
  - destruct (time_line_filtered "Modify" y m d rest eq_refl Hyd Hmd Hdd Hrest) as [Hv Hn].
    unfold Stat_filter, decode_utf8. rewrite Hv. cbn [rbind].
    change (re_sub_anchored FILE_RE (time_line "Modify" y m d rest))
      with (time_line "Modify" y m d rest).
    rewrite Hn. reflexivity.
Qed.

Lemma spaces_blanks (k : nat) (c : ascii) (r : str) :
  space_width (String c r) = 0%nat ->
  spaces_from 0 (blanks k +:+ String c r) = String c r.
Proof.
  intros Hc. induction k as [|k IH].
  - change (blanks 0 +:+ String c r) with (String c r). cbn [spaces_from]. rewrite Hc. reflexivity.
  - cbn [blanks]. rewrite app_cons.
    change (spaces_from 0 (String " " (blanks k +:+ String c r)))
      with (spaces_from 0 (blanks k +:+ String c r)).
    exact IH.
Qed.

(** X10.  [Stat.filter] empties the line of the file name whatever the
    name is, as long as the line is UTF-8 and the name has no newline. *)
Theorem Stat_filter_file_line (k : nat) (rest : str) :
  utf8_valid_from 0 (blanks k +:+ "File:" +:+ rest +:+ nl) = true ->
  all_chars (fun c => negb (is_newline c)) rest = true ->
  Stat_filter (blanks k +:+ "File:" +:+ rest +:+ nl) = Ok nl.
Proof.
  intros Hv Hrest. unfold Stat_filter, decode_utf8. rewrite Hv. cbn [rbind].
  assert (re_sub_anchored FILE_RE (blanks k +:+ "File:" +:+ rest +:+ nl) = nl) as ->.
  { unfold re_sub_anchored, FILE_RE, then_ at 1, spaces.
    change ("File:" +:+ rest +:+ nl) with (String "F" ("ile:" +:+ rest +:+ nl)).
    rewrite (spaces_blanks k "F" ("ile:" +:+ rest +:+ nl) eq_refl).
    change (String "F" ("ile:" +:+ rest +:+ nl)) with ("File:" +:+ rest +:+ nl).
    unfold then_. rewrite lit_app.
    unfold dot_star_eol, nl. rewrite (many_all _ rest "" "010" Hrest eq_refl). reflexivity. }
  reflexivity.
Qed.

(** X11.  On the line of the device, [Stat.filter] drops the device
    numbers, the inode number and the link count, whatever they are, and
    leaves the tab, the padding of the inode column and the two blanks
    before [Links]: two such lines are the same after the filter exactly
    when the paddings of their inode numbers are. *)
Theorem Stat_filter_device_numbers (h d i l h' d' i' l' : str) :
  h <> "" -> all_chars is_hex h = true ->
  d <> "" -> all_chars is_digit d = true ->
  i <> "" -> all_chars is_digit i = true ->
  l <> "" -> all_chars is_digit l = true ->
  h' <> "" -> all_chars is_hex h' = true ->
  d' <> "" -> all_chars is_digit d' = true ->
  i' <> "" -> all_chars is_digit i' = true ->
  l' <> "" -> all_chars is_digit l' = true ->
  Stat_filter (device_line h d i l)
  = Ok (tab +:+ blanks (10 - String.length i) +:+ "  " +:+ nl)
  /\ (Stat_filter (device_line h d i l) = Stat_filter (device_line h' d' i' l')
      <-> (10 - String.length i = 10 - String.length i')%nat).
Proof.
  intros. rewrite !Stat_filter_device_line by assumption. split; [reflexivity|].
  split.
  - intros Heq. injection Heq as Heq.
    apply (f_equal String.length) in Heq.
    rewrite !length_app_str, !blanks_length in Heq. lia.
  - intros ->. reflexivity.
Qed.
End FilterMore.

(** *** The filter on lines of the sample *)

Lemma Stat_filter_device_numbers_witness :
  Stat_filter (device_line "801" "2049" "1234" "1")
  = Stat_filter (device_line "fe01" "65025" "5678" "2").
Proof.
  apply (proj2 (Stat_filter_device_numbers "801" "2049" "1234" "1" "fe01" "65025" "5678" "2"
                  ltac:(discriminate) eq_refl ltac:(discriminate) eq_refl
                  ltac:(discriminate) eq_refl ltac:(discriminate) eq_refl
                  ltac:(discriminate) eq_refl ltac:(discriminate) eq_refl
                  ltac:(discriminate) eq_refl ltac:(discriminate) eq_refl)).
  reflexivity.
Defined.

Lemma Stat_filter_times_witness :
  Stat_filter (time_line "Access" "2015" "10" "02" " 10:00:00.000000000 +0000") = Ok nl
  /\ Stat_filter (time_line "Change" "2015" "10" "02" " 10:00:00.000000000 +0000") = Ok nl
  /\ Stat_filter (time_line "Modify" "2015" "10" "02" " 10:00:00.000000000 +0000")
     = Ok (time_line "Modify" "2015" "10" "02" " 10:00:00.000000000 +0000").
Proof.
  exact (Stat_filter_times "2015" "10" "02" " 10:00:00.000000000 +0000"
           eq_refl eq_refl eq_refl eq_refl eq_refl eq_refl eq_refl).
Defined.

Lemma Stat_filter_file_line_witness :
  Stat_filter (blanks 2 +:+ "File: 'a name'" +:+ nl) = Ok nl.
Proof.
  exact (Stat_filter_file_line 2 " 'a name'" eq_refl eq_refl).
Defined.

(** ** Meta-data and members *)

Section MetaFacts.
Context {W : World} {T : TextDiff} {P : Plugins}.

Lemma append_unless_tool_missing_raise (ds : list (option Difference))
    (r : result (option Difference)) (e : exn) :
  append_unless_tool_missing ds r = Raise e ->
  r = Raise e /\ forall tool, e <> RequiredToolNotFound tool.
Proof.
  destruct r as [d|[rc cmd out|tool'|k]]; cbn; intros H; try discriminate;
    injection H as <-; split; try reflexivity; intros tool; discriminate.
Qed.


Lemma compare_meta_not_tool_missing (path1 path2 tool : str) :
  compare_meta path1 path2 <> Raise (RequiredToolNotFound tool).
Proof.
  unfold compare_meta. intros H.
  destruct (append_unless_tool_missing [] (from_command Stat path1 path2 None))
    as [ds1|e1] eqn:E1; cbn [rbind] in H.
  2:{ injection H as ->. apply append_unless_tool_missing_raise in E1 as [_ E1].
      exact (E1 tool eq_refl). }
  match type of H with
  | context [append_unless_tool_missing ds1 ?r] =>
      destruct (append_unless_tool_missing ds1 r) as [ds2|e2] eqn:E2; cbn [rbind] in H
  end.
  2:{ injection H as ->. apply append_unless_tool_missing_raise in E2 as [_ E2].
      exact (E2 tool eq_refl). }
  match type of H with
  | context [append_unless_tool_missing ds2 ?r] =>
      destruct (append_unless_tool_missing ds2 r) as [ds3|e3] eqn:E3; cbn [rbind] in H
  end.
  2:{ injection H as ->. apply append_unless_tool_missing_raise in E3 as [_ E3].
      exact (E3 tool eq_refl). }
  discriminate H.
Qed.

Lemma Stat_filter_raises (line : bytes) :
  utf8_valid_from 0 line = false -> Stat_filter line = Raise (PyError "UnicodeDecodeError").
Proof. intros H. unfold Stat_filter, decode_utf8. rewrite H. reflexivity. Qed.

Lemma Stat_filter_result (line : bytes) :
  (exists out, Stat_filter line = Ok out)
  \/ Stat_filter line = Raise (PyError "UnicodeDecodeError").
Proof.
  unfold Stat_filter, decode_utf8. destruct (utf8_valid_from 0 line).
  - left. eexists. reflexivity.
  - right. reflexivity.
Qed.

Lemma rmap_Stat_filter_raises (lines : list bytes) (line : bytes) :
  line ∈ lines -> utf8_valid_from 0 line = false ->
  rmap Stat_filter lines = Raise (PyError "UnicodeDecodeError").
Proof.
  intros Hin Hbad. induction Hin as [line lines|line other lines Hin IH].
  - cbn [rmap]. rewrite (Stat_filter_raises line Hbad). reflexivity.
  - cbn [rmap]. destruct (Stat_filter_result other) as [[out ->]| ->]; [|reflexivity].
    cbn [rbind]. rewrite (IH Hbad). reflexivity.
Qed.

(** X12.  [compare_meta] never raises [RequiredToolNotFound]: each of its
    three checks catches it, also when it is the textual differ that
    misses its tool. *)
Theorem compare_meta_never_tool_missing (path1 path2 tool : str) :
  compare_meta path1 path2 <> Raise (RequiredToolNotFound tool).
Proof. apply compare_meta_not_tool_missing. Qed.

(** X13.  When [stat] is installed and prints, for the first path, a line
    that is not UTF-8 (a file name in another encoding),
    [compare_meta] raises [UnicodeDecodeError]: the filter of [Stat]
    decodes every line, and nothing catches the error. *)
Theorem compare_meta_undecodable_stat (path1 path2 : str) (lines : list bytes) (line : bytes) :
  find_executable "stat" = true ->
  run_command ["stat"; path1] = Ok lines ->
  line ∈ lines ->
  utf8_valid_from 0 line = false ->
  compare_meta path1 path2 = Raise (PyError "UnicodeDecodeError").
Proof.
  intros Hstat Hrun Hin Hbad.
  unfold compare_meta, from_command, filtered_output at 1, Stat at 1, tool_required.
  cbn [cmdline filter]. rewrite Hstat. cbn [rbind]. rewrite Hrun. cbn [rbind].
  change (filter (Stat path1)) with Stat_filter.
  rewrite (rmap_Stat_filter_raises lines line Hin Hbad). reflexivity.
Qed.

(** X14.  On a machine without [stat], [lsattr] and [getfacl],
    [compare_meta] compares nothing and reports no difference, whatever
    the two paths are. *)
Theorem compare_meta_without_tools (path1 path2 : str) :
  find_executable "stat" = false ->
  find_executable "lsattr" = false ->
  find_executable "getfacl" = false ->
  compare_meta path1 path2 = Ok [].
Proof.
  intros Hstat Hlsattr Hgetfacl.
  unfold compare_meta, from_command, filtered_output, lsattr, Stat, Getfacl, tool_required.
  cbn [cmdline]. rewrite Hstat, Hlsattr, Hgetfacl. reflexivity.
Qed.


End MetaFacts.

Section MemberFacts.
Context {W : World} {T : TextDiff} {P : Plugins}.

Lemma compare_member_run (self other : FilesystemDirectory) (member_name : str) (s : Store) :
  compare_member self other member_name s
  = match compare_files (my_member self member_name s) (other_member other member_name s)
            (Some (OneLabel member_name)) (store_of_members s) with
    | (Ok inner, s') =>
        match compare_meta (os_path_join (dir_path self) member_name)
                           (os_path_join (dir_path other) member_name) with
        | Ok meta =>
            (Ok match inner, meta with
                | Some d, _ => Some (add_details d meta)
                | None, _ :: _ =>
                    Some (add_details
                            (Difference_init None (os_path_join (dir_path self) member_name)
                               (os_path_join (dir_path other) member_name) None None) meta)
                | None, [] => None
                end, s')
        | Raise e => (Raise e, s')
        end
    | (Raise e, s') => (Raise e, s')
    end.
Proof.
  unfold compare_member, get_member, my_member, other_member, store_of_members.
  unfold bind at 1. cbv beta iota. unfold bind at 1. cbv beta iota.
  cbn [next_id _as_container]. unfold bind at 1.
  destruct (compare_files _ _ _ _) as [[inner|e] s1]; [|reflexivity].
  unfold bind, lift. cbn [name path FilesystemFile].
  destruct (compare_meta _ _) as [meta|e]; [|reflexivity].
  destruct inner as [d|], meta as [|m meta]; reflexivity.
Qed.

(** X16.  What the loop of [FilesystemDirectory.compare] reports for a
    common name: nothing exactly when [compare_files] finds nothing and
    [compare_meta] finds nothing for the two member paths.  Otherwise the
    differences of meta-data come last among the details, after what
    [compare_files] found, on the node [compare_files] returned; when
    [compare_files] found nothing, the node is a new one without a
    diff, labelled with the two paths of the member and not with its
    name. *)
Theorem compare_member_reports (self other : FilesystemDirectory) (member_name : str)
    (s s' : Store) (r : option Difference) :
  compare_member self other member_name s = (Ok r, s') ->
  exists inner meta,
    compare_files (my_member self member_name s) (other_member other member_name s)
      (Some (OneLabel member_name)) (store_of_members s) = (Ok inner, s')
    /\ compare_meta (os_path_join (dir_path self) member_name)
                    (os_path_join (dir_path other) member_name) = Ok meta
    /\ (r = None <-> inner = None /\ meta = [])
    /\ forall d, r = Some d ->
         match inner with
         | Some i =>
             details d = (details i ++ meta)%list
             /\ source1 d = source1 i /\ source2 d = source2 i
             /\ unified_diff d = unified_diff i /\ comments d = comments i
         | None =>
             details d = meta
             /\ source1 d = os_path_join (dir_path self) member_name
             /\ source2 d = os_path_join (dir_path other) member_name
             /\ unified_diff d = None /\ comments d = []
         end.
Proof.
  rewrite compare_member_run. intros H.
  destruct (compare_files _ _ _ _) as [[inner|e] s1]; [|discriminate].
  destruct (compare_meta _ _) as [meta|e]; [|discriminate].
  injection H as <- <-. exists inner, meta.
  split; [reflexivity|]. split; [reflexivity|].
  destruct inner as [i|], meta as [|m meta]; (split; [split|]).
  all: try discriminate.
  all: try (intros [? ?]; discriminate).
  all: try (intros _; split; reflexivity).
  all: try (intros d [= <-]; repeat split; reflexivity).
Qed.

Lemma mapM_raise {A B} (f : A -> M B) (l : list A) :
  forall (s s' : Store) (e : exn),
    mapM f l s = (Raise e, s') ->
    exists a s1, a ∈ l /\ f a s1 = (Raise e, s').
Proof.
  induction l as [|a l IH]; intros s s' e Hrun; [discriminate|].
  simpl in Hrun. unfold bind in Hrun.
  destruct (f a s) as [[b|e1] s1] eqn:Ea.
  - destruct (mapM f l s1) as [[bs|e2] s2] eqn:El; [discriminate|].
    injection Hrun as <- <-.
    destruct (IH s1 s2 e2 El) as (a' & s3 & Hin & Hf).
    exists a', s3. split; [right; exact Hin | exact Hf].
  - injection Hrun as <- <-. exists a, s. split; [left | exact Ea].
Qed.

Lemma listing_differences_never_tool_missing (self other : FilesystemDirectory) (tool : str) :
  listing_differences self other <> Raise (RequiredToolNotFound tool).
Proof.
  unfold listing_differences.
  destruct (from_text _ _ _ _ _ _) as [[d|]|[rc cmd out|tool'|k]]; discriminate.
Qed.

(** X17.  [FilesystemDirectory.compare] raises [RequiredToolNotFound]
    only out of [compare_files] on a common member: the listing and the
    comparisons of meta-data catch it. *)
Theorem FilesystemDirectory_compare_tool_missing (self other : FilesystemDirectory)
    (source : Source) (s s' : Store) (tool : str) :
  FilesystemDirectory_compare self other source s = (Raise (RequiredToolNotFound tool), s') ->
  exists member_name s1,
    member_name ∈ get_member_names (dir_path self)
    /\ member_name ∈ get_member_names (dir_path other)
    /\ compare_files (my_member self member_name s1) (other_member other member_name s1)
         (Some (OneLabel member_name)) (store_of_members s1)
       = (Raise (RequiredToolNotFound tool), s').
Proof.
  unfold FilesystemDirectory_compare. intros H.
  unfold bind at 1, lift at 1 in H.
  destruct (listing_differences self other) as [listing|e] eqn:El.
  2:{ injection H as -> _. exfalso. exact (listing_differences_never_tool_missing _ _ _ El). }
  unfold bind at 1, lift at 1 in H.
  destruct (compare_meta (dir_name self) (dir_name other)) as [meta|e] eqn:Em.
  2:{ injection H as -> _. exfalso. exact (compare_meta_not_tool_missing _ _ _ Em). }
  unfold bind at 1 in H.
  destruct (mapM _ _ s) as [[members|e] s1] eqn:Eloop.
  { cbv beta iota in H.
    destruct (listing ++ meta ++ filter_None members)%list as [|d0 ds0];
      cbv beta iota delta [ret] in H; congruence. }
  injection H as -> ->.
  apply mapM_raise in Eloop as (member_name & s1 & Hin & Hrun).
  apply common_names_elem in Hin as [Hmy Hother].
  exists member_name, s1. split; [exact Hmy|]. split; [exact Hother|].
  rewrite compare_member_run in Hrun.
  destruct (compare_files _ _ _ _) as [[inner|e] s2]; [|exact Hrun].
  destruct (compare_meta (os_path_join (dir_path self) member_name)
              (os_path_join (dir_path other) member_name)) as [meta'|e] eqn:Em';
    [discriminate Hrun|].
  injection Hrun as -> _. exfalso. exact (compare_meta_not_tool_missing _ _ _ Em').
Qed.
End MemberFacts.

(** ** The further properties of directory.py on the sample worlds *)

Lemma compare_meta_without_tools_witness :
  compare_meta (W:=bare_world) (T:=missing_diff) "left" "right" = Ok [].
Proof.
  exact (compare_meta_without_tools (W:=bare_world) (T:=missing_diff) "left" "right"
           eq_refl eq_refl eq_refl).
Defined.


Lemma compare_meta_undecodable_stat_witness :
  compare_meta (W:=latin1_world) (T:=plain_diff) "left" "right"
  = Raise (PyError "UnicodeDecodeError").
Proof.
  apply (compare_meta_undecodable_stat (W:=latin1_world) (T:=plain_diff) "left" "right"
           ["  File: 'caf" +:+ String (ascii_of_N 233) "'" +:+ nl]
           ("  File: 'caf" +:+ String (ascii_of_N 233) "'" +:+ nl)).
  - reflexivity.
  - reflexivity.
  - left.
  - vm_compute. reflexivity.
Defined.

Lemma compare_member_reports_witness :
  exists r s', compare_member (W:=full_world) (T:=plain_diff) (P:=quiet_plugins)
                 left_dir right_dir "a" empty_store = (Ok r, s')
               /\ r <> None.
Proof.
  assert (exists r s', compare_member (W:=full_world) (T:=plain_diff) (P:=quiet_plugins)
                 left_dir right_dir "a" empty_store = (Ok r, s')) as (r & s' & Hrun).
  { eexists. eexists. vm_compute. reflexivity. }
  exists r, s'. split; [exact Hrun|].
  destruct (compare_member_reports (W:=full_world) (T:=plain_diff) (P:=quiet_plugins)
              left_dir right_dir "a" empty_store s' r Hrun)
    as (inner & meta & Hfiles & Hmeta & Hnone & Hsome).
  intros Hr. apply Hnone in Hr as [Hinner _]. rewrite Hinner in Hfiles.
  vm_compute in Hfiles. discriminate Hfiles.
Defined.

Lemma FilesystemDirectory_compare_tool_missing_witness :
  exists member_name s1 s',
    compare_files (Plugins:=toolless_member_plugins)
      (my_member left_dir member_name s1) (other_member right_dir member_name s1)
      (Some (OneLabel member_name)) (store_of_members s1)
    = (Raise (RequiredToolNotFound "cmp"), s').
Proof.
  assert (exists s', FilesystemDirectory_compare (W:=full_world) (T:=plain_diff)
            (P:=toolless_member_plugins) left_dir right_dir None empty_store
          = (Raise (RequiredToolNotFound "cmp"), s')) as (s' & Hrun).
  { eexists. vm_compute. reflexivity. }
  destruct (FilesystemDirectory_compare_tool_missing (W:=full_world) (T:=plain_diff)
              (P:=toolless_member_plugins) left_dir right_dir None empty_store s' "cmp" Hrun)
    as (member_name & s1 & _ & _ & Hfiles).
  exists member_name, s1, s'. exact Hfiles.
Defined.

(** ** The listing of a directory and the names of its members *)

Section ListFiles.
Context {W : World}.

Lemma dirnames_valid es :
  well_named (NDir es) = true -> Forall (fun nm => valid_name nm = true) (dirnames es).
Proof.
  induction es as [|[nm c] es IH]; intros Hw; [constructor|].
  apply well_named_inv in Hw as (Hnm & Hc & Hes).
  unfold dirnames. simpl. destruct (is_dir c); simpl.
  - constructor; [exact Hnm | apply IH; exact Hes].
  - apply IH; exact Hes.
Qed.

Lemma slice_from_all (p : str) : slice_from (String.length p + 1) p = "".
Proof. induction p as [|x p IH]; [reflexivity | exact IH]. Qed.

(** [os.walk] and the enumeration, entry by entry. *)
Lemma os_walk_unfold (top : str) (es : list (str * Node)) :
  os_walk top (NDir es)
  = (top, dirnames es, filenames es)
    :: flat_map (fun e => os_walk (os_path_join top (fst e)) (snd e)) es.
Proof.
  cbn [os_walk]. f_equal.
  induction es as [|[nm c] es IH]; [reflexivity|].
  cbn [flat_map fst snd]. rewrite IH. destruct c; reflexivity.
Qed.

Lemma descendant_entries_unfold (es : list (str * Node)) :
  descendant_entries (NDir es)
  = flat_map (fun e => fst e :: map (fun p => fst e +:+ "/" +:+ p)
                                  (descendant_entries (snd e))) es.
Proof.
  cbn [descendant_entries].
  induction es as [|[nm c] es IH]; [reflexivity|].
  cbn [flat_map fst snd]. rewrite IH. reflexivity.
Qed.

Lemma flat_map_flat_map {A B C} (g : B -> list C) (h : A -> list B) (l : list A) :
  flat_map g (flat_map h l) = flat_map (fun a => flat_map g (h a)) l.
Proof.
  induction l as [|a l IH]; [reflexivity|].
  cbn [flat_map]. rewrite flat_map_app, IH. reflexivity.
Qed.

(** The entries of one directory and what the walks of its
    sub-directories give, against the enumeration. *)
Lemma entries_step (f : str -> str) (es : list (str * Node))
    (walked : str * Node -> list str) (below : Node -> list str) :
  (forall e, e ∈ es ->
     walked e ≡ₚ map f (map (fun p => fst e +:+ "/" +:+ p) (below (snd e)))) ->
  (map f (dirnames es) ++ map f (filenames es) ++ flat_map walked es)%list
  ≡ₚ map f (flat_map (fun e => fst e :: map (fun p => fst e +:+ "/" +:+ p) (below (snd e))) es).
Proof.
  induction es as [|[nm c] es IH]; intros Hw; [reflexivity|].
  assert (map f (dirnames es) ++ map f (filenames es) ++ flat_map walked es
          ≡ₚ map f (flat_map (fun e => fst e :: map (fun p => fst e +:+ "/" +:+ p)
                                                  (below (snd e))) es))%list as IH'.
  { apply IH. intros e Hin. apply Hw. right. exact Hin. }
  cbn [flat_map fst snd]. rewrite map_app. cbn [map]. rewrite <- IH'.
  rewrite <- (Hw (nm, c)) by left.
  unfold dirnames, filenames. cbn [List.filter snd].
  destruct (is_dir c); cbn [negb map fst]; solve_Permutation.
Qed.

Lemma entries_below (n : Node) :
  well_named n = true ->
  forall path rel : str,
    rel <> "" -> ends_with_slash rel = false ->
    flat_map (fun '(root, dirs, names) =>
                let rel := slice_from (String.length path + 1) root in
                (map (os_path_join rel) dirs ++ map (os_path_join rel) names)%list)
             (os_walk (path +:+ "/" +:+ rel) n)
    ≡ₚ map (fun p => rel +:+ "/" +:+ p) (descendant_entries n).
Proof.
  induction n as [| |es IH] using Node_nested_ind; intros Hw path rel Hrel Hend;
    [reflexivity | reflexivity |].
  rewrite os_walk_unfold, descendant_entries_unfold. cbn [flat_map].
  change ("/" +:+ rel) with (String "/" rel).
  rewrite slice_from_app.
  rewrite (map_join_valid rel _ Hrel Hend (dirnames_valid es Hw)).
  rewrite (map_join_valid rel _ Hrel Hend (filenames_valid es Hw)).
  rewrite flat_map_flat_map, <- app_assoc.
  apply entries_step.
  intros [nm c] Hin. cbn [fst snd].
  assert (valid_name nm = true /\ well_named c = true) as [Hnm Hc].
  { clear -Hw Hin. induction es as [|[nm' c'] es IHes]; [inversion Hin|].
    apply well_named_inv in Hw as (Hnm' & Hc' & Hes).
    apply elem_of_cons in Hin as [[= -> ->]|Hin]; [split; assumption | apply IHes; assumption]. }
  rewrite Forall_forall in IH. specialize (IH (nm, c)). cbn [snd] in IH.
  assert (path +:+ String "/" rel <> "") as Htop.
  { intros E. apply str_app_eq_nil in E. discriminate. }
  assert (ends_with_slash (path +:+ String "/" rel) = false) as Htopend.
  { rewrite ends_with_slash_app by discriminate.
    change (String "/" rel) with ("/" +:+ rel).
    rewrite ends_with_slash_app by exact Hrel. exact Hend. }
  rewrite (os_path_join_name _ nm Htop Htopend Hnm).
  destruct (valid_name_inv nm Hnm) as (Hne & _ & Hnmend).
  change (String "/" rel) with ("/" +:+ rel).
  replace ((path +:+ "/" +:+ rel) +:+ "/" +:+ nm) with (path +:+ "/" +:+ (rel +:+ "/" +:+ nm))
    by (rewrite !str_app_assoc; reflexivity).
  rewrite (IH Hin Hc path (rel +:+ "/" +:+ nm)).
  - rewrite map_map. erewrite map_ext; [reflexivity|]. intros p. cbv beta.
    rewrite !str_app_assoc. reflexivity.
  - intros E. apply str_app_eq_nil in E. discriminate.
  - rewrite ends_with_slash_app by discriminate.
    change ("/" +:+ nm) with (String "/" nm).
    change (String "/" nm) with ("/" +:+ nm).
    rewrite ends_with_slash_app by exact Hne. exact Hnmend.
Qed.

Lemma entries_at_top (es : list (str * Node)) (path : str) :
  well_named (NDir es) = true ->
  path <> "" -> ends_with_slash path = false ->
  flat_map (fun '(root, dirs, names) =>
              let rel := slice_from (String.length path + 1) root in
              (map (os_path_join rel) dirs ++ map (os_path_join rel) names)%list)
           (os_walk path (NDir es))
  ≡ₚ descendant_entries (NDir es).
Proof.
  intros Hw Hpath Hend.
  rewrite os_walk_unfold, descendant_entries_unfold. cbn [flat_map].
  rewrite slice_from_all.
  rewrite (map_join_empty _ (dirnames_valid es Hw)).
  rewrite (map_join_empty _ (filenames_valid es Hw)).
  rewrite flat_map_flat_map, <- app_assoc.
  match goal with
  | |- (_ ++ _ ++ flat_map ?w es)%list ≡ₚ _ =>
      pose proof (entries_step (fun p => p) es w descendant_entries) as Hstep
  end.
  rewrite !List.map_id in Hstep. apply Hstep. clear Hstep.
  intros [nm c] Hin. cbn [fst snd]. rewrite List.map_id.
  assert (valid_name nm = true /\ well_named c = true) as [Hnm Hc].
  { clear -Hw Hin. induction es as [|[nm' c'] es IHes]; [inversion Hin|].
    apply well_named_inv in Hw as (Hnm' & Hc' & Hes).
    apply elem_of_cons in Hin as [[= -> ->]|Hin]; [split; assumption | apply IHes; assumption]. }
  rewrite (os_path_join_name path nm Hpath Hend Hnm).
  destruct (valid_name_inv nm Hnm) as (Hne & _ & Hnmend).
  apply (entries_below c Hc path nm Hne Hnmend).
Qed.

Lemma descendant_files_unfold (es : list (str * Node)) :
  descendant_files (NDir es)
  = (filenames es
     ++ flat_map (fun e => map (fun p => fst e +:+ "/" +:+ p) (descendant_files (snd e))) es)%list.
Proof.
  cbn [descendant_files]. f_equal.
  induction es as [|[nm c] es IH]; [reflexivity|].
  cbn [flat_map fst snd]. rewrite IH. destruct c; reflexivity.
Qed.

Lemma filenames_elem (es : list (str * Node)) (x : str) :
  x ∈ filenames es -> exists c, (x, c) ∈ es.
Proof.
  unfold filenames. intros Hin. apply list_elem_of_In, in_map_iff in Hin as ([nm c] & <- & Hin).
  apply filter_In in Hin as [Hin _]. exists c. apply list_elem_of_In. exact Hin.
Qed.

Lemma entry_listed (es : list (str * Node)) (nm : str) (c : Node) :
  (nm, c) ∈ es -> nm ∈ descendant_entries (NDir es).
Proof.
  intros Hin. rewrite descendant_entries_unfold.
  apply list_elem_of_In, in_flat_map. exists (nm, c).
  split; [apply list_elem_of_In; exact Hin | left; reflexivity].
Qed.

(** Every file of the enumeration of files is among the entries. *)
Lemma files_among_entries (n : Node) (x : str) :
  x ∈ descendant_files n -> x ∈ descendant_entries n.
Proof.
  revert x. induction n as [| |es IH] using Node_nested_ind; intros x Hin;
    [exact Hin | exact Hin |].
  rewrite descendant_files_unfold in Hin. apply elem_of_app in Hin as [Hin|Hin].
  - apply filenames_elem in Hin as [c Hin]. exact (entry_listed es x c Hin).
  - rewrite descendant_entries_unfold.
    apply list_elem_of_In, in_flat_map in Hin as (e & He & Hin).
    apply list_elem_of_In, in_flat_map. exists e. split; [exact He|].
    right. apply in_map_iff in Hin as (p & <- & Hp).
    apply (in_map (fun p => fst e +:+ "/" +:+ p)).
    apply list_elem_of_In. rewrite Forall_forall in IH.
    apply (IH e); [apply list_elem_of_In; exact He | apply list_elem_of_In; exact Hp].
Qed.

Lemma list_files_sorted_entries (path : str) (es : list (str * Node)) :
  tree_at (realpath path) = Some (NDir es) ->
  well_named (NDir es) = true ->
  realpath path <> "" ->
  ends_with_slash (realpath path) = false ->
  list_files path = sorted (descendant_entries (NDir es)).
Proof.
  intros Htree Hw Hpath Hend. unfold list_files, walk. rewrite Htree.
  apply sorted_of_permutation. apply entries_at_top; assumption.
Qed.

(** X18.  For a directory whose entries have well-formed names and
    whose real path is not empty and ends with no separator,
    [list_files] returns the relative paths of everything below the
    directory, each once for each time it occurs, in sorted order: the
    entries of the directory themselves, directories and links to
    directories included, and all the files that [get_member_names]
    enumerates. *)
Theorem list_files_enumerates (path : str) (es : list (str * Node)) :
  tree_at (realpath path) = Some (NDir es) ->
  well_named (NDir es) = true ->
  realpath path <> "" ->
  ends_with_slash (realpath path) = false ->
  list_files path ≡ₚ descendant_entries (NDir es)
  /\ Sorted String.le (list_files path)
  /\ (forall nm c, (nm, c) ∈ es -> nm ∈ list_files path)
  /\ (forall n, n ∈ descendant_files (NDir es) -> n ∈ list_files path).
Proof.
  intros Htree Hw Hpath Hend.
  rewrite (list_files_sorted_entries path es Htree Hw Hpath Hend).
  assert (sorted (descendant_entries (NDir es)) ≡ₚ descendant_entries (NDir es)) as Hperm.
  { unfold sorted. apply merge_sort_Permutation. }
  split; [exact Hperm|]. split; [apply Sorted_merge_sort; apply _|]. split.
  - intros nm c Hin. rewrite Hperm. exact (entry_listed es nm c Hin).
  - intros n Hin. rewrite Hperm. exact (files_among_entries (NDir es) n Hin).
Qed.

Lemma entries_of_permutation (es es' : list (str * Node)) :
  es ≡ₚ es' -> descendant_entries (NDir es) ≡ₚ descendant_entries (NDir es').
Proof.
  intros Hperm. rewrite !descendant_entries_unfold.
  apply Permutation_flat_map. exact Hperm.
Qed.

(** X19.  Two directories have the same [list_files] exactly when the
    same relative paths lie below them, whatever the order in which the
    system lists them; in particular when the entries of the one are the
    entries of the other in another order. *)
Theorem list_files_same_listing (path path' : str) (es es' : list (str * Node)) :
  tree_at (realpath path) = Some (NDir es) ->
  well_named (NDir es) = true ->
  realpath path <> "" ->
  ends_with_slash (realpath path) = false ->
  tree_at (realpath path') = Some (NDir es') ->
  well_named (NDir es') = true ->
  realpath path' <> "" ->
  ends_with_slash (realpath path') = false ->
  (list_files path = list_files path'
   <-> descendant_entries (NDir es) ≡ₚ descendant_entries (NDir es'))
  /\ (es ≡ₚ es' -> list_files path = list_files path').
Proof.
  intros Htree Hw Hpath Hend Htree' Hw' Hpath' Hend'.
  rewrite (list_files_sorted_entries path es Htree Hw Hpath Hend).
  rewrite (list_files_sorted_entries path' es' Htree' Hw' Hpath' Hend').
  assert (sorted (descendant_entries (NDir es)) = sorted (descendant_entries (NDir es'))
          <-> descendant_entries (NDir es) ≡ₚ descendant_entries (NDir es')) as Hiff.
  { split; [|apply sorted_of_permutation].
    intros Heq. unfold sorted in Heq.
    rewrite <- (merge_sort_Permutation String.le (descendant_entries (NDir es))).
    rewrite Heq. apply merge_sort_Permutation. }
  split; [exact Hiff|].
  intros Hperm. apply Hiff. apply entries_of_permutation. exact Hperm.
Qed.




(** The names of the enumeration of files are relative. *)
Lemma descendant_files_relative (n : Node) (x : str) :
  well_named n = true -> x ∈ descendant_files n ->
  x <> "" /\ starts_with_slash x = false.
Proof.
  revert x. induction n as [| |es IH] using Node_nested_ind; intros x Hw Hin;
    [inversion Hin | inversion Hin |].
  rewrite descendant_files_unfold in Hin. apply elem_of_app in Hin as [Hin|Hin].
  - pose proof (filenames_valid es Hw) as Hall. rewrite Forall_forall in Hall.
    destruct (valid_name_inv x (Hall x Hin)) as (Hne & Hstart & _). split; assumption.
  - apply list_elem_of_In, in_flat_map in Hin as ([nm c] & He & Hin).
    apply in_map_iff in Hin as (p & <- & _). cbn [fst].
    assert (valid_name nm = true) as Hnm.
    { clear -Hw He. induction es as [|[nm' c'] es IHes]; [inversion He|].
      apply well_named_inv in Hw as (Hnm' & Hc' & Hes).
      destruct He as [[= -> ->]|He]; [assumption | apply IHes; assumption]. }
    destruct (valid_name_inv nm Hnm) as (Hne & Hstart & _).
    destruct nm as [|a nm]; [contradiction|]. split; [discriminate | exact Hstart].
Qed.

(** X21.  For a directory whose entries have well-formed names, reached
    by a path that is not empty and ends with no separator, every name
    that [get_member_names] returns is relative (not empty, no separator
    in front), so that [get_member] makes a new [FilesystemFile] whose
    path is the path of the directory, a separator and the name. *)
Theorem get_member_below_directory (path member_name : str) (es : list (str * Node))
    (s : Store) :
  tree_at path = Some (NDir es) ->
  well_named (NDir es) = true ->
  path <> "" ->
  ends_with_slash path = false ->
  member_name ∈ get_member_names path ->
  member_name <> "" /\ starts_with_slash member_name = false
  /\ get_member path member_name s
     = (Ok (FilesystemFile (next_id s) (path +:+ "/" +:+ member_name)),
        mkStore (S (next_id s)) (_as_container s)).
Proof.
  intros Htree Hw Hpath Hend Hin.
  unfold get_member_names, walk in Hin. rewrite Htree in Hin.
  rewrite (names_at_top es path Hw Hpath Hend) in Hin.
  destruct (descendant_files_relative (NDir es) member_name Hw Hin) as [Hne Hstart].
  split; [exact Hne|]. split; [exact Hstart|].
  unfold get_member, os_path_join. rewrite Hstart, Hend.
  rewrite (proj2 (String.eqb_neq path "") Hpath). reflexivity.
Qed.
End ListFiles.

(** ** The listing and the members on the sample worlds *)

Lemma list_files_enumerates_witness :
  list_files (W:=full_world) "tree" ≡ₚ descendant_entries (NDir sample_tree)
  /\ "link" ∈ list_files (W:=full_world) "tree"
  /\ "sub/z" ∈ list_files (W:=full_world) "tree".
Proof.
  destruct (list_files_enumerates (W:=full_world) "tree" sample_tree
              eq_refl eq_refl ltac:(discriminate) eq_refl)
    as (Hperm & _ & Hentries & Hfiles).
  split; [exact Hperm|]. split.
  - apply (Hentries "link" NLinkToDir). unfold sample_tree. set_solver.
  - apply Hfiles. vm_compute. set_solver.
Defined.

Lemma list_files_same_listing_witness :
  list_files (W:=full_world) "left" = list_files (W:=full_world) "right".
Proof.
  apply (proj2 (list_files_same_listing (W:=full_world) "left" "right"
                  [("b", NFile); ("a", NFile); ("c", NFile)]
                  [("c", NFile); ("a", NFile); ("b", NFile)]
                  eq_refl eq_refl ltac:(discriminate) eq_refl
                  eq_refl eq_refl ltac:(discriminate) eq_refl)).
  solve_Permutation.
Defined.


Lemma get_member_below_directory_witness :
  get_member "tree" "sub/z" empty_store
  = (Ok (FilesystemFile 0 "tree/sub/z"), mkStore 1 ∅).
Proof.
  apply (get_member_below_directory (W:=full_world) "tree" "sub/z" sample_tree empty_store).
  - reflexivity.
  - reflexivity.
  - discriminate.
  - reflexivity.
  - vm_compute. set_solver.
Defined.

(** ** The flags of [lsattr] *)

Section LsattrFacts.
Context {W : World}.

Lemma byte_in_disjoint (lo hi lo' hi' : N) (c : ascii) :
  byte_in lo hi c = true -> (hi < lo' \/ hi' < lo)%N -> byte_in lo' hi' c = false.
Proof.
  unfold byte_in. intros H Hd. apply andb_true_iff in H as [Hlo Hhi].
  apply N.leb_le in Hlo, Hhi. apply andb_false_iff.
  destruct Hd as [Hd|Hd]; [left | right]; apply N.leb_gt; lia.
Qed.

(** A printable 7-bit character other than the blank is no white space. *)
Lemma space_width_graph (c : ascii) (s : str) :
  byte_in 33 126 c = true -> space_width (String c s) = 0%nat.
Proof.
  intros Hc. unfold space_width.
  rewrite (byte_in_disjoint 33 126 9 13 c Hc) by (right; lia).
  rewrite (byte_in_disjoint 33 126 28 32 c Hc) by (right; lia).
  rewrite (byte_in_disjoint 33 126 194 194 c Hc) by (left; lia).
  rewrite (byte_in_disjoint 33 126 225 225 c Hc) by (left; lia).
  rewrite (byte_in_disjoint 33 126 226 226 c Hc) by (left; lia).
  rewrite (byte_in_disjoint 33 126 227 227 c Hc) by (left; lia).
  destruct s as [|c2 [|c3 s]]; reflexivity.
Qed.

Lemma first_word_from_word (fl rest : str) (w : str) :
  all_chars (byte_in 33 126) fl = true ->
  first_word_from 0 (Some w) (fl +:+ String " " rest) = Some (String.rev_app w fl).
Proof.
  revert w. induction fl as [|c fl IH]; intros w Hfl.
  - change ("" +:+ String " " rest) with (String " " rest).
    cbn [first_word_from]. change (space_width (String " " rest)) with 1%nat.
    reflexivity.
  - cbn [all_chars] in Hfl. apply andb_true_iff in Hfl as [Hc Hfl].
    rewrite app_cons. cbn [first_word_from].
    rewrite (space_width_graph c _ Hc). cbv iota.
    rewrite (IH (String c w) Hfl). reflexivity.
Qed.

(** X22.  [lsattr] returns the first word of what the tool prints: when
    the output is the flags (printable 7-bit characters other than the
    blank), a blank and anything after it (the path), the result is the
    flags alone, so that the path takes no part in the comparison. *)
Theorem lsattr_first_word (path flags rest : str) :
  find_executable "lsattr" = true ->
  check_output_lsattr path = Ok (flags +:+ " " +:+ rest) ->
  utf8_valid_from 0 (flags +:+ " " +:+ rest) = true ->
  flags <> "" ->
  all_chars (byte_in 33 126) flags = true ->
  lsattr path = Ok (Some flags).
Proof.
  intros Htool Hout Hvalid Hne Hflags.
  unfold lsattr, tool_required. rewrite Htool, Hout.
  unfold decode_utf8. rewrite Hvalid. cbn [rbind].
  destruct flags as [|c fl]; [contradiction|].
  cbn [all_chars] in Hflags. apply andb_true_iff in Hflags as [Hc Hfl].
  rewrite app_cons. cbn [first_word_from].
  rewrite (space_width_graph c _ Hc). cbv iota.
  change (" " +:+ rest) with (String " " rest).
  rewrite (first_word_from_word fl rest (String c "") Hfl). reflexivity.
Qed.
End LsattrFacts.

Lemma lsattr_first_word_witness :
  lsattr (W:=full_world) "left" = Ok (Some "-------------e--").
Proof.
  exact (lsattr_first_word (W:=full_world) "left" "-------------e--" ("left" +:+ nl)
           eq_refl eq_refl eq_refl ltac:(discriminate) eq_refl).
Defined.
